(** * MCP_1copilot: session store and streamed-answer reconstruction

    A shallow embedding of [MCP_1copilot/api_client.py],
    [MCP_1copilot/config.py] and the tool handlers of
    [MCP_1copilot/mcp_server.py], with the properties of the session
    lifecycle and of the server-sent-event parser stated over it. *)

From Stdlib Require Import ZArith NArith String Ascii List Bool Lia.
From Stdlib Require Import DecimalString.
Import ListNotations.

Local Open Scope Z_scope.

Set Warnings "-register-all".

(** ** Python text

    A Python [str] is a sequence of Unicode code points.  Lone surrogates
    (U+D800..U+DFFF) are legal elements of a [str]; they are what the
    defensive re-encoding of the parser discards. *)

Module Str.

Definition str := list N.

Definition eqb (a b : str) : bool :=
  if list_eq_dec N.eq_dec a b then true else false.

(** [s.startswith(p)] *)
Fixpoint startswith (s p : str) : bool :=
  match p, s with
  | [], _ => true
  | _ :: _, [] => false
  | c :: p', d :: s' => N.eqb c d && startswith s' p'
  end.

(** [Py_UNICODE_ISSPACE]: the code points [str.strip()] removes. *)
Definition isspace (c : N) : bool :=
  ((9 <=? c) && (c <=? 13) || (28 <=? c) && (c <=? 32)
   || (c =? 133) || (c =? 160) || (c =? 5760)
   || (8192 <=? c) && (c <=? 8202)
   || (c =? 8232) || (c =? 8233) || (c =? 8239) || (c =? 8287)
   || (c =? 12288))%N.

Fixpoint lstrip (s : str) : str :=
  match s with
  | [] => []
  | c :: s' => if isspace c then lstrip s' else s
  end.

Definition rstrip (s : str) : str := rev (lstrip (rev s)).

(** [s.strip()] *)
Definition strip (s : str) : str := rstrip (lstrip s).

(** [s.encode('ascii')] succeeds: every code point is below 128. *)
Definition is_ascii (s : str) : bool := forallb (fun c => (c <? 128)%N) s.

(** *** UTF-8 *)

Definition is_surrogate (c : N) : bool := ((55296 <=? c) && (c <=? 57343))%N.

Definition is_cont (b : N) : bool := ((128 <=? b) && (b <=? 191))%N.

(** The bytes of one code point; nothing for a code point UTF-8 cannot
    carry (a surrogate, or a value past U+10FFFF). *)
Definition encode1 (c : N) : list N :=
  (if c <? 128 then [c]
   else if c <? 2048 then [192 + c / 64; 128 + c mod 64]
   else if is_surrogate c then []
   else if c <? 65536 then
     [224 + c / 4096; 128 + (c / 64) mod 64; 128 + c mod 64]
   else if c <? 1114112 then
     [240 + c / 262144; 128 + (c / 4096) mod 64;
      128 + (c / 64) mod 64; 128 + c mod 64]
   else [])%N.

(** [s.encode('utf-8', errors='ignore')] *)
Definition encode_ignore (s : str) : list N := flat_map encode1 s.

(** [b.decode('utf-8', errors='ignore')]: well-formed sequences give their
    code point, a byte that starts no well-formed sequence is dropped. *)
Fixpoint decode_ignore (bs : list N) : str :=
  match bs with
  | [] => []
  | b1 :: r1 =>
    (if b1 <? 128 then b1 :: decode_ignore r1
     else
       match r1 with
       | [] => []
       | b2 :: r2 =>
         if (194 <=? b1) && (b1 <=? 223) then
           if is_cont b2 then ((b1 - 192) * 64 + (b2 - 128)) :: decode_ignore r2
           else decode_ignore r1
         else
           match r2 with
           | [] => decode_ignore r1
           | b3 :: r3 =>
             if (224 <=? b1) && (b1 <=? 239) then
               let c := (b1 - 224) * 4096 + (b2 - 128) * 64 + (b3 - 128) in
               if is_cont b2 && is_cont b3 && (2048 <=? c)
                  && negb (is_surrogate c)
               then c :: decode_ignore r3
               else decode_ignore r1
             else
               match r3 with
               | [] => decode_ignore r1
               | b4 :: r4 =>
                 if (240 <=? b1) && (b1 <=? 244) then
                   let c := (b1 - 240) * 262144 + (b2 - 128) * 4096
                            + (b3 - 128) * 64 + (b4 - 128) in
                   if is_cont b2 && is_cont b3 && is_cont b4
                      && (65536 <=? c) && (c <? 1114112)
                   then c :: decode_ignore r4
                   else decode_ignore r1
                 else decode_ignore r1
               end
           end
       end)%N
  end.

(** A literal of the source: the code points of its UTF-8 bytes. *)
Definition lit (s : string) : str :=
  decode_ignore (map N_of_ascii (list_ascii_of_string s)).

(** A literal whose double quotes are written as apostrophes. *)
Definition quoted (s : string) : str :=
  map (fun c => if (c =? 39)%N then 34%N else c) (lit s).

(** [str(n)] for an [int]. *)
Definition of_Z (z : Z) : str :=
  map N_of_ascii (list_ascii_of_string (NilZero.string_of_int (Z.to_int z))).

End Str.

Abbreviation str := Str.str.

(** ** Python objects

    The values [json.loads] returns and the tool arguments carry: [None],
    [bool], [int], [float], [str], [list] and [dict] with [str] keys. *)

Module Dict.

(** A [dict] keeps its keys in insertion order, each key once. *)
Definition dict (V : Type) := list (str * V).

Section Ops.
Context {V : Type}.

(** [d.get(k)] *)
Fixpoint get (k : str) (d : dict V) : option V :=
  match d with
  | [] => None
  | (k', v) :: d' => if Str.eqb k k' then Some v else get k d'
  end.

(** [k in d] *)
Definition mem (k : str) (d : dict V) : bool :=
  match get k d with Some _ => true | None => false end.

(** [d[k] = v]: a present key keeps its place, a new one goes last. *)
Fixpoint set (k : str) (v : V) (d : dict V) : dict V :=
  match d with
  | [] => [(k, v)]
  | (k', v') :: d' =>
    if Str.eqb k k' then (k', v) :: d' else (k', v') :: set k v d'
  end.

(** [del d[k]] for a present key. *)
Fixpoint del (k : str) (d : dict V) : dict V :=
  match d with
  | [] => []
  | (k', v') :: d' => if Str.eqb k k' then d' else (k', v') :: del k d'
  end.

(** [not d] *)
Definition is_empty (d : dict V) : bool :=
  match d with [] => true | _ => false end.

(** [d.keys()] *)
Definition keys (d : dict V) : list str := map fst d.

(** No key twice: what every [dict] of the program satisfies. *)
Definition wf (d : dict V) : Prop := NoDup (keys d).
End Ops.

End Dict.

Abbreviation dict := Dict.dict.

Module Py.

(** A [float] is kept as the decimal literal it was read from; only its
    being zero matters to the program. *)
Inductive float :=
| FNaN
| FInf (negative : bool)
| FDec (negative : bool) (mantissa : N) (exp10 : Z).

Inductive value :=
| PNone
| PBool (b : bool)
| PInt (z : Z)
| PFloat (f : float)
| PStr (s : str)
| PList (l : list value)
| PDict (d : list (str * value)).

(** [float(lit) == 0.0]: the literal is zero, or lies at or below half the
    least subnormal [2^-1074] and rounds to zero. *)
Definition float_is_zero (f : float) : bool :=
  match f with
  | FDec _ m e =>
    (m =? 0)%N || (e <? 0) && (Z.of_N m * 2 ^ 1075 <=? 10 ^ (- e))
  | _ => false
  end.

(** [bool(v)] *)
Definition truthy (v : value) : bool :=
  match v with
  | PNone => false
  | PBool b => b
  | PInt z => negb (z =? 0)
  | PFloat f => negb (float_is_zero f)
  | PStr s => match s with [] => false | _ => true end
  | PList l => match l with [] => false | _ => true end
  | PDict d => match d with [] => false | _ => true end
  end.

(** [type(v).__name__] *)
Definition type_name (v : value) : str :=
  Str.lit match v with
          | PNone => "NoneType"
          | PBool _ => "bool"
          | PInt _ => "int"
          | PFloat _ => "float"
          | PStr _ => "str"
          | PList _ => "list"
          | PDict _ => "dict"
          end.

End Py.

(** ** [json.loads]

    The decoder of the Python standard library, as the parser calls it on
    the remainder of an event line: the grammar of the C scanner with
    [strict=True].  [None] stands for [json.JSONDecodeError] (or any other
    exception the decoder ends in); the parser treats them alike. *)

Module Json.
Import Py.

Local Open Scope N_scope.

Definition is_ws (c : N) : bool :=
  (c =? 32) || (c =? 9) || (c =? 10) || (c =? 13).

Fixpoint skip_ws (s : str) : str :=
  match s with
  | c :: r => if is_ws c then skip_ws r else s
  | [] => []
  end.

Definition is_digit (c : N) : bool := (48 <=? c) && (c <=? 57).

Definition hexval (c : N) : option N :=
  if is_digit c then Some (c - 48)
  else if (97 <=? c) && (c <=? 102) then Some (c - 87)
  else if (65 <=? c) && (c <=? 70) then Some (c - 55)
  else None.

Definition hex4 (a b c d : N) : option N :=
  match hexval a, hexval b, hexval c, hexval d with
  | Some x, Some y, Some z, Some w => Some (((x * 16 + y) * 16 + z) * 16 + w)
  | _, _, _, _ => None
  end.

Definition is_high (u : N) : bool := (55296 <=? u) && (u <=? 56319).
Definition is_low (u : N) : bool := (56320 <=? u) && (u <=? 57343).

(** The one-letter escapes. *)
Definition escape (e : N) : option N :=
  if e =? 34 then Some 34        (* quote *)
  else if e =? 92 then Some 92   (* backslash *)
  else if e =? 47 then Some 47   (* slash *)
  else if e =? 98 then Some 8    (* b: backspace *)
  else if e =? 102 then Some 12  (* f: form feed *)
  else if e =? 110 then Some 10  (* n: line feed *)
  else if e =? 114 then Some 13  (* r: carriage return *)
  else if e =? 116 then Some 9   (* t: tab *)
  else None.

(** [scanstring], entered after the opening quote: the decoded text and
    what follows the closing quote.  A high surrogate escape directly
    followed by a low surrogate escape is joined into one code point; a
    surrogate escape on its own stays in the text. *)
Fixpoint scanstring (s : str) (acc : str) : option (str * str) :=
  match s with
  | [] => None
  | c :: r =>
    if c =? 34 then Some (rev acc, r)
    else if c =? 92 then
      match r with
      | [] => None
      | e :: r1 =>
        if e =? 117 then
          match r1 with
          | h1 :: h2 :: h3 :: h4 :: r2 =>
            match hex4 h1 h2 h3 h4 with
            | None => None
            | Some u =>
              match r2 with
              | b :: l :: g1 :: g2 :: g3 :: g4 :: r3 =>
                if is_high u && (b =? 92) && (l =? 117) then
                  match hex4 g1 g2 g3 g4 with
                  | None => None
                  | Some u2 =>
                    if is_low u2
                    then scanstring r3
                           (65536 + (u - 55296) * 1024 + (u2 - 56320) :: acc)
                    else scanstring r2 (u :: acc)
                  end
                else scanstring r2 (u :: acc)
              | _ => scanstring r2 (u :: acc)
              end
            end
          | _ => None
          end
        else
          match escape e with
          | Some x => scanstring r1 (x :: acc)
          | None => None
          end
      end
    else if c <=? 31 then None
    else scanstring r (c :: acc)
  end.

Fixpoint span_digits (s : str) : list N * str :=
  match s with
  | c :: r =>
    if is_digit c then let '(ds, r') := span_digits r in (c - 48 :: ds, r')
    else ([], s)
  | [] => ([], [])
  end.

Definition digits_value (ds : list N) : N :=
  fold_left (fun a d => a * 10 + d) ds 0.

(** Integer literals longer than this make [int(...)] raise
    ([sys.int_info.default_max_str_digits]). *)
Definition max_str_digits : nat := 4300.

(** The integer part of a number: [0|[1-9][0-9]*]. *)
Definition scan_integer (s : str) : option (list N * str) :=
  match s with
  | c :: r =>
    if c =? 48 then Some ([0], r)
    else if is_digit c then
      let '(ds, r') := span_digits r in Some (c - 48 :: ds, r')
    else None
  | [] => None
  end.

(** The optional fraction [\.[0-9]+]. *)
Definition scan_frac (s : str) : option (list N) * str :=
  match s with
  | c :: r =>
    if c =? 46 then
      match span_digits r with
      | ([], _) => (None, s)
      | (fs, r') => (Some fs, r')
      end
    else (None, s)
  | [] => (None, s)
  end.

(** The optional exponent [[eE][-+]?[0-9]+]. *)
Definition scan_exp (s : str) : option Z * str :=
  match s with
  | c :: r =>
    if (c =? 101) || (c =? 69) then
      let '(neg, r1) :=
        match r with
        | sg :: r' =>
          if sg =? 45 then (true, r') else if sg =? 43 then (false, r')
          else (false, r)
        | [] => (false, r)
        end in
      match span_digits r1 with
      | ([], _) => (None, s)
      | (es, r2) =>
        let e := Z.of_N (digits_value es) in
        (Some (if neg then (- e)%Z else e), r2)
      end
    else (None, s)
  | [] => (None, s)
  end.

(** [NUMBER_RE]: an [int] for a bare integer, a [float] as soon as there
    is a fraction or an exponent. *)
Definition scan_number (s : str) : option (value * str) :=
  let '(neg, s1) :=
    match s with
    | c :: r => if c =? 45 then (true, r) else (false, s)
    | [] => (false, s)
    end in
  match scan_integer s1 with
  | None => None
  | Some (ds, r1) =>
    let '(frac, r2) := scan_frac r1 in
    let '(ex, r3) := scan_exp r2 in
    match frac, ex with
    | None, None =>
      if (max_str_digits <? length ds)%nat then None
      else
        let z := Z.of_N (digits_value ds) in
        Some (PInt (if neg then (- z)%Z else z), r3)
    | _, _ =>
      let fs := match frac with Some fs => fs | None => [] end in
      let e := match ex with Some e => e | None => 0%Z end in
      Some (PFloat (FDec neg (digits_value (ds ++ fs)%list)
                         (e - Z.of_nat (length fs))%Z), r3)
    end
  end.

Definition strip_prefix (p : string) (s : str) : option str :=
  let p' := Str.lit p in
  if Str.startswith s p' then Some (skipn (length p') s) else None.

(** The keyword constants, tried after everything else in this order. *)
Definition scan_constant (s : str) : option (value * str) :=
  match strip_prefix "NaN" s with
  | Some r => Some (PFloat FNaN, r)
  | None =>
    match strip_prefix "Infinity" s with
    | Some r => Some (PFloat (FInf false), r)
    | None =>
      match strip_prefix "-Infinity" s with
      | Some r => Some (PFloat (FInf true), r)
      | None => None
      end
    end
  end.

(** [scan_once] with the array and object loops; [fuel] bounds the nesting
    and the number of items, and the length of the text always suffices. *)
Fixpoint scan_once (fuel : nat) (s : str) : option (value * str) :=
  match fuel with
  | O => None
  | S fuel' =>
    match s with
    | [] => None
    | c :: r =>
      if c =? 34 then
        match scanstring r [] with
        | Some (t, r') => Some (PStr t, r')
        | None => None
        end
      else if c =? 123 then
        match skip_ws r with
        | c' :: r' =>
          if c' =? 125 then Some (PDict [], r')
          else
            match scan_members fuel' (c' :: r') [] with
            | Some (d, r'') => Some (PDict d, r'')
            | None => None
            end
        | [] => None
        end
      else if c =? 91 then
        match skip_ws r with
        | c' :: r' =>
          if c' =? 93 then Some (PList [], r')
          else
            match scan_items fuel' (c' :: r') [] with
            | Some (l, r'') => Some (PList l, r'')
            | None => None
            end
        | [] => None
        end
      else
        match strip_prefix "null" s with
        | Some r' => Some (PNone, r')
        | None =>
          match strip_prefix "true" s with
          | Some r' => Some (PBool true, r')
          | None =>
            match strip_prefix "false" s with
            | Some r' => Some (PBool false, r')
            | None =>
              match scan_number s with
              | Some res => Some res
              | None => scan_constant s
              end
            end
          end
        end
    end
  end

(** After [{] or [,]: a quoted key, [:], a value, then [}] or [,]. *)
with scan_members (fuel : nat) (s : str) (acc : list (str * value))
  : option (list (str * value) * str) :=
  match fuel with
  | O => None
  | S fuel' =>
    match s with
    | q :: r =>
      if q =? 34 then
        match scanstring r [] with
        | None => None
        | Some (k, r1) =>
          match skip_ws r1 with
          | colon :: r2 =>
            if colon =? 58 then
              match scan_once fuel' (skip_ws r2) with
              | None => None
              | Some (v, r3) =>
                let acc' := Dict.set k v acc in
                match skip_ws r3 with
                | c :: r4 =>
                  if c =? 125 then Some (acc', r4)
                  else if c =? 44 then scan_members fuel' (skip_ws r4) acc'
                  else None
                | [] => None
                end
              end
            else None
          | [] => None
          end
        end
      else None
    | [] => None
    end
  end

(** After [[] or [,]: [value] then []] or [,]. *)
with scan_items (fuel : nat) (s : str) (acc : list value)
  : option (list value * str) :=
  match fuel with
  | O => None
  | S fuel' =>
    match scan_once fuel' s with
    | None => None
    | Some (v, r) =>
      match skip_ws r with
      | c :: r' =>
        if c =? 93 then Some (rev (v :: acc), r')
        else if c =? 44 then scan_items fuel' (skip_ws r') (v :: acc)
        else None
      | [] => None
      end
    end
  end.

(** [json.loads(s)] for a [str]: one value between optional white space,
    nothing after it, no byte-order mark before it. *)
Definition loads (s : str) : option value :=
  match s with
  | 65279 :: _ => None
  | _ =>
    match scan_once (S (length s)) (skip_ws s) with
    | Some (v, r) => match skip_ws r with [] => Some v | _ => None end
    | None => None
    end
  end.

End Json.

(** ** Exceptions and results *)

(** The exceptions the program tells apart: its own [ApiError],
    [httpx.RequestError] (the transport failing) and every other
    [Exception].

    Modelled from the spec: [ApiError] is declared in [models.py], which is
    not among the sources; it is the spec's RemoteError, built as
    [ApiError(message)] or [ApiError(message, status_code)] and read back
    through [e.message], its text being its message. *)
Inductive exn :=
| ApiError (message : str) (status_code : option Z)
| RequestError (text : str)
| Exception (text : str).

(** [str(e)] *)
Definition exn_str (e : exn) : str :=
  match e with
  | ApiError m _ => m
  | RequestError t => t
  | Exception t => t
  end.

Inductive result (A : Type) :=
| Return (a : A)
| Raise (e : exn).

Arguments Return {A} a.
Arguments Raise {A} e.

(** ** The records of [models.py] *)

(** Modelled from the spec: [MessageChunk] is declared in [models.py],
    which is not among the sources.  The spec gives an event object "at
    least: a [role] field, an optional [content] field (itself an object
    that may contain a [text] key), and a [finished] boolean flag". *)
Record MessageChunk := {
  role : str;
  content : option (dict Py.value);
  finished : bool;
}.

(** Modelled from the spec: the construction of a [MessageChunk] from the
    fields of a decoded event, with their validation.  [None] stands for the exception raised when [data] is
    no object or a field is absent or of the wrong shape ("the line is
    skipped"). *)
Definition MessageChunk_init (data : Py.value) : option MessageChunk :=
  match data with
  | Py.PDict d =>
    match Dict.get (Str.lit "role") d, Dict.get (Str.lit "finished") d with
    | Some (Py.PStr r), Some (Py.PBool f) =>
      match Dict.get (Str.lit "content") d with
      | None | Some Py.PNone =>
        Some {| role := r; content := None; finished := f |}
      | Some (Py.PDict c) =>
        Some {| role := r; content := Some c; finished := f |}
      | Some _ => None
      end
    | _, _ => None
    end
  | _ => None
  end.

(** Modelled from the spec: [ConversationSession] is declared in
    [models.py], which is not among the sources.  The spec's Session has an
    id, a creation time and a last-used time, both set to the time of
    creation; [update_usage] moves the last-used time to the current
    time.  Times are microseconds on the clock of [datetime.now()]. *)
Record ConversationSession := {
  conversation_id : str;
  created_at : Z;
  last_used : Z;
}.

Definition ConversationSession_init (id : str) (now : Z) : ConversationSession :=
  {| conversation_id := id; created_at := now; last_used := now |}.

Definition update_usage (s : ConversationSession) (now : Z) : ConversationSession :=
  {| conversation_id := conversation_id s;
     created_at := created_at s;
     last_used := now |}.

(** ** The stream reconstructor: [OneCApiClient._parse_sse_response] *)

Module Sse.

(** What the body of the [async for] does with the loop: go on to the next
    line, or [break]. *)
Inductive step :=
| Continue (full_text : str)
| Break (full_text : str).

Definition text_of (s : step) : str :=
  match s with Continue t | Break t => t end.

Definition breaks (s : step) : bool :=
  match s with Break _ => true | Continue _ => false end.

(** [text.encode('utf-8', errors='ignore').decode('utf-8', errors='ignore')] *)
Definition reencode (text : str) : str :=
  Str.decode_ignore (Str.encode_ignore text).

(** Where the loop ended: the accumulated text, the lines it never read,
    and whether it left through [break]. *)
Record outcome := {
  full_text : str;
  unread : list str;
  stopped : bool;
}.

Section Reconstructor.
(** [json.loads] and the construction of a [MessageChunk] from the
    decoded fields; [None] is an exception. *)
Variable json_loads : str -> option Py.value.
Variable new_chunk : Py.value -> option MessageChunk.

(** Lines 145 to 157, for a chunk that was built. *)
Definition on_chunk (full_text : str) (chunk : MessageChunk) : step :=
  match content chunk with
  | Some c =>
    if Str.eqb (role chunk) (Str.lit "assistant")
       && Py.truthy (Py.PDict c)
       && Dict.mem (Str.lit "text") c
    then
      match Dict.get (Str.lit "text") c with
      | Some text =>
        if Py.truthy text then
          match text with
          | Py.PStr t =>
            if finished chunk then Break (reencode t)
            else Continue (reencode t)
          | _ =>
            (* [text.encode] raises: [except Exception: continue] *)
            Continue full_text
          end
        else if finished chunk then Break full_text
        else Continue full_text
      | None => Continue full_text
      end
    else Continue full_text
  | None => Continue full_text
  end.

(** The body of the loop, lines 137 to 163. *)
Definition on_line (full_text : str) (line : str) : step :=
  if Str.startswith line (Str.lit "data: ") then
    match json_loads (skipn 6 line) with
    | None => Continue full_text
    | Some data =>
      match new_chunk data with
      | None => Continue full_text
      | Some chunk => on_chunk full_text chunk
      end
    end
  else Continue full_text.

(** The event a line carries, when it is a qualifying line: it starts
    with the event-data prefix and its remainder decodes to a chunk. *)
Definition event_of (line : str) : option MessageChunk :=
  if Str.startswith line (Str.lit "data: ") then
    match json_loads (skipn 6 line) with
    | Some data => new_chunk data
    | None => None
    end
  else None.

(** The events at which the loop is left: an assistant event, finished,
    whose content has a [text] that is a string or counts as false. *)
Definition stops (chunk : MessageChunk) : bool :=
  Str.eqb (role chunk) (Str.lit "assistant")
  && finished chunk
  && match content chunk with
     | Some c =>
       match Dict.get (Str.lit "text") c with
       | Some (Py.PStr _) => true
       | Some text => negb (Py.truthy text)
       | None => false
       end
     | None => false
     end.

Definition stop_line (line : str) : bool :=
  match event_of line with
  | Some chunk => stops chunk
  | None => false
  end.

(** The [async for] over the lines. *)
Fixpoint loop (full_text : str) (lines : list str) : outcome :=
  match lines with
  | [] => {| full_text := full_text; unread := []; stopped := false |}
  | line :: rest =>
    match on_line full_text line with
    | Continue t => loop t rest
    | Break t => {| full_text := t; unread := rest; stopped := true |}
    end
  end.

(** [_parse_sse_response]: [lines] is what [response.aiter_lines()]
    yields, [read_error] the exception it raises after the last of them
    when the transport breaks.  Returns the answer and the lines left
    unread. *)
Definition _parse_sse_response (lines : list str) (read_error : option exn)
  : result str * list str :=
  let o := loop [] lines in
  match stopped o, read_error with
  | false, Some e => (Raise e, unread o)
  | _, _ => (Return (Str.strip (full_text o)), unread o)
  end.

End Reconstructor.

(** The reconstructor with the decoder of the standard library and the
    chunk record. *)
Definition parse := _parse_sse_response Json.loads MessageChunk_init.

End Sse.

(** ** Configuration: [config.py] *)

Module Config.

Record t := {
  onec_ai_token : str;
  base_url : str;
  timeout : Z;
  ui_language : str;
  programming_language : str;
  script_language : str;
  max_active_sessions : Z;
  session_ttl : Z;
}.

(** What the settings sources (environment, [.env] file) hold for a
    field: nothing, a value of the declared type, or text that is no value
    of that type. *)
Inductive setting (A : Type) :=
| Unset
| Given (a : A)
| Malformed.

Arguments Unset {A}.
Arguments Given {A} a.
Arguments Malformed {A}.

Record Settings := {
  set_onec_ai_token : option str;
  set_base_url : option str;
  set_timeout : setting Z;
  set_ui_language : option str;
  set_programming_language : option str;
  set_script_language : option str;
  set_max_active_sessions : setting Z;
  set_session_ttl : setting Z;
}.

(** A field declared [Field(default=d)]. *)
Definition with_default {A} (d : A) (o : option A) : A :=
  match o with Some a => a | None => d end.

(** An [int] field declared [Field(default=d)], with no bound on it. *)
Definition int_field (d : Z) (x : setting Z) : option Z :=
  match x with
  | Unset => Some d
  | Given z => Some z
  | Malformed => None
  end.

(** [Config()]: the token is required, every other field has a default;
    [None] is the [ValidationError] of a missing or ill-typed field. *)
Definition init (e : Settings) : option t :=
  match set_onec_ai_token e,
        int_field 30 (set_timeout e),
        int_field 10 (set_max_active_sessions e),
        int_field 3600 (set_session_ttl e) with
  | Some token, Some tmo, Some mx, Some ttl =>
    Some {| onec_ai_token := token;
            base_url := with_default (Str.lit "https://code.1c.ai")
                          (set_base_url e);
            timeout := tmo;
            ui_language := with_default (Str.lit "russian")
                             (set_ui_language e);
            programming_language := with_default []
                                      (set_programming_language e);
            script_language := with_default [] (set_script_language e);
            max_active_sessions := mx;
            session_ttl := ttl |}
  | _, _, _, _ => None
  end.

End Config.

Abbreviation Config := Config.t.

(** ** The world around the program *)

(** Modelled from the spec: the request records of [models.py], which is
    not among the sources, with the fields [api_client.py] builds them
    from: the options of [openConversation] and the text of
    [sendMessage]. *)
Record ConversationRequest := {
  req_ui_language : str;
  req_programming_language : str;
  req_script_language : str;
}.

Record MessageRequest := {
  instruction : str;
}.

(** An HTTP response, as far as the client looks at it. *)
Record Response := {
  status_code : Z;
  (** the [uuid] of the [ConversationResponse] built from
      [response.json()], or the exception decoding the body ends in *)
  uuid : result str;
  (** what [response.aiter_lines()] yields *)
  aiter_lines : list str;
  (** the exception the line iterator raises after the last line, when
      the transport breaks *)
  read_error : option exn;
}.

(** The failures of the standard library and of pydantic; their texts are
    left to the world. *)
Inductive failure :=
| AttributeError (v : Py.value) (attr : string)
| KeyError (k : str)
| TypeError_unhashable (v : Py.value)
| ValueError_empty (fn : string)
| OverflowError (seconds : Z)
| ValidationError (model : string)
| UnicodeEncodeError (value : str).

Record World := {
  (** the settings sources [Config()] reads *)
  environ : Config.Settings;
  (** the n-th reading of [datetime.now()], in microseconds *)
  clock : nat -> Z;
  (** what the n-th HTTP request ends in: a response, or the exception
      [httpx] raises *)
  remote : nat -> result Response;
  (** [str(e)] of a library failure *)
  describe : failure -> str;
  (** [str(v)] of a value that is no [str] *)
  repr : Py.value -> str;
  (** [unicodedata.normalize('NFKC', text)] *)
  nfkc : str -> str;
  (** [unicodedata.category(c) in ['Cc', 'Cf']] *)
  is_control : N -> bool;
}.

(** What the process does to the world, in order. *)
Inductive Event :=
| Now (t : Z)
| Post (request : ConversationRequest)
| Stream (conversation_id : str) (request : MessageRequest).

Definition is_now (e : Event) : bool :=
  match e with Now _ => true | _ => false end.

(** Clock readings and HTTP requests made so far. *)
Definition reads (tr : list Event) : nat := length (filter is_now tr).
Definition calls (tr : list Event) : nat :=
  length (filter (fun e => negb (is_now e)) tr).

(** ** The API client: [api_client.py] *)

(** An [OneCApiClient] (its configuration and its session store) with
    the trace of the process. *)
Record State := {
  config : Config;
  sessions : dict ConversationSession;
  trace : list Event;
}.

Definition with_sessions (st : State) (ss : dict ConversationSession) : State :=
  {| config := config st; sessions := ss; trace := trace st |}.

Definition with_event (st : State) (e : Event) : State :=
  {| config := config st; sessions := sessions st;
     trace := trace st ++ [e] |}.

(** The headers the HTTP client is built with, lines 34 to 44, in the
    order of the source. *)
Definition client_headers (c : Config) : list (str * str) :=
  [(Str.lit "Accept", Str.lit "*/*");
   (Str.lit "Accept-Charset", Str.lit "utf-8");
   (Str.lit "Accept-Encoding", Str.lit "gzip, deflate, br");
   (Str.lit "Accept-Language", Str.lit "ru-ru,en-us;q=0.8,en;q=0.7");
   (Str.lit "Authorization", Config.onec_ai_token c);
   (Str.lit "Content-Type", Str.lit "application/json; charset=utf-8");
   (Str.lit "Origin", Config.base_url c);
   (Str.lit "Referer", Config.base_url c ++ Str.lit "/chat/");
   (Str.lit "User-Agent",
    Str.lit "Mozilla/5.0 (Windows NT 10.0; Win64; x64) AppleWebKit/620.1 (KHTML, like Gecko) JavaFX/22 Safari/620.1")].

(** [OneCApiClient(config)], lines 26 to 45: the client keeps the
    configuration, starts with an empty session store and builds its HTTP
    client.  [httpx] encodes every header value as ASCII when the client
    is built, so the first value with another character raises
    [UnicodeEncodeError] and no client comes to be. *)
Definition OneCApiClient_init (W : World) (c : Config) (tr : list Event)
  : result State :=
  match find (fun kv => negb (Str.is_ascii (snd kv))) (client_headers c) with
  | Some (_, value) => Raise (Exception (describe W (UnicodeEncodeError value)))
  | None => Return {| config := c; sessions := []; trace := tr |}
  end.

(** A method of the client: it runs in a state and ends in a value or an
    exception; what it did to the state before raising stays done. *)
Definition M (A : Type) := State -> result A * State.

Definition ret {A} (a : A) : M A := fun st => (Return a, st).

Definition raise {A} (e : exn) : M A := fun st => (Raise e, st).

Definition bind {A B} (m : M A) (k : A -> M B) : M B :=
  fun st =>
    match m st with
    | (Return a, st') => k a st'
    | (Raise e, st') => (Raise e, st')
    end.

(** [try: m  except ... as e: h e] *)
Definition try_except {A} (m : M A) (h : exn -> M A) : M A :=
  fun st =>
    match m st with
    | (Return a, st') => (Return a, st')
    | (Raise e, st') => h e st'
    end.

Definition lift {A} (r : result A) : M A := fun st => (r, st).

Declare Scope py_scope.
Delimit Scope py_scope with py.
Notation "x <- m ;; k" := (bind m (fun x => k))
  (at level 61, m at next level, right associativity) : py_scope.
Notation "m ;; k" := (bind m (fun _ => k))
  (at level 61, right associativity) : py_scope.
Notation "a +++ b" := (@app N a b)
  (at level 60, right associativity) : py_scope.
Local Open Scope py_scope.

Definition get_config_of_self : M Config := fun st => (Return (config st), st).

Definition get_sessions : M (dict ConversationSession) :=
  fun st => (Return (sessions st), st).

Definition put_sessions (ss : dict ConversationSession) : M unit :=
  fun st => (Return tt, with_sessions st ss).

(** [x or y] *)
Definition py_or (x y : Py.value) : Py.value :=
  if Py.truthy x then x else y.

Section Client.
Variable W : World.

(** [datetime.now()] *)
Definition now : M Z :=
  fun st =>
    let t := clock W (reads (trace st)) in
    (Return t, with_event st (Now t)).

(** One HTTP request: it is issued, and the world answers. *)
Definition http (e : Event) : M Response :=
  fun st => (remote W (calls (trace st)), with_event st e).

Definition fail {A} (f : failure) : M A := raise (Exception (describe W f)).

(** The construction of a [ConversationRequest]: its fields are text. *)
Definition ConversationRequest_init (ui pl sl : Py.value) : M ConversationRequest :=
  match ui, pl, sl with
  | Py.PStr u, Py.PStr p, Py.PStr s =>
    ret {| req_ui_language := u;
           req_programming_language := p;
           req_script_language := s |}
  | _, _, _ => fail (ValidationError "ConversationRequest")
  end.

(** [create_conversation], lines 47 to 86. *)
Definition create_conversation (programming_language script_language : Py.value)
  : M str :=
  try_except
    (cfg <- get_config_of_self ;;
     request_data <-
       ConversationRequest_init
         (Py.PStr (Config.ui_language cfg))
         (py_or programming_language (Py.PStr (Config.programming_language cfg)))
         (py_or script_language (Py.PStr (Config.script_language cfg))) ;;
     response <- http (Post request_data) ;;
     if negb (status_code response =? 200) then
       raise (ApiError
                (Str.lit "Ошибка создания дискуссии: "
                 +++ Str.of_Z (status_code response))
                (Some (status_code response)))
     else
       conversation_id <- lift (uuid response) ;;
       t <- now ;;
       ss <- get_sessions ;;
       put_sessions
         (Dict.set conversation_id
            (ConversationSession_init conversation_id t) ss) ;;
       ret conversation_id)
    (fun e =>
       match e with
       | RequestError _ =>
         raise (ApiError
                  (Str.lit "Ошибка сети при создании дискуссии: "
                   +++ exn_str e) None)
       | _ =>
         raise (ApiError
                  (Str.lit "Неожиданная ошибка при создании дискуссии: "
                   +++ exn_str e) None)
       end).

(** The session bookkeeping of [send_message], lines 91 to 98. *)
Definition register_usage (conversation_id : str) : M unit :=
  ss <- get_sessions ;;
  (if negb (Dict.mem conversation_id ss) then
     t <- now ;;
     put_sessions
       (Dict.set conversation_id
          (ConversationSession_init conversation_id t) ss)
   else ret tt) ;;
  ss <- get_sessions ;;
  match Dict.get conversation_id ss with
  | None => fail (KeyError conversation_id)
  | Some session =>
    t <- now ;;
    put_sessions (Dict.set conversation_id (update_usage session t) ss)
  end.

(** The remote call of [send_message], lines 100 to 122. *)
Definition post_message (conversation_id message : str) : M str :=
  let request_data := {| instruction := message |} in
  response <- http (Stream conversation_id request_data) ;;
  if negb (status_code response =? 200) then
    raise (ApiError
             (Str.lit "Ошибка отправки сообщения: "
              +++ Str.of_Z (status_code response))
             (Some (status_code response)))
  else
    full_response <-
      lift (fst (Sse.parse (aiter_lines response) (read_error response))) ;;
    ret full_response.

(** [send_message], lines 88 to 127. *)
Definition send_message (conversation_id message : str) : M str :=
  try_except
    (register_usage conversation_id ;;
     post_message conversation_id message)
    (fun e =>
       match e with
       | RequestError _ =>
         raise (ApiError
                  (Str.lit "Ошибка сети при отправке сообщения: "
                   +++ exn_str e) None)
       | _ =>
         raise (ApiError
                  (Str.lit "Неожиданная ошибка при отправке сообщения: "
                   +++ exn_str e) None)
       end).

(** [timedelta(seconds=n)] in microseconds; the day count of a
    [timedelta] is at most 999999999 in magnitude. *)
Definition timedelta (seconds : Z) : M Z :=
  if (-999999999 <=? seconds / 86400) && (seconds / 86400 <=? 999999999)
  then ret (seconds * 1000000)
  else fail (OverflowError seconds).

(** The session ids whose age is over the time to live, in the order of
    the store. *)
Definition expired_sessions (current_time ttl_delta : Z)
  (ss : dict ConversationSession) : list str :=
  map fst (filter (fun kv => ttl_delta <? current_time - last_used (snd kv)) ss).

(** [_cleanup_old_sessions], lines 199 to 211. *)
Definition _cleanup_old_sessions : M unit :=
  current_time <- now ;;
  cfg <- get_config_of_self ;;
  ttl_delta <- timedelta (Config.session_ttl cfg) ;;
  ss <- get_sessions ;;
  put_sessions
    (fold_left (fun d session_id => Dict.del session_id d)
       (expired_sessions current_time ttl_delta ss) ss).

(** [self.sessions[k].last_used], the key of the two scans. *)
Definition last_used_of (ss : dict ConversationSession) (k : str) : Z :=
  match Dict.get k ss with
  | Some s => last_used s
  | None => 0
  end.

(** [min(xs, key=key)] after its first element: a later element replaces
    the best one only when its key is strictly smaller. *)
Fixpoint min_from {A} (key : A -> Z) (best : A) (xs : list A) : A :=
  match xs with
  | [] => best
  | x :: xs' => min_from key (if key x <? key best then x else best) xs'
  end.

(** [max(xs, key=key)] after its first element. *)
Fixpoint max_from {A} (key : A -> Z) (best : A) (xs : list A) : A :=
  match xs with
  | [] => best
  | x :: xs' => max_from key (if key best <? key x then x else best) xs'
  end.

Definition py_min {A} (key : A -> Z) (xs : list A) : M A :=
  match xs with
  | [] => fail (ValueError_empty "min")
  | x :: xs' => ret (min_from key x xs')
  end.

Definition py_max {A} (key : A -> Z) (xs : list A) : M A :=
  match xs with
  | [] => fail (ValueError_empty "max")
  | x :: xs' => ret (max_from key x xs')
  end.

(** [get_or_create_session], lines 167 to 197. *)
Definition get_or_create_session (create_new programming_language : Py.value)
  : M str :=
  _cleanup_old_sessions ;;
  ss <- get_sessions ;;
  cfg <- get_config_of_self ;;
  if Py.truthy create_new || Dict.is_empty ss
  then create_conversation programming_language Py.PNone
  else
    (if Config.max_active_sessions cfg <=? Z.of_nat (length ss) then
       oldest_session_id <- py_min (last_used_of ss) (Dict.keys ss) ;;
       put_sessions (Dict.del oldest_session_id ss)
     else ret tt) ;;
    ss <- get_sessions ;;
    recent_session_id <- py_max (last_used_of ss) (Dict.keys ss) ;;
    ret recent_session_id.

End Client.

(** ** The tool handlers: [mcp_server.py] *)

Record TextContent := {
  type : str;
  text : str;
}.

(** The one-element answer every handler returns. *)
Definition reply (t : str) : list TextContent :=
  [{| type := Str.lit "text"; text := t |}].

Definition nl : str := [10%N].

(** [arguments.get(name, default)] *)
Definition arg (arguments : dict Py.value) (name : string) (default : Py.value)
  : Py.value :=
  match Dict.get (Str.lit name) arguments with
  | Some v => v
  | None => default
  end.

(** The server object: its configuration and its client, both made on
    the first tool call. *)
Record OneCApiClient := {
  client_config : Config;
  client_sessions : dict ConversationSession;
}.

Record OneCMcpServer := {
  self_config : option Config;
  self_api_client : option OneCApiClient;
}.

(** The session store a server holds: none before its client exists. *)
Definition store_of (srv : OneCMcpServer) : dict ConversationSession :=
  match self_api_client srv with
  | Some c => client_sessions c
  | None => []
  end.

Section Server.
Variable W : World.

(** [_sanitize_text], lines 32 to 49. *)
Definition _sanitize_text (text : str) : str :=
  match text with
  | [] => text
  | _ =>
    filter (fun char =>
              negb (is_control W char)
              || (char =? 10)%N || (char =? 13)%N || (char =? 9)%N)
           (nfkc W text)
  end.

(** A value inside an f-string. *)
Definition py_str (v : Py.value) : str :=
  match v with
  | Py.PStr s => s
  | _ => repr W v
  end.

(** [_handle_ask_1c_ai], lines 186 to 213. *)
Definition _handle_ask_1c_ai (arguments : dict Py.value) : M (list TextContent) :=
  let question := arg arguments "question" (Py.PStr []) in
  let programming_language := arg arguments "programming_language" (Py.PStr []) in
  let create_new_session := arg arguments "create_new_session" (Py.PBool false) in
  match question with
  | Py.PStr q =>
    if negb (Py.truthy (Py.PStr (Str.strip q))) then
      ret (reply (Str.lit "Ошибка: Вопрос не может быть пустым"))
    else
      conversation_id <-
        get_or_create_session W create_new_session
          (py_or programming_language Py.PNone) ;;
      answer <- send_message W conversation_id q ;;
      let clean_answer := _sanitize_text answer in
      ret (reply (Str.lit "Ответ от 1С.ai:" +++ nl +++ nl +++ clean_answer
                  +++ nl +++ nl +++ Str.lit "Сессия: " +++ conversation_id))
  | _ => fail W (AttributeError question "strip")
  end.

(** [_handle_explain_syntax], lines 215 to 241. *)
Definition _handle_explain_syntax (arguments : dict Py.value) : M (list TextContent) :=
  let syntax_element := arg arguments "syntax_element" (Py.PStr []) in
  let context := arg arguments "context" (Py.PStr []) in
  match syntax_element with
  | Py.PStr el =>
    if negb (Py.truthy (Py.PStr (Str.strip el))) then
      ret (reply (Str.lit "Ошибка: Элемент синтаксиса не может быть пустым"))
    else
      let question := Str.lit "Объясни синтаксис и использование: " +++ el in
      let question :=
        if Py.truthy context
        then question +++ Str.lit " в контексте: " +++ py_str context
        else question in
      conversation_id <-
        get_or_create_session W (Py.PBool false) Py.PNone ;;
      answer <- send_message W conversation_id question ;;
      let clean_answer := _sanitize_text answer in
      ret (reply (Str.lit "Объяснение синтаксиса '" +++ el +++ Str.lit "':"
                  +++ nl +++ nl +++ clean_answer))
  | _ => fail W (AttributeError syntax_element "strip")
  end.

(** [check_descriptions.get(check_type, ...)], lines 255 to 261. *)
Definition check_description (check_type : Py.value) : M str :=
  match check_type with
  | Py.PList _ | Py.PDict _ => fail W (TypeError_unhashable check_type)
  | Py.PStr t =>
    ret (if Str.eqb t (Str.lit "syntax") then
           Str.lit "синтаксические ошибки"
         else if Str.eqb t (Str.lit "logic") then
           Str.lit "логические ошибки и потенциальные проблемы"
         else if Str.eqb t (Str.lit "performance") then
           Str.lit "проблемы производительности и оптимизации"
         else Str.lit "ошибки")
  | _ => ret (Str.lit "ошибки")
  end.

(** [_handle_check_code], lines 243 to 274. *)
Definition _handle_check_code (arguments : dict Py.value) : M (list TextContent) :=
  let code := arg arguments "code" (Py.PStr []) in
  let check_type := arg arguments "check_type" (Py.PStr (Str.lit "syntax")) in
  match code with
  | Py.PStr c =>
    if negb (Py.truthy (Py.PStr (Str.strip c))) then
      ret (reply (Str.lit "Ошибка: Код для проверки не может быть пустым"))
    else
      check_desc <- check_description check_type ;;
      let question :=
        Str.lit "Проверь этот код 1С на " +++ check_desc
        +++ Str.lit " и дай рекомендации:" +++ nl +++ nl
        +++ Str.lit "```1c" +++ nl +++ c +++ nl +++ Str.lit "```" in
      conversation_id <-
        get_or_create_session W (Py.PBool false) Py.PNone ;;
      answer <- send_message W conversation_id question ;;
      let clean_answer := _sanitize_text answer in
      ret (reply (Str.lit "Проверка кода на " +++ check_desc +++ Str.lit ":"
                  +++ nl +++ nl +++ clean_answer))
  | _ => fail W (AttributeError code "strip")
  end.

(** The dispatch of [handle_call_tool] with its two handlers of
    exceptions, lines 160 to 184. *)
Definition dispatch (name : str) (arguments : dict Py.value) : M (list TextContent) :=
  try_except
    (if Str.eqb name (Str.lit "ask_1c_ai") then _handle_ask_1c_ai arguments
     else if Str.eqb name (Str.lit "explain_1c_syntax") then
       _handle_explain_syntax arguments
     else if Str.eqb name (Str.lit "check_1c_code") then
       _handle_check_code arguments
     else ret (reply (Str.lit "Неизвестный инструмент: " +++ name)))
    (fun e =>
       match e with
       | ApiError message _ =>
         ret (reply (Str.lit "Ошибка при обращении к 1С.ai: " +++ message))
       | _ =>
         ret (reply (Str.lit "Произошла неожиданная ошибка: " +++ exn_str e))
       end).

(** [get_config()], lines 71 to 73 of [config.py]. *)
Definition get_config : result Config :=
  match Config.init (environ W) with
  | Some c => Return c
  | None => Raise (Exception (describe W (ValidationError "Config")))
  end.

(** [handle_call_tool], lines 135 to 184: the answer, the server after
    the call and the trace after the call.  The configuration and the
    client are made on the first call that needs them; a configuration
    that loaded stays with the server when the client cannot be built. *)
Definition handle_call_tool (name : str) (arguments : dict Py.value)
  (self : OneCMcpServer) (tr : list Event)
  : list TextContent * OneCMcpServer * list Event :=
  let configured :=
    match self_config self with
    | Some c => Return c
    | None => get_config
    end in
  match configured with
  | Raise e =>
    (reply (Str.lit "Ошибка конфигурации: " +++ exn_str e +++ nl
            +++ Str.lit "Установите переменную окружения ONEC_AI_TOKEN"),
     self, tr)
  | Return c =>
    let connected :=
      match self_api_client self with
      | Some cl => Return cl
      | None =>
        match OneCApiClient_init W c tr with
        | Return st0 =>
          Return {| client_config := config st0;
                    client_sessions := sessions st0 |}
        | Raise e => Raise e
        end
      end in
    match connected with
    | Raise e =>
      (reply (Str.lit "Ошибка подключения к API: " +++ exn_str e),
       {| self_config := Some c; self_api_client := None |}, tr)
    | Return client =>
      let st := {| config := client_config client;
                   sessions := client_sessions client;
                   trace := tr |} in
      let '(r, st') := dispatch name arguments st in
      let self' :=
        {| self_config := Some c;
           self_api_client :=
             Some {| client_config := config st';
                     client_sessions := sessions st' |} |} in
      match r with
      | Return out => (out, self', trace st')
      | Raise e =>
        (* [dispatch] catches every exception *)
        (reply (Str.lit "Произошла неожиданная ошибка: " +++ exn_str e),
         self', trace st')
      end
    end
  end.

End Server.

(** ** Event lines used as examples *)

Module Lines.

Definition hel : str :=
  Str.quoted "data: {'role':'assistant','content':{'text':'Hel'},'finished':false}".

Definition hello : str :=
  Str.quoted "data: {'role':'assistant','content':{'text':'Hello'},'finished':true}".

(** A finished event that is not the assistant's. *)
Definition user_done : str :=
  Str.quoted "data: {'role':'user','content':{'text':'hi'},'finished':true}".

(** A finished assistant event with an empty text. *)
Definition empty_done : str :=
  Str.quoted "data: {'role':'assistant','content':{'text':''},'finished':true}".

(** An assistant event whose text ends in a lone high surrogate. *)
Definition surrogate : str :=
  Str.quoted "data: {'role':'assistant','content':{'text':'a\ud800'},'finished':false}".

End Lines.

(** ** Vocabulary of the properties *)

(** The time to live is one [timedelta] can hold. *)
Definition ttl_in_range (c : Config) : Prop :=
  -999999999 <= Config.session_ttl c / 86400 <= 999999999.

(** An entry whose age is at most the time to live. *)
Definition fresh (current_time ttl_delta : Z) (s : ConversationSession) : bool :=
  current_time - last_used s <=? ttl_delta.

(** The store after the sweep run in a state. *)
Definition swept (W : World) (st : State) : dict ConversationSession :=
  filter (fun kv =>
            fresh (clock W (reads (trace st)))
                  (Config.session_ttl (config st) * 1000000) (snd kv))
         (sessions st).

(** ** Worlds and stores used as examples *)

Module Example.

Definition cfg (max_sessions ttl : Z) : Config :=
  {| Config.onec_ai_token := Str.lit "token";
     Config.base_url := Str.lit "https://code.1c.ai";
     Config.timeout := 30;
     Config.ui_language := Str.lit "russian";
     Config.programming_language := [];
     Config.script_language := [];
     Config.max_active_sessions := max_sessions;
     Config.session_ttl := ttl |}.

(** A time of day, in microseconds. *)
Definition at_ (h m : Z) : Z := (h * 3600 + m * 60) * 1000000.

Definition session (id : string) (t : Z) : str * ConversationSession :=
  (Str.lit id,
   {| conversation_id := Str.lit id; created_at := t; last_used := t |}).

(** Sessions A, last used at 10:00, and B, last used at 10:05. *)
Definition store_AB : dict ConversationSession :=
  [session "A" (at_ 10 0); session "B" (at_ 10 5)].

Definition store_A : dict ConversationSession :=
  [session "A" (at_ 10 0)].

(** The service opens a conversation with the given id, or streams the
    two lines of the example. *)
Definition ok (id : string) : result Response :=
  Return {| status_code := 200;
            uuid := Return (Str.lit id);
            aiter_lines := [Lines.hel; Lines.hello];
            read_error := None |}.

(** The service answers with an error status and no usable body. *)
Definition status (code : Z) : result Response :=
  Return {| status_code := code;
            uuid := Raise (Exception (Str.lit "Expecting value"));
            aiter_lines := [];
            read_error := None |}.

Definition unreachable : result Response :=
  Raise (RequestError (Str.lit "All connection attempts failed")).

Definition texts (f : failure) : str :=
  match f with
  | AttributeError v attr =>
    Str.lit "'" ++ Py.type_name v ++ Str.lit "' object has no attribute '"
    ++ Str.lit attr ++ Str.lit "'"
  | KeyError k => k
  | TypeError_unhashable v =>
    Str.lit "unhashable type: '" ++ Py.type_name v ++ Str.lit "'"
  | ValueError_empty fn => Str.lit fn ++ Str.lit "() arg is an empty sequence"
  | OverflowError _ => Str.lit "days out of range"
  | ValidationError model => Str.lit "validation error for " ++ Str.lit model
  | UnicodeEncodeError _ => Str.lit "'ascii' codec can't encode characters"
  end.

(** A world whose clock starts at [start] and advances a second with
    every reading, and whose service gives the listed replies in turn. *)
Definition world (start : Z) (replies : list (result Response)) : World :=
  {| environ :=
       {| Config.set_onec_ai_token := Some (Str.lit "token");
          Config.set_base_url := None;
          Config.set_timeout := Config.Unset;
          Config.set_ui_language := None;
          Config.set_programming_language := None;
          Config.set_script_language := None;
          Config.set_max_active_sessions := Config.Unset;
          Config.set_session_ttl := Config.Unset |};
     clock := fun n => start + Z.of_nat n * 1000000;
     remote := fun n => nth n replies unreachable;
     describe := texts;
     repr := fun _ => Str.lit "?";
     nfkc := fun t => t;
     is_control := fun c => (c <? 32)%N || (127 <=? c)%N && (c <? 160)%N |}.

Definition state (c : Config) (ss : dict ConversationSession) : State :=
  {| config := c; sessions := ss; trace := [] |}.

End Example.

(** Caller-supplied text that is blank: a string of nothing but white
    space. *)
Definition blank (v : Py.value) : bool :=
  match v with
  | Py.PStr q => negb (Py.truthy (Py.PStr (Str.strip q)))
  | _ => false
  end.

(** The remote call of a method fails: the transport raises, or the
    service answers with a status other than 200. *)
Definition remote_fails (r : result Response) : Prop :=
  match r with
  | Raise _ => True
  | Return resp => status_code resp <> 200
  end.

(** The three tools, each with the argument that carries its text and
    the message it answers a blank text with. *)
Inductive tool : str -> string -> str -> Prop :=
| tool_ask :
    tool (Str.lit "ask_1c_ai") "question"
         (Str.lit "Ошибка: Вопрос не может быть пустым")
| tool_explain :
    tool (Str.lit "explain_1c_syntax") "syntax_element"
         (Str.lit "Ошибка: Элемент синтаксиса не может быть пустым")
| tool_check :
    tool (Str.lit "check_1c_code") "code"
         (Str.lit "Ошибка: Код для проверки не может быть пустым").

(** ** Further example lines *)

Module MoreLines.

(** A line whose remainder is no JSON. *)
Definition broken : str := Str.quoted "data: {not valid json".

(** A keep-alive comment line. *)
Definition keep_alive : str := Str.lit ": ping".

(** An unfinished assistant event whose text ends in white space. *)
Definition padded : str :=
  Str.quoted "data: {'role':'assistant','content':{'text':'  Hello \n'},'finished':false}".

End MoreLines.

(** A line that leaves every accumulator as it is and does not end the
    loop. *)
Definition inert (json_loads : str -> option Py.value)
  (new_chunk : Py.value -> option MessageChunk) (line : str) : Prop :=
  forall acc, Sse.on_line json_loads new_chunk acc line = Sse.Continue acc.

(** Every entry of the store sits under the id it carries. *)
Definition keyed (d : dict ConversationSession) : Prop :=
  Forall (fun kv => conversation_id (snd kv) = fst kv) d.

(** ** The tool list: [handle_list_tools], lines 64 to 132 *)

(** One entry of [properties] in an input schema. *)
Record Property := {
  prop_type : str;
  prop_description : str;
  prop_enum : option (list str);
  prop_default : option Py.value;
}.

Record InputSchema := {
  schema_type : str;
  properties : dict Property;
  required : list str;
}.

Record Tool := {
  tool_name : str;
  tool_description : str;
  inputSchema : InputSchema;
}.
Definition tool_ask_1c_ai : Tool :=
  {| tool_name := Str.lit "ask_1c_ai";
     tool_description :=
       Str.lit "🔍 Задать любой вопрос специализированному ИИ-ассистенту 1С.ai (1С:Напарник) по платформе 1С:Предприятие. Используется для вопросов о 1С, конфигурации, объектах платформы, встроенном языке, API, интеграции и разработке.";
     inputSchema :=
       {| schema_type := Str.lit "object";
          properties :=
            [
        (Str.lit "question",
         {| prop_type := Str.lit "string";
            prop_description :=
              Str.lit "Вопрос для модели 1С.ai";
            prop_enum := None;
            prop_default := None |});
        (Str.lit "programming_language",
         {| prop_type := Str.lit "string";
            prop_description :=
              Str.lit "Язык программирования (опционально)";
            prop_enum := None;
            prop_default := Some (Py.PStr []) |});
        (Str.lit "create_new_session",
         {| prop_type := Str.lit "boolean";
            prop_description :=
              Str.lit "Создать новую сессию для этого вопроса";
            prop_enum := None;
            prop_default := Some (Py.PBool false) |})
            ];
          required := [Str.lit "question"] |} |}.

Definition tool_explain_1c_syntax : Tool :=
  {| tool_name := Str.lit "explain_1c_syntax";
     tool_description :=
       Str.lit "📚 Объяснить синтаксис, конструкции и объекты языка 1С:Предприятие. Используется для объяснения HTTPСоединение, HTTPЗапрос, ТаблицаЗначений, Запрос, РегистрСведений, Документ, Справочник, Для Каждого, Если, Процедура, Функция и других элементов 1С.";
     inputSchema :=
       {| schema_type := Str.lit "object";
          properties :=
            [
        (Str.lit "syntax_element",
         {| prop_type := Str.lit "string";
            prop_description :=
              Str.lit "Элемент синтаксиса или объект 1С для объяснения (например: HTTPСоединение, HTTPЗапрос, ТаблицаЗначений, РегистрСведений, Документ, Справочник, Запрос, Для Каждого, Если, Процедура, Функция)";
            prop_enum := None;
            prop_default := None |});
        (Str.lit "context",
         {| prop_type := Str.lit "string";
            prop_description :=
              Str.lit "Дополнительный контекст использования (опционально)";
            prop_enum := None;
            prop_default := Some (Py.PStr []) |})
            ];
          required := [Str.lit "syntax_element"] |} |}.

Definition tool_check_1c_code : Tool :=
  {| tool_name := Str.lit "check_1c_code";
     tool_description :=
       Str.lit "🔧 Проверить и проанализировать код 1С:Предприятие на ошибки, производительность и соответствие лучшим практикам. Используется для валидации кода на встроенном языке 1С.";
     inputSchema :=
       {| schema_type := Str.lit "object";
          properties :=
            [
        (Str.lit "code",
         {| prop_type := Str.lit "string";
            prop_description :=
              Str.lit "Код 1С для проверки и анализа";
            prop_enum := None;
            prop_default := None |});
        (Str.lit "check_type",
         {| prop_type := Str.lit "string";
            prop_description :=
              Str.lit "Тип проверки: syntax (синтаксис), logic (логика), performance (производительность)";
            prop_enum := Some [Str.lit "syntax"; Str.lit "logic"; Str.lit "performance"];
            prop_default := Some (Py.PStr (Str.lit "syntax")) |})
            ];
          required := [Str.lit "code"] |} |}.

(** [handle_list_tools()] *)
Definition handle_list_tools : list Tool :=
  [tool_ask_1c_ai; tool_explain_1c_syntax; tool_check_1c_code].

(** ** Further example worlds *)

Module MoreExamples.

(** A world like [W] in which the token is not set. *)
Definition without_token (W : World) : World :=
  {| environ :=
       {| Config.set_onec_ai_token := None;
          Config.set_base_url := Config.set_base_url (environ W);
          Config.set_timeout := Config.set_timeout (environ W);
          Config.set_ui_language := Config.set_ui_language (environ W);
          Config.set_programming_language :=
            Config.set_programming_language (environ W);
          Config.set_script_language := Config.set_script_language (environ W);
          Config.set_max_active_sessions :=
            Config.set_max_active_sessions (environ W);
          Config.set_session_ttl := Config.set_session_ttl (environ W) |};
     clock := clock W;
     remote := remote W;
     describe := describe W;
     repr := repr W;
     nfkc := nfkc W;
     is_control := is_control W |}.

(** A server before its first tool call. *)
Definition fresh_server : OneCMcpServer :=
  {| self_config := None; self_api_client := None |}.

End MoreExamples.

(** ** The test script: [test_server.py] *)



(** * Properties *)

(** ** Text and dictionaries *)

Lemma Str_eqb_eq (a b : str) : Str.eqb a b = true <-> a = b.
Proof.
  unfold Str.eqb. destruct (list_eq_dec N.eq_dec a b); split; congruence.
Qed.

Lemma Str_eqb_refl (a : str) : Str.eqb a a = true.
Proof. now apply Str_eqb_eq. Qed.

Lemma Str_eqb_neq (a b : str) : Str.eqb a b = false <-> a <> b.
Proof.
  unfold Str.eqb. destruct (list_eq_dec N.eq_dec a b); split; congruence.
Qed.

(** *** Trimming *)

Lemma lstrip_idem (s : str) : Str.lstrip (Str.lstrip s) = Str.lstrip s.
Proof.
  induction s as [| c s IH]; [reflexivity |].
  cbn [Str.lstrip]. destruct (Str.isspace c) eqn:E; [exact IH |].
  cbn [Str.lstrip]. now rewrite E.
Qed.

Lemma lstrip_snoc (s : str) (c : N) :
  Str.isspace c = false -> Str.lstrip (s ++ [c]) = Str.lstrip s ++ [c].
Proof.
  intro E. induction s as [| d s IH]; cbn [app Str.lstrip].
  - now rewrite E.
  - destruct (Str.isspace d); [exact IH | reflexivity].
Qed.

Lemma rstrip_cons (c : N) (s : str) :
  Str.isspace c = false -> Str.rstrip (c :: s) = c :: Str.rstrip s.
Proof.
  intro E. unfold Str.rstrip. cbn [rev].
  rewrite lstrip_snoc by assumption.
  rewrite rev_app_distr. reflexivity.
Qed.

Lemma rstrip_idem (s : str) : Str.rstrip (Str.rstrip s) = Str.rstrip s.
Proof.
  unfold Str.rstrip. rewrite rev_involutive, lstrip_idem. reflexivity.
Qed.

(** What [lstrip] leaves is empty or starts with a character that is no
    white space. *)
Lemma lstrip_head (s : str) :
  Str.lstrip s = []
  \/ exists c r, Str.lstrip s = c :: r /\ Str.isspace c = false.
Proof.
  induction s as [| c s IH]; [now left |].
  cbn [Str.lstrip]. destruct (Str.isspace c) eqn:E; [exact IH |].
  right. eauto.
Qed.

Lemma strip_idem (s : str) : Str.strip (Str.strip s) = Str.strip s.
Proof.
  unfold Str.strip.
  destruct (lstrip_head s) as [E | [c [r [E Hc]]]]; rewrite E.
  - reflexivity.
  - rewrite rstrip_cons by assumption.
    cbn [Str.lstrip]. rewrite Hc.
    rewrite <- rstrip_cons by assumption. apply rstrip_idem.
Qed.

Lemma strip_no_leading_space (s : str) (c : N) (r : str) :
  Str.strip s = c :: r -> Str.isspace c = false.
Proof.
  unfold Str.strip.
  destruct (lstrip_head s) as [E | [d [t [E Hd]]]]; rewrite E.
  - discriminate.
  - rewrite rstrip_cons by assumption. now intros [= <- _].
Qed.

Lemma lstrip_last (s : str) (r : str) (c : N) :
  Str.lstrip s = r ++ [c] -> exists t, s = t ++ [c].
Proof.
  revert r. induction s as [| d s IH]; intros r H.
  - destruct r; discriminate.
  - cbn [Str.lstrip] in H. destruct (Str.isspace d).
    + destruct (IH r H) as [t ->]. now exists (d :: t).
    + now exists r.
Qed.

Lemma strip_no_trailing_space (s : str) (r : str) (c : N) :
  Str.strip s = r ++ [c] -> Str.isspace c = false.
Proof.
  unfold Str.strip, Str.rstrip. intro H.
  apply (f_equal (@rev N)) in H.
  rewrite rev_involutive, rev_app_distr in H. cbn [rev app] in H.
  destruct (lstrip_head (rev (Str.lstrip s))) as [E | [d [t [E Hd]]]];
    rewrite E in H; [discriminate |].
  now injection H as <- _.
Qed.

Lemma lstrip_split (s : str) :
  exists l, s = l ++ Str.lstrip s /\ Forall (fun c => Str.isspace c = true) l.
Proof.
  induction s as [| c s [l [E H]]].
  - exists []. split; [reflexivity | constructor].
  - cbn [Str.lstrip]. destruct (Str.isspace c) eqn:Ec.
    + exists (c :: l). split; [cbn; now f_equal | now constructor].
    + exists []. split; [reflexivity | constructor].
Qed.

Lemma rstrip_split (s : str) :
  exists r, s = Str.rstrip s ++ r /\ Forall (fun c => Str.isspace c = true) r.
Proof.
  destruct (lstrip_split (rev s)) as [l [E H]].
  exists (rev l). split.
  - unfold Str.rstrip. rewrite <- rev_app_distr, <- E.
    symmetry. apply rev_involutive.
  - now apply Forall_rev.
Qed.

(** What [strip] returns is the text without a run of white space at
    its start and another at its end. *)
Lemma strip_split (s : str) :
  exists l r,
    s = l ++ Str.strip s ++ r
    /\ Forall (fun c => Str.isspace c = true) l
    /\ Forall (fun c => Str.isspace c = true) r.
Proof.
  destruct (lstrip_split s) as [l [El Hl]].
  destruct (rstrip_split (Str.lstrip s)) as [r [Er Hr]].
  exists l, r. unfold Str.strip.
  split; [| split; assumption].
  now rewrite <- Er.
Qed.

Ltac ndiv := zify; Z.to_euclidean_division_equations; lia.

Ltac nbool :=
  repeat match goal with
         | |- context [N.ltb ?a ?b] => destruct (N.ltb_spec a b)
         | |- context [N.leb ?a ?b] => destruct (N.leb_spec a b)
         end; try reflexivity; try ndiv.

(** *** The re-encoding keeps everything but lone surrogates *)

Lemma decode_ascii (b : N) (r : list N) :
  (b < 128)%N -> Str.decode_ignore (b :: r) = b :: Str.decode_ignore r.
Proof.
  intro H. simpl. destruct (N.ltb_spec b 128); [reflexivity | lia].
Qed.

Lemma decode_two (b1 b2 : N) (r : list N) :
  (194 <= b1 <= 223)%N -> Str.is_cont b2 = true ->
  Str.decode_ignore (b1 :: b2 :: r)
  = ((b1 - 192) * 64 + (b2 - 128))%N :: Str.decode_ignore r.
Proof.
  intros H1 H2. simpl. rewrite H2.
  destruct (N.ltb_spec b1 128); [lia |].
  destruct (N.leb_spec 194 b1); [| lia].
  destruct (N.leb_spec b1 223); [| lia].
  reflexivity.
Qed.

Lemma decode_three (b1 b2 b3 : N) (r : list N) :
  (224 <= b1 <= 239)%N ->
  Str.is_cont b2 = true -> Str.is_cont b3 = true ->
  let c := ((b1 - 224) * 4096 + (b2 - 128) * 64 + (b3 - 128))%N in
  (2048 <= c)%N -> Str.is_surrogate c = false ->
  Str.decode_ignore (b1 :: b2 :: b3 :: r) = c :: Str.decode_ignore r.
Proof.
  intros H1 H2 H3 c Hc Hs. simpl. fold c. rewrite H2, H3, Hs.
  destruct (N.ltb_spec b1 128); [lia |].
  destruct (N.leb_spec 194 b1); [| lia].
  destruct (N.leb_spec b1 223); [lia |].
  destruct (N.leb_spec 224 b1); [| lia].
  destruct (N.leb_spec b1 239); [| lia].
  destruct (N.leb_spec 2048 c); [| lia].
  reflexivity.
Qed.

Lemma decode_four (b1 b2 b3 b4 : N) (r : list N) :
  (240 <= b1 <= 244)%N ->
  Str.is_cont b2 = true -> Str.is_cont b3 = true -> Str.is_cont b4 = true ->
  let c := ((b1 - 240) * 262144 + (b2 - 128) * 4096
            + (b3 - 128) * 64 + (b4 - 128))%N in
  (65536 <= c < 1114112)%N ->
  Str.decode_ignore (b1 :: b2 :: b3 :: b4 :: r) = c :: Str.decode_ignore r.
Proof.
  intros H1 H2 H3 H4 c Hc. simpl. fold c. rewrite H2, H3, H4.
  destruct (N.ltb_spec b1 128); [lia |].
  destruct (N.leb_spec 194 b1); [| lia].
  destruct (N.leb_spec b1 223); [lia |].
  destruct (N.leb_spec 224 b1); [| lia].
  destruct (N.leb_spec b1 239); [lia |].
  destruct (N.leb_spec 240 b1); [| lia].
  destruct (N.leb_spec b1 244); [| lia].
  destruct (N.leb_spec 65536 c); [| lia].
  destruct (N.ltb_spec c 1114112); [| lia].
  reflexivity.
Qed.

Lemma is_cont_low6 (x : N) : Str.is_cont (128 + x mod 64) = true.
Proof. unfold Str.is_cont. nbool. Qed.

Lemma decode_encode1 (c : N) (bs : list N) :
  (c < 1114112)%N -> Str.is_surrogate c = false ->
  Str.decode_ignore (Str.encode1 c ++ bs) = c :: Str.decode_ignore bs.
Proof.
  intros Hc Hs. unfold Str.encode1. rewrite Hs.
  destruct (N.ltb_spec c 128).
  { apply decode_ascii; assumption. }
  destruct (N.ltb_spec c 2048).
  { cbn [app]. rewrite decode_two.
    - f_equal. ndiv.
    - ndiv.
    - apply is_cont_low6. }
  destruct (N.ltb_spec c 65536).
  { cbn [app].
    assert (E : ((224 + c / 4096 - 224) * 4096
                 + (128 + (c / 64) mod 64 - 128) * 64
                 + (128 + c mod 64 - 128))%N = c) by ndiv.
    rewrite decode_three.
    - rewrite E. reflexivity.
    - ndiv.
    - apply is_cont_low6.
    - apply is_cont_low6.
    - rewrite E. assumption.
    - rewrite E. assumption. }
  destruct (N.ltb_spec c 1114112); [| lia].
  cbn [app].
  assert (E : ((240 + c / 262144 - 240) * 262144
               + (128 + (c / 4096) mod 64 - 128) * 4096
               + (128 + (c / 64) mod 64 - 128) * 64
               + (128 + c mod 64 - 128))%N = c) by ndiv.
  rewrite decode_four.
  - rewrite E. reflexivity.
  - ndiv.
  - apply is_cont_low6.
  - apply is_cont_low6.
  - apply is_cont_low6.
  - rewrite E. lia.
Qed.

Lemma encode1_surrogate (c : N) :
  Str.is_surrogate c = true -> Str.encode1 c = [].
Proof.
  intro Hs. unfold Str.encode1. rewrite Hs.
  unfold Str.is_surrogate in Hs.
  apply andb_prop in Hs as [H1 H2].
  apply N.leb_le in H1.
  destruct (N.ltb_spec c 128); [lia |].
  destruct (N.ltb_spec c 2048); [lia |].
  reflexivity.
Qed.

(** A [str] holds code points up to U+10FFFF; re-encoding one drops its
    lone surrogates and nothing else. *)
Lemma reencode_filter (t : str) :
  Forall (fun c => (c < 1114112)%N) t ->
  Sse.reencode t = filter (fun c => negb (Str.is_surrogate c)) t.
Proof.
  unfold Sse.reencode, Str.encode_ignore.
  induction 1 as [| c t Hc Ht IH]; [reflexivity |].
  cbn [flat_map filter].
  destruct (Str.is_surrogate c) eqn:Hs; cbn [negb].
  - rewrite encode1_surrogate by assumption. exact IH.
  - rewrite decode_encode1 by assumption. f_equal. exact IH.
Qed.

Lemma reencode_id (t : str) :
  Forall (fun c => (c < 1114112)%N /\ Str.is_surrogate c = false) t ->
  Sse.reencode t = t.
Proof.
  intro H. rewrite reencode_filter.
  - induction H as [| c t [_ Hs] _ IH]; [reflexivity |].
    cbn [filter]. rewrite Hs. cbn [negb]. f_equal. exact IH.
  - eapply Forall_impl; [| exact H]. now intros c [Hc _].
Qed.

(** ** The stream reconstructor *)

Section ReconstructorFacts.
Variable json_loads : str -> option Py.value.
Variable new_chunk : Py.value -> option MessageChunk.

Let on_line := Sse.on_line json_loads new_chunk.
Let event_of := Sse.event_of json_loads new_chunk.
Let stop_line := Sse.stop_line json_loads new_chunk.
Let loop := Sse.loop json_loads new_chunk.

Lemma on_line_event (acc line : str) :
  on_line acc line
  = match event_of line with
    | Some chunk => Sse.on_chunk acc chunk
    | None => Sse.Continue acc
    end.
Proof.
  unfold on_line, event_of, Sse.on_line, Sse.event_of.
  destruct (Str.startswith line (Str.lit "data: ")); [| reflexivity].
  destruct (json_loads (skipn 6 line)); reflexivity.
Qed.

Lemma get_some_truthy (k : str) (c : dict Py.value) (v : Py.value) :
  Dict.get k c = Some v -> Py.truthy (Py.PDict c) = true.
Proof. destruct c; [discriminate | reflexivity]. Qed.

(** The loop is left at exactly the events [stops] describes, whatever
    has been accumulated. *)
Lemma breaks_on_chunk (acc : str) (chunk : MessageChunk) :
  Sse.breaks (Sse.on_chunk acc chunk) = Sse.stops chunk.
Proof.
  unfold Sse.on_chunk, Sse.stops, Dict.mem.
  destruct (content chunk) as [c |]; [| now rewrite andb_false_r].
  destruct (Dict.get (Str.lit "text") c) as [text |] eqn:G.
  - rewrite (get_some_truthy _ _ _ G), andb_true_r.
    destruct (Str.eqb (role chunk) (Str.lit "assistant")); [| reflexivity].
    cbn [andb].
    destruct text as [| b | z | f | t | l | d];
      cbn [Py.truthy]; try (destruct (finished chunk); reflexivity).
    + destruct b; destruct (finished chunk); reflexivity.
    + destruct (negb (z =? 0)); destruct (finished chunk); reflexivity.
    + destruct (negb (Py.float_is_zero f)); destruct (finished chunk);
        reflexivity.
    + destruct t; destruct (finished chunk); reflexivity.
    + destruct l; destruct (finished chunk); reflexivity.
    + destruct d; destruct (finished chunk); reflexivity.
  - rewrite !andb_false_r. reflexivity.
Qed.

Lemma breaks_on_line (acc line : str) :
  Sse.breaks (on_line acc line) = stop_line line.
Proof.
  rewrite on_line_event. unfold stop_line, Sse.stop_line. fold event_of.
  destruct (event_of line); [apply breaks_on_chunk | reflexivity].
Qed.

Lemma loop_cons_continue (acc line : str) (rest : list str) :
  stop_line line = false ->
  loop acc (line :: rest) = loop (Sse.text_of (on_line acc line)) rest.
Proof.
  intro H. rewrite <- (breaks_on_line acc) in H.
  unfold loop. cbn [Sse.loop]. fold on_line.
  destruct (on_line acc line); [reflexivity | discriminate].
Qed.

Lemma loop_cons_break (acc line : str) (rest : list str) :
  stop_line line = true ->
  loop acc (line :: rest)
  = {| Sse.full_text := Sse.text_of (on_line acc line);
       Sse.unread := rest;
       Sse.stopped := true |}.
Proof.
  intro H. rewrite <- (breaks_on_line acc) in H.
  unfold loop. cbn [Sse.loop]. fold on_line.
  destruct (on_line acc line); [discriminate | reflexivity].
Qed.

(** Lines that do not stop the loop are read through. *)
Lemma loop_app (acc : str) (pre rest : list str) :
  Forall (fun x => stop_line x = false) pre ->
  loop acc (pre ++ rest) = loop (Sse.full_text (loop acc pre)) rest.
Proof.
  intro H. revert acc.
  induction H as [| x pre Hx _ IH]; intro acc.
  - reflexivity.
  - cbn [app]. rewrite !loop_cons_continue by assumption. apply IH.
Qed.

(** Where the first stopping line is, the loop ends: the lines after it
    stay unread and have no part in the answer. *)
Lemma parse_stops_at (pre : list str) (line : str) (post : list str)
  (read_error : option exn) :
  Forall (fun x => stop_line x = false) pre ->
  stop_line line = true ->
  Sse._parse_sse_response json_loads new_chunk (pre ++ line :: post) read_error
  = (Return (Str.strip
               (Sse.text_of (on_line (Sse.full_text (loop [] pre)) line))),
     post).
Proof.
  intros Hpre Hline. unfold Sse._parse_sse_response. fold loop.
  rewrite loop_app by assumption.
  rewrite loop_cons_break by assumption.
  reflexivity.
Qed.

(** A stream without a stopping line is read to its end. *)
Lemma loop_no_stop (acc : str) (lines : list str) :
  Forall (fun x => stop_line x = false) lines ->
  Sse.unread (loop acc lines) = [] /\ Sse.stopped (loop acc lines) = false.
Proof.
  intro H. revert acc.
  induction H as [| x l Hx _ IH]; intro acc.
  - split; reflexivity.
  - rewrite loop_cons_continue by assumption. apply IH.
Qed.

(** An assistant event with a text that is a non-empty string sets the
    accumulator to the re-encoded text, whatever it held. *)
Lemma on_chunk_snapshot (acc : str) (chunk : MessageChunk)
  (c : dict Py.value) (t : str) :
  role chunk = Str.lit "assistant" ->
  content chunk = Some c ->
  Dict.get (Str.lit "text") c = Some (Py.PStr t) ->
  t <> [] ->
  Sse.text_of (Sse.on_chunk acc chunk) = Sse.reencode t.
Proof.
  intros Hr Hc Hg Ht. unfold Sse.on_chunk, Dict.mem.
  rewrite Hc, Hr, Str_eqb_refl, (get_some_truthy _ _ _ Hg), Hg.
  cbn [andb Py.truthy].
  destruct t; [congruence |].
  destruct (finished chunk); reflexivity.
Qed.

(** An assistant event whose text is the empty string leaves the
    accumulator as it is. *)
Lemma on_chunk_empty_text (acc : str) (chunk : MessageChunk)
  (c : dict Py.value) :
  content chunk = Some c ->
  Dict.get (Str.lit "text") c = Some (Py.PStr []) ->
  Sse.text_of (Sse.on_chunk acc chunk) = acc.
Proof.
  intros Hc Hg. unfold Sse.on_chunk, Dict.mem.
  rewrite Hc, (get_some_truthy _ _ _ Hg), Hg.
  cbn [Py.truthy].
  destruct (Str.eqb (role chunk) (Str.lit "assistant"));
    destruct (finished chunk); reflexivity.
Qed.

(** Lines that leave an empty accumulator empty never fill it. *)
Lemma loop_stays_empty (lines : list str) :
  Forall (fun x => stop_line x = false) lines ->
  Forall (fun x => Sse.text_of (on_line [] x) = []) lines ->
  Sse.full_text (loop [] lines) = [].
Proof.
  intros Hs He.
  induction Hs as [| x l Hx _ IH]; [reflexivity |].
  inversion He as [| ? ? He1 He2]; subst.
  rewrite loop_cons_continue by assumption.
  rewrite He1. apply IH. assumption.
Qed.

End ReconstructorFacts.

(** ** Claims on the stream reconstructor *)

(** C2, as stated, fails: a finished event of another role is a
    qualifying line carrying [finished == true], and the line after it is
    read all the same. *)
Lemma C2_finished_user_event_does_not_stop :
  ~ (forall (pre : list str) (line : str) (post : list str)
            (chunk : MessageChunk),
        Forall (fun x => forall ch,
                    Sse.event_of Json.loads MessageChunk_init x = Some ch ->
                    finished ch = false) pre ->
        Sse.event_of Json.loads MessageChunk_init line = Some chunk ->
        finished chunk = true ->
        snd (Sse.parse (pre ++ line :: post) None) = post).
Proof.
  intro H.
  specialize (H [] Lines.user_done [Lines.hello]
                {| role := Str.lit "user";
                   content := Some [(Str.lit "text", Py.PStr (Str.lit "hi"))];
                   finished := true |}
                (Forall_nil _)).
  assert (E : snd (Sse.parse ([] ++ Lines.user_done :: [Lines.hello]) None)
              = []) by (vm_compute; reflexivity).
  rewrite E in H.
  assert (H' : @nil str = [Lines.hello]).
  { apply H; vm_compute; reflexivity. }
  discriminate H'.
Qed.

(** C2, amended: the loop is left at a line exactly when the line carries
    an assistant event that is finished and whose content has a [text]
    that is a string or counts as false; at the first such line
    consumption stops, and no line after it is read or has any part in
    the answer. *)
Theorem C2_stops_at_first_stopping_line
  (json_loads : str -> option Py.value)
  (new_chunk : Py.value -> option MessageChunk) :
  (forall acc line,
      Sse.breaks (Sse.on_line json_loads new_chunk acc line)
      = Sse.stop_line json_loads new_chunk line)
  /\
  (forall pre line post read_error,
      Forall (fun x => Sse.stop_line json_loads new_chunk x = false) pre ->
      Sse.stop_line json_loads new_chunk line = true ->
      Sse._parse_sse_response json_loads new_chunk
        (pre ++ line :: post) read_error
      = (Return
           (Str.strip
              (Sse.text_of
                 (Sse.on_line json_loads new_chunk
                    (Sse.full_text (Sse.loop json_loads new_chunk [] pre))
                    line))),
         post)).
Proof.
  split.
  - apply breaks_on_line.
  - apply parse_stops_at.
Qed.

Lemma C2_witness :
  Forall (fun x => Sse.stop_line Json.loads MessageChunk_init x = false)
         [Lines.user_done; Lines.hel]
  /\ Sse.stop_line Json.loads MessageChunk_init Lines.hello = true
  /\ Sse.parse ([Lines.user_done; Lines.hel] ++ Lines.hello :: [Lines.hel])
       (Some (RequestError (Str.lit "connection lost")))
     = (Return (Str.lit "Hello"), [Lines.hel]).
Proof.
  assert (Hpre : Forall (fun x => Sse.stop_line Json.loads MessageChunk_init x
                                  = false)
                        [Lines.user_done; Lines.hel]).
  { repeat (first [apply Forall_nil | apply Forall_cons; [vm_compute; reflexivity |]]). }
  assert (Hline : Sse.stop_line Json.loads MessageChunk_init Lines.hello
                  = true).
  { vm_compute. reflexivity. }
  split; [exact Hpre |]. split; [exact Hline |].
  unfold Sse.parse.
  rewrite (proj2 (C2_stops_at_first_stopping_line Json.loads MessageChunk_init)
             _ _ _ _ Hpre Hline).
  vm_compute. reflexivity.
Defined.

(** C3, as stated, fails: the text of an event may hold a lone surrogate,
    which the re-encoding drops, so the accumulator is not that text. *)
Lemma C3_lone_surrogate_is_dropped :
  ~ (forall (acc line : str) (chunk : MessageChunk) (c : dict Py.value)
            (t : str),
        Sse.event_of Json.loads MessageChunk_init line = Some chunk ->
        role chunk = Str.lit "assistant" ->
        content chunk = Some c ->
        Dict.get (Str.lit "text") c = Some (Py.PStr t) ->
        t <> [] ->
        Sse.text_of (Sse.on_line Json.loads MessageChunk_init acc line) = t).
Proof.
  intro H.
  specialize (H [] Lines.surrogate
                {| role := Str.lit "assistant";
                   content := Some [(Str.lit "text", Py.PStr [97; 55296]%N)];
                   finished := false |}
                [(Str.lit "text", Py.PStr [97; 55296]%N)]
                [97; 55296]%N).
  assert (E : Sse.text_of
                (Sse.on_line Json.loads MessageChunk_init [] Lines.surrogate)
              = [97%N]) by (vm_compute; reflexivity).
  rewrite E in H.
  assert (H' : [97%N] = [97; 55296]%N).
  { apply H; try (vm_compute; reflexivity). discriminate. }
  discriminate H'.
Qed.

(** C3, amended: an assistant event whose content has a [text] that is a
    non-empty string replaces the accumulator, whatever it held, by that
    text re-encoded through UTF-8 with errors ignored (never appended);
    the re-encoding leaves a text without lone surrogates as it is; and
    the two lines of the example give "Hello", not "HelHello". *)
Theorem C3_snapshot_replaces_accumulator :
  (forall (json_loads : str -> option Py.value)
          (new_chunk : Py.value -> option MessageChunk)
          (acc line : str) (chunk : MessageChunk) (c : dict Py.value)
          (t : str),
      Sse.event_of json_loads new_chunk line = Some chunk ->
      role chunk = Str.lit "assistant" ->
      content chunk = Some c ->
      Dict.get (Str.lit "text") c = Some (Py.PStr t) ->
      t <> [] ->
      Sse.text_of (Sse.on_line json_loads new_chunk acc line)
      = Sse.reencode t
      /\ (Forall (fun x => (x < 1114112)%N /\ Str.is_surrogate x = false) t ->
          Sse.text_of (Sse.on_line json_loads new_chunk acc line) = t))
  /\ Sse.parse [Lines.hel; Lines.hello] None = (Return (Str.lit "Hello"), [])
  /\ Str.lit "Hello" <> Str.lit "HelHello".
Proof.
  split; [| split].
  - intros json_loads new_chunk acc line chunk c t He Hr Hc Hg Ht.
    assert (E : Sse.text_of (Sse.on_line json_loads new_chunk acc line)
                = Sse.reencode t).
    { rewrite on_line_event, He. eapply on_chunk_snapshot; eassumption. }
    split; [exact E |].
    intro Hs. rewrite E. apply reencode_id. exact Hs.
  - vm_compute. reflexivity.
  - vm_compute. discriminate.
Qed.

Lemma C3_witness :
  Sse.text_of
    (Sse.on_line Json.loads MessageChunk_init (Str.lit "Hel") Lines.hello)
  = Str.lit "Hello".
Proof.
  refine (proj2
            (proj1 C3_snapshot_replaces_accumulator
               Json.loads MessageChunk_init (Str.lit "Hel") Lines.hello
               {| role := Str.lit "assistant";
                  content :=
                    Some [(Str.lit "text", Py.PStr (Str.lit "Hello"))];
                  finished := true |}
               [(Str.lit "text", Py.PStr (Str.lit "Hello"))]
               (Str.lit "Hello") _ _ _ _ _) _).
  - vm_compute. reflexivity.
  - vm_compute. reflexivity.
  - reflexivity.
  - vm_compute. reflexivity.
  - vm_compute. discriminate.
  - repeat constructor.
Defined.

(** C10: an assistant event whose content maps [text] to the empty string
    leaves the accumulator unchanged; when it is finished, consumption
    stops at it, and the answer is the snapshot accumulated before it,
    trimmed: the snapshot without a run of white space at its start and
    another at its end, so that the answer neither starts nor ends with
    white space -- and the empty string when no line before it set a
    snapshot. *)
Theorem C10_empty_text_keeps_snapshot_and_stops
  (json_loads : str -> option Py.value)
  (new_chunk : Py.value -> option MessageChunk)
  (pre : list str) (line : str) (post : list str) (read_error : option exn)
  (chunk : MessageChunk) (c : dict Py.value) :
  Sse.event_of json_loads new_chunk line = Some chunk ->
  role chunk = Str.lit "assistant" ->
  content chunk = Some c ->
  Dict.get (Str.lit "text") c = Some (Py.PStr []) ->
  (forall acc,
      Sse.text_of (Sse.on_line json_loads new_chunk acc line) = acc)
  /\ (finished chunk = true ->
      Forall (fun x => Sse.stop_line json_loads new_chunk x = false) pre ->
      Sse._parse_sse_response json_loads new_chunk
        (pre ++ line :: post) read_error
      = (Return (Str.strip
                   (Sse.full_text (Sse.loop json_loads new_chunk [] pre))),
         post)
      /\ (exists answer before after,
             Sse._parse_sse_response json_loads new_chunk
               (pre ++ line :: post) read_error
             = (Return answer, post)
             /\ Sse.full_text (Sse.loop json_loads new_chunk [] pre)
                = before ++ answer ++ after
             /\ Forall (fun x => Str.isspace x = true) before
             /\ Forall (fun x => Str.isspace x = true) after
             /\ (forall x rest, answer = x :: rest -> Str.isspace x = false)
             /\ (forall rest x, answer = rest ++ [x] ->
                                Str.isspace x = false))
      /\ (Forall (fun x => Sse.text_of
                             (Sse.on_line json_loads new_chunk [] x) = [])
                 pre ->
          Sse._parse_sse_response json_loads new_chunk
            (pre ++ line :: post) read_error
          = (Return [], post))).
Proof.
  intros He Hr Hc Hg.
  assert (Hkeep : forall acc,
             Sse.text_of (Sse.on_line json_loads new_chunk acc line) = acc).
  { intro acc. rewrite on_line_event, He.
    eapply on_chunk_empty_text; eassumption. }
  split; [exact Hkeep |].
  intros Hf Hpre.
  assert (Hstop : Sse.stop_line json_loads new_chunk line = true).
  { unfold Sse.stop_line. rewrite He. unfold Sse.stops.
    rewrite Hr, Str_eqb_refl, Hf, Hc, Hg. reflexivity. }
  assert (E := parse_stops_at json_loads new_chunk pre line post read_error
                 Hpre Hstop).
  rewrite Hkeep in E.
  split; [exact E | split].
  - destruct (strip_split
                (Sse.full_text (Sse.loop json_loads new_chunk [] pre)))
      as [l [r [Es [Hl Hr']]]].
    exists (Str.strip (Sse.full_text (Sse.loop json_loads new_chunk [] pre))),
      l, r.
    split; [exact E |].
    split; [exact Es |].
    split; [exact Hl |].
    split; [exact Hr' |].
    split.
    + intros x rest. apply strip_no_leading_space.
    + intros rest x. apply strip_no_trailing_space.
  - intro Hempty. rewrite E.
    rewrite (loop_stays_empty json_loads new_chunk pre Hpre Hempty).
    reflexivity.
Qed.

Lemma C10_witness :
  Sse.parse ([Lines.user_done; MoreLines.padded]
             ++ Lines.empty_done :: [Lines.hello])
    None
  = (Return (Str.lit "Hello"), [Lines.hello]).
Proof.
  unfold Sse.parse.
  rewrite (proj1
             (proj2
                (C10_empty_text_keeps_snapshot_and_stops
                   Json.loads MessageChunk_init
                   [Lines.user_done; MoreLines.padded] Lines.empty_done
                   [Lines.hello] None
                   {| role := Str.lit "assistant";
                      content := Some [(Str.lit "text", Py.PStr [])];
                      finished := true |}
                   [(Str.lit "text", Py.PStr [])]
                   ltac:(vm_compute; reflexivity)
                   ltac:(reflexivity)
                   ltac:(reflexivity)
                   ltac:(vm_compute; reflexivity))
                ltac:(reflexivity)
                ltac:(repeat (first [apply Forall_nil | apply Forall_cons; [vm_compute; reflexivity |]])))).
  vm_compute. reflexivity.
Defined.

(** ** Dictionaries *)

Arguments Str.lit : simpl never.
Arguments Str.of_Z : simpl never.
Arguments Str.eqb : simpl never.

Section DictFacts.
Context {V : Type}.
Implicit Types (d : dict V) (k : str) (v : V).

Lemma get_set_same k v d : Dict.get k (Dict.set k v d) = Some v.
Proof.
  induction d as [| [k' v'] d IH]; cbn.
  - now rewrite Str_eqb_refl.
  - destruct (Str.eqb k k') eqn:E; cbn; rewrite E; [reflexivity | exact IH].
Qed.

Lemma get_set_other k k' v d :
  k' <> k -> Dict.get k' (Dict.set k v d) = Dict.get k' d.
Proof.
  intro N. induction d as [| [k0 v0] d IH]; cbn.
  - apply Str_eqb_neq in N. now rewrite N.
  - destruct (Str.eqb k k0) eqn:E; cbn.
    + apply Str_eqb_eq in E. subst k0.
      apply Str_eqb_neq in N. now rewrite N.
    + destruct (Str.eqb k' k0); [reflexivity | exact IH].
Qed.

Lemma get_none_notin k d : Dict.get k d = None <-> ~ In k (Dict.keys d).
Proof.
  induction d as [| [k' v'] d IH]; cbn.
  - tauto.
  - destruct (Str.eqb k k') eqn:E.
    + apply Str_eqb_eq in E. subst. split; [discriminate | tauto].
    + apply Str_eqb_neq in E. rewrite IH. split; [| tauto].
      intros H [H' | H']; [congruence | tauto].
Qed.

Lemma get_some_in k v d : Dict.get k d = Some v -> In (k, v) d.
Proof.
  induction d as [| [k' v'] d IH]; cbn; [discriminate |].
  destruct (Str.eqb k k') eqn:E.
  - apply Str_eqb_eq in E. subst. intros [= ->]. now left.
  - intro H. right. now apply IH.
Qed.

Lemma in_get_wf k v d : Dict.wf d -> In (k, v) d -> Dict.get k d = Some v.
Proof.
  unfold Dict.wf.
  induction d as [| [k' v'] d IH]; cbn; [tauto |].
  intros W [H | H].
  - injection H as -> ->. now rewrite Str_eqb_refl.
  - inversion W as [| ? ? Hn Hd]; subst.
    destruct (Str.eqb k k') eqn:E.
    + apply Str_eqb_eq in E. subst. exfalso. apply Hn.
      change k' with (fst (k', v)). now apply in_map.
    + now apply IH.
Qed.

Lemma length_set k v d :
  length (Dict.set k v d)
  = if Dict.mem k d then length d else S (length d).
Proof.
  unfold Dict.mem.
  induction d as [| [k' v'] d IH]; cbn; [reflexivity |].
  destruct (Str.eqb k k') eqn:E; cbn; [reflexivity |].
  rewrite IH. now destruct (Dict.get k d).
Qed.

Lemma keys_set_wf k v d : Dict.wf d -> Dict.wf (Dict.set k v d).
Proof.
  unfold Dict.wf.
  induction d as [| [k' v'] d IH]; cbn; intro W.
  - constructor; [tauto | constructor].
  - inversion W as [| ? ? Hn Hd]; subst.
    destruct (Str.eqb k k') eqn:E; cbn.
    + constructor; assumption.
    + constructor; [| now apply IH].
      intro H. apply Hn. clear IH W Hd Hn.
      apply Str_eqb_neq in E.
      induction d as [| [k0 v0] d IH]; cbn in *.
      * destruct H; [congruence | assumption].
      * destruct (Str.eqb k k0); cbn in H; tauto.
Qed.

Lemma del_head_other k k' v d :
  k <> k' -> Dict.del k ((k', v) :: d) = (k', v) :: Dict.del k d.
Proof. intro N. cbn. apply Str_eqb_neq in N. now rewrite N. Qed.

Lemma del_head_same k v d : Dict.del k ((k, v) :: d) = d.
Proof. cbn. now rewrite Str_eqb_refl. Qed.

Lemma fold_del_head k v d (ks : list str) :
  ~ In k ks ->
  fold_left (fun d0 id => Dict.del id d0) ks ((k, v) :: d)
  = (k, v) :: fold_left (fun d0 id => Dict.del id d0) ks d.
Proof.
  revert d. induction ks as [| k0 ks IH]; intros d N; [reflexivity |].
  cbn [fold_left]. rewrite del_head_other.
  - apply IH. intro H. apply N. now right.
  - intro H. apply N. now left.
Qed.

(** Deleting, one by one, the keys of the entries a test selects leaves
    the entries it does not select, in their order. *)
Lemma fold_del_filter (P : str * V -> bool) d :
  Dict.wf d ->
  fold_left (fun d0 id => Dict.del id d0) (map fst (filter P d)) d
  = filter (fun kv => negb (P kv)) d.
Proof.
  unfold Dict.wf.
  induction d as [| [k v] d IH]; intro W; [reflexivity |].
  inversion W as [| ? ? Hn Hd]; subst.
  cbn [filter]. destruct (P (k, v)); cbn [negb map fst fold_left].
  - rewrite del_head_same. now apply IH.
  - rewrite fold_del_head.
    + f_equal. now apply IH.
    + intro H. apply Hn. apply in_map_iff in H as [[k0 v0] [E H]].
      cbn in E. subst k0. apply filter_In in H as [H _].
      change k with (fst (k, v0)). now apply in_map.
Qed.

Lemma get_filter_notin (Q : str * V -> bool) k d :
  ~ In k (Dict.keys d) -> Dict.get k (filter Q d) = None.
Proof.
  intro N. apply get_none_notin. intro H. apply N.
  unfold Dict.keys in *. apply in_map_iff in H as [kv [E H]].
  apply filter_In in H as [H _]. subst. now apply in_map.
Qed.

Lemma get_filter (Q : V -> bool) k d :
  Dict.wf d ->
  Dict.get k (filter (fun kv => Q (snd kv)) d)
  = match Dict.get k d with
    | Some v => if Q v then Some v else None
    | None => None
    end.
Proof.
  unfold Dict.wf.
  induction d as [| [k' v'] d IH]; intro W; [reflexivity |].
  inversion W as [| ? ? Hn Hd]; subst.
  cbn [filter snd Dict.get].
  destruct (Str.eqb k k') eqn:E.
  - apply Str_eqb_eq in E. subst k'.
    destruct (Q v'); cbn [Dict.get].
    + now rewrite Str_eqb_refl.
    + now apply get_filter_notin.
  - destruct (Q v'); cbn [Dict.get]; [rewrite E |]; now apply IH.
Qed.

Lemma filter_wf (Q : str * V -> bool) d : Dict.wf d -> Dict.wf (filter Q d).
Proof.
  unfold Dict.wf, Dict.keys.
  induction d as [| [k v] d IH]; intro W; [constructor |].
  inversion W as [| ? ? Hn Hd]; subst.
  cbn [filter]. destruct (Q (k, v)); [| now apply IH].
  cbn. constructor; [| now apply IH].
  intro H. apply Hn. apply in_map_iff in H as [kv [E H]].
  apply filter_In in H as [H _]. subst. now apply in_map.
Qed.

End DictFacts.

(** ** The session store *)



(** The sweep reads the clock once and keeps exactly the fresh entries. *)
Lemma cleanup_spec (W : World) (st : State) :
  Dict.wf (sessions st) ->
  ttl_in_range (config st) ->
  let current_time := clock W (reads (trace st)) in
  let ttl_delta := Config.session_ttl (config st) * 1000000 in
  _cleanup_old_sessions W st
  = (Return tt,
     {| config := config st;
        sessions := filter (fun kv => fresh current_time ttl_delta (snd kv))
                      (sessions st);
        trace := trace st ++ [Now current_time] |}).
Proof.
  intros Hwf [Hlo Hhi] current_time ttl_delta.
  unfold _cleanup_old_sessions, bind, now, get_config_of_self, timedelta,
    get_sessions, put_sessions, with_event, with_sessions, ret.
  cbn [config sessions trace].
  apply Z.leb_le in Hlo, Hhi. rewrite Hlo, Hhi. cbn [andb].
  fold current_time ttl_delta.
  f_equal. f_equal.
  unfold expired_sessions. rewrite fold_del_filter by assumption.
  apply filter_ext. intros [k s]. unfold fresh. cbn [snd].
  rewrite Z.ltb_antisym. apply negb_involutive.
Qed.

(** Outside the range of [timedelta] the sweep raises after reading the
    clock, and the store is as it was. *)
Lemma cleanup_overflow (W : World) (st : State) :
  ~ ttl_in_range (config st) ->
  _cleanup_old_sessions W st
  = (Raise (Exception
              (describe W (OverflowError (Config.session_ttl (config st))))),
     with_event st (Now (clock W (reads (trace st))))).
Proof.
  intro H.
  unfold _cleanup_old_sessions, bind, now, get_config_of_self, timedelta,
    fail, raise.
  cbn [config sessions trace with_event].
  destruct ((-999999999 <=? Config.session_ttl (config st) / 86400)
            && (Config.session_ttl (config st) / 86400 <=? 999999999)) eqn:E;
    [| reflexivity].
  exfalso. apply H. apply andb_prop in E as [E1 E2].
  apply Z.leb_le in E1, E2. split; assumption.
Qed.

Lemma min_from_spec {A} (key : A -> Z) (best : A) (xs : list A) :
  In (min_from key best xs) (best :: xs)
  /\ forall x, In x (best :: xs) -> key (min_from key best xs) <= key x.
Proof.
  revert best. induction xs as [| y xs IH]; intro best; cbn [min_from].
  - split; [now left |]. intros x [<- | []]. lia.
  - destruct (IH (if key y <? key best then y else best)) as [Hin Hle].
    split.
    + destruct Hin as [Hin | Hin]; [| now right; right].
      rewrite <- Hin. destruct (key y <? key best); [right; now left | now left].
    + intros x Hx.
      assert (Hb : key (min_from key (if key y <? key best then y else best) xs)
                   <= key (if key y <? key best then y else best)).
      { apply Hle. now left. }
      destruct Hx as [<- | [<- | Hx]].
      * destruct (Z.ltb_spec (key y) (key best)); lia.
      * destruct (Z.ltb_spec (key y) (key best)); lia.
      * apply Hle. now right.
Qed.

Lemma max_from_spec {A} (key : A -> Z) (best : A) (xs : list A) :
  In (max_from key best xs) (best :: xs)
  /\ forall x, In x (best :: xs) -> key x <= key (max_from key best xs).
Proof.
  revert best. induction xs as [| y xs IH]; intro best; cbn [max_from].
  - split; [now left |]. intros x [<- | []]. lia.
  - destruct (IH (if key best <? key y then y else best)) as [Hin Hle].
    split.
    + destruct Hin as [Hin | Hin]; [| now right; right].
      rewrite <- Hin. destruct (key best <? key y); [right; now left | now left].
    + intros x Hx.
      assert (Hb : key (if key best <? key y then y else best)
                   <= key (max_from key (if key best <? key y then y else best) xs)).
      { apply Hle. now left. }
      destruct Hx as [<- | [<- | Hx]].
      * destruct (Z.ltb_spec (key best) (key y)); lia.
      * destruct (Z.ltb_spec (key best) (key y)); lia.
      * apply Hle. now right.
Qed.

Lemma length_del {V} (k : str) (d : dict V) :
  In k (Dict.keys d) -> S (length (Dict.del k d)) = length d.
Proof.
  induction d as [| [k' v'] d IH]; cbn; [tauto |].
  destruct (Str.eqb k k') eqn:E; [reflexivity |].
  apply Str_eqb_neq in E. intros [H | H]; [congruence |].
  cbn. f_equal. now apply IH.
Qed.


(** [get_or_create_session] on its reuse path: the sweep, then the
    eviction at or over the maximum, then the scan for the most recent
    entry of what is left. *)
Lemma acquire_reuse (W : World) (st : State) (create_new pl : Py.value) :
  Dict.wf (sessions st) ->
  ttl_in_range (config st) ->
  Py.truthy create_new = false ->
  swept W st <> [] ->
  let ss := swept W st in
  let left :=
    if Config.max_active_sessions (config st) <=? Z.of_nat (length ss)
    then match Dict.keys ss with
         | [] => ss
         | k :: ks => Dict.del (min_from (last_used_of ss) k ks) ss
         end
    else ss in
  get_or_create_session W create_new pl st
  = (match Dict.keys left with
     | [] => Raise (Exception (describe W (ValueError_empty "max")))
     | k :: ks => Return (max_from (last_used_of left) k ks)
     end,
     {| config := config st;
        sessions := left;
        trace := trace st ++ [Now (clock W (reads (trace st)))] |}).
Proof.
  intros Hwf Httl Hnew Hne. cbv zeta.
  unfold get_or_create_session.
  unfold bind at 1. rewrite cleanup_spec by assumption.
  fold (swept W st).
  unfold bind at 1. unfold get_sessions at 1. cbn [sessions].
  unfold bind at 1. unfold get_config_of_self at 1. cbn [config].
  rewrite Hnew. cbn [orb].
  destruct (swept W st) as [| [k0 s0] ss0]; [congruence |].
  cbn [Dict.is_empty].
  destruct (Config.max_active_sessions (config st)
            <=? Z.of_nat (length ((k0, s0) :: ss0))) eqn:Emax.
  - cbn [Dict.keys map fst].
    unfold bind, py_min, ret, put_sessions, get_sessions, with_sessions.
    cbn [config sessions trace Dict.keys map fst].
    destruct (map fst (Dict.del (min_from (last_used_of ((k0, s0) :: ss0)) k0
                                   (map fst ss0)) ((k0, s0) :: ss0)));
      reflexivity.
  - unfold bind, ret, get_sessions. cbn [config sessions trace].
    cbn [Dict.keys map fst py_max]. reflexivity.
Qed.

(** ** Claims on the session store *)

(** C7: when the sweep has run, every entry left in the store has an age,
    at the time the sweep read the clock, of at most the time to live,
    and the sweep has removed exactly the entries whose age was over it:
    an id is in the store afterwards, with its session unchanged, if and
    only if it was there before with an age of at most the time to
    live. *)
Theorem C7_sweep_keeps_exactly_fresh_entries (W : World) (st : State) :
  Dict.wf (sessions st) ->
  ttl_in_range (config st) ->
  let current_time := clock W (reads (trace st)) in
  let ttl_delta := Config.session_ttl (config st) * 1000000 in
  exists st',
    _cleanup_old_sessions W st = (Return tt, st')
    /\ (forall id s,
           Dict.get id (sessions st') = Some s ->
           current_time - last_used s <= ttl_delta)
    /\ (forall id,
           Dict.get id (sessions st')
           = match Dict.get id (sessions st) with
             | Some s =>
               if ttl_delta <? current_time - last_used s then None
               else Some s
             | None => None
             end).
Proof.
  intros Hwf Httl current_time ttl_delta.
  eexists. split; [apply cleanup_spec; assumption |].
  cbn [sessions]. fold current_time ttl_delta.
  assert (G : forall id,
             Dict.get id
               (filter (fun kv => fresh current_time ttl_delta (snd kv))
                  (sessions st))
             = match Dict.get id (sessions st) with
               | Some s =>
                 if ttl_delta <? current_time - last_used s then None
                 else Some s
               | None => None
               end).
  { intro id.
    rewrite (get_filter (fresh current_time ttl_delta)) by assumption.
    destruct (Dict.get id (sessions st)) as [s |]; [| reflexivity].
    unfold fresh. rewrite Z.ltb_antisym.
    now destruct (current_time - last_used s <=? ttl_delta). }
  split; [| exact G].
  intros id s H. rewrite G in H.
  destruct (Dict.get id (sessions st)) as [s0 |]; [| discriminate].
  destruct (Z.ltb_spec ttl_delta (current_time - last_used s0));
    [discriminate |].
  injection H as <-. assumption.
Qed.

Lemma C7_witness :
  exists st',
    _cleanup_old_sessions (Example.world (Example.at_ 11 2) [])
      (Example.state (Example.cfg 10 3600) Example.store_AB)
    = (Return tt, st')
    /\ Dict.get (Str.lit "A") (sessions st') = None
    /\ Dict.get (Str.lit "B") (sessions st')
       = Some (snd (Example.session "B" (Example.at_ 10 5))).
Proof.
  destruct (C7_sweep_keeps_exactly_fresh_entries
              (Example.world (Example.at_ 11 2) [])
              (Example.state (Example.cfg 10 3600) Example.store_AB))
    as [st' [E [_ G]]].
  - repeat constructor; cbn; intuition discriminate.
  - unfold ttl_in_range. cbn. lia.
  - exists st'. split; [exact E |].
    split; rewrite G; vm_compute; reflexivity.
Defined.

(** C6: the code breaks the claim.  With one entry left after the sweep
    and a maximum of one, the reuse path (no new session asked for)
    evicts that entry, its only one, and then takes the most recent of
    no entries: the call raises the [ValueError] of [max] instead of
    returning the id of a session, and leaves the store empty. *)
Lemma C6_single_entry_at_maximum_raises :
  let W := Example.world (Example.at_ 10 6) [] in
  let st := Example.state (Example.cfg 1 3600) Example.store_A in
  swept W st = Example.store_A
  /\ Config.max_active_sessions (config st) <= Z.of_nat (length (swept W st))
  /\ get_or_create_session W (Py.PBool false) Py.PNone st
     = (Raise (Exception (Str.lit "max() arg is an empty sequence")),
        {| config := config st;
           sessions := [];
           trace := [Now (Example.at_ 10 6)] |}).
Proof.
  cbv zeta. split; [| split].
  - vm_compute. reflexivity.
  - vm_compute. discriminate.
  - vm_compute. reflexivity.
Qed.

(** X27: on the reuse path (no new session asked for), with at
    least two entries left after the sweep and the population at or over
    the maximum, the call evicts an entry with the smallest last-used
    time and returns the id of an entry with the largest last-used time
    among those that remain; with at least one entry and the population
    under the maximum it evicts nothing and returns the id of an entry
    with the largest last-used time.  For the store of A (10:00) and B
    (10:05) it evicts A and returns B at the maximum, and returns B with
    the store as it was under the maximum. *)
Theorem X27_reuse_evicts_oldest_and_returns_most_recent :
  (forall (W : World) (st : State) (create_new pl : Py.value),
      Dict.wf (sessions st) ->
      ttl_in_range (config st) ->
      Py.truthy create_new = false ->
      let ss := swept W st in
      let tr := trace st ++ [Now (clock W (reads (trace st)))] in
      (2 <= length ss)%nat ->
      Config.max_active_sessions (config st) <= Z.of_nat (length ss) ->
      exists oldest recent,
        get_or_create_session W create_new pl st
        = (Return recent,
           {| config := config st;
              sessions := Dict.del oldest ss;
              trace := tr |})
        /\ In oldest (Dict.keys ss)
        /\ (forall k, In k (Dict.keys ss) ->
                      last_used_of ss oldest <= last_used_of ss k)
        /\ In recent (Dict.keys (Dict.del oldest ss))
        /\ (forall k, In k (Dict.keys (Dict.del oldest ss)) ->
                      last_used_of (Dict.del oldest ss) k
                      <= last_used_of (Dict.del oldest ss) recent))
  /\
  (forall (W : World) (st : State) (create_new pl : Py.value),
      Dict.wf (sessions st) ->
      ttl_in_range (config st) ->
      Py.truthy create_new = false ->
      let ss := swept W st in
      let tr := trace st ++ [Now (clock W (reads (trace st)))] in
      (1 <= length ss)%nat ->
      Z.of_nat (length ss) < Config.max_active_sessions (config st) ->
      exists recent,
        get_or_create_session W create_new pl st
        = (Return recent,
           {| config := config st; sessions := ss; trace := tr |})
        /\ In recent (Dict.keys ss)
        /\ (forall k, In k (Dict.keys ss) ->
                      last_used_of ss k <= last_used_of ss recent))
  /\
  get_or_create_session (Example.world (Example.at_ 10 6) [])
    (Py.PBool false) Py.PNone
    (Example.state (Example.cfg 2 3600) Example.store_AB)
  = (Return (Str.lit "B"),
     {| config := Example.cfg 2 3600;
        sessions := [Example.session "B" (Example.at_ 10 5)];
        trace := [Now (Example.at_ 10 6)] |})
  /\
  get_or_create_session (Example.world (Example.at_ 10 6) [])
    (Py.PBool false) Py.PNone
    (Example.state (Example.cfg 3 3600) Example.store_AB)
  = (Return (Str.lit "B"),
     {| config := Example.cfg 3 3600;
        sessions := Example.store_AB;
        trace := [Now (Example.at_ 10 6)] |}).
Proof.
  split; [| split; [| split]].
  - intros W st create_new pl Hwf Httl Hnew ss tr Hlen Hmax.
    assert (Hne : swept W st <> []).
    { fold ss. destruct ss; [cbn in Hlen; lia | discriminate]. }
    rewrite (acquire_reuse W st create_new pl Hwf Httl Hnew Hne).
    fold ss tr. apply Z.leb_le in Hmax. rewrite Hmax.
    destruct (Dict.keys ss) as [| k ks] eqn:Ek.
    { destruct ss; [cbn in Hlen; lia | discriminate]. }
    destruct (min_from_spec (last_used_of ss) k ks) as [Hin Hle].
    set (oldest := min_from (last_used_of ss) k ks) in *.
    assert (Hlen' : S (length (Dict.del oldest ss)) = length ss).
    { apply length_del. rewrite Ek. exact Hin. }
    destruct (Dict.keys (Dict.del oldest ss)) as [| k' ks'] eqn:Ek'.
    { destruct (Dict.del oldest ss); [cbn in Hlen'; lia | discriminate]. }
    destruct (max_from_spec (last_used_of (Dict.del oldest ss)) k' ks')
      as [Hin' Hle'].
    exists oldest, (max_from (last_used_of (Dict.del oldest ss)) k' ks').
    split; [reflexivity |]. split; [exact Hin |]. split; [exact Hle |].
    rewrite Ek'. split; assumption.
  - intros W st create_new pl Hwf Httl Hnew ss tr Hlen Hmax.
    assert (Hne : swept W st <> []).
    { fold ss. destruct ss; [cbn in Hlen; lia | discriminate]. }
    rewrite (acquire_reuse W st create_new pl Hwf Httl Hnew Hne).
    fold ss tr.
    destruct (Z.leb_spec (Config.max_active_sessions (config st))
                (Z.of_nat (length ss))); [lia |].
    destruct (Dict.keys ss) as [| k ks] eqn:Ek.
    { destruct ss; [cbn in Hlen; lia | discriminate]. }
    destruct (max_from_spec (last_used_of ss) k ks) as [Hin Hle].
    exists (max_from (last_used_of ss) k ks).
    split; [reflexivity |]. split; assumption.
  - vm_compute. reflexivity.
  - vm_compute. reflexivity.
Qed.

Lemma X27_witness :
  exists oldest recent st',
    get_or_create_session (Example.world (Example.at_ 10 6) [])
      (Py.PBool false) Py.PNone
      (Example.state (Example.cfg 2 3600) Example.store_AB)
    = (Return recent, st')
    /\ In oldest (Dict.keys Example.store_AB)
    /\ sessions st' = Dict.del oldest Example.store_AB.
Proof.
  destruct (proj1 X27_reuse_evicts_oldest_and_returns_most_recent
              (Example.world (Example.at_ 10 6) [])
              (Example.state (Example.cfg 2 3600) Example.store_AB)
              (Py.PBool false) Py.PNone)
    as [oldest [recent [E [Hin _]]]].
  - repeat constructor; cbn; intuition discriminate.
  - unfold ttl_in_range. cbn. lia.
  - reflexivity.
  - vm_compute. lia.
  - vm_compute. discriminate.
  - assert (Es : swept (Example.world (Example.at_ 10 6) [])
                   (Example.state (Example.cfg 2 3600) Example.store_AB)
                 = Example.store_AB) by (vm_compute; reflexivity).
    rewrite Es in E, Hin.
    exists oldest, recent. eexists.
    split; [exact E |]. split; [exact Hin | reflexivity].
Defined.

(** C1: the code lets the population pass the maximum.  With a maximum
    of one, two calls that ask for a new session leave two entries in
    the store; so does one such call followed by a message sent to an id
    the store does not know. *)
Theorem C1_population_exceeds_maximum :
  let W := Example.world (Example.at_ 10 0) [Example.ok "a"; Example.ok "b"] in
  let st0 := Example.state (Example.cfg 1 3600) [] in
  let st1 := snd (get_or_create_session W (Py.PBool true) Py.PNone st0) in
  let st2 := snd (get_or_create_session W (Py.PBool true) Py.PNone st1) in
  let st2' := snd (send_message W (Str.lit "c") (Str.lit "hi") st1) in
  Dict.keys (sessions st1) = [Str.lit "a"]
  /\ Dict.keys (sessions st2) = [Str.lit "a"; Str.lit "b"]
  /\ Config.max_active_sessions (config st2) < Z.of_nat (length (sessions st2))
  /\ Dict.keys (sessions st2') = [Str.lit "a"; Str.lit "c"]
  /\ Config.max_active_sessions (config st2') < Z.of_nat (length (sessions st2')).
Proof.
  cbv zeta.
  repeat match goal with |- _ /\ _ => split end; vm_compute; reflexivity.
Qed.

(** ** The remote calls *)

Lemma reads_now (tr : list Event) (t : Z) : reads (tr ++ [Now t]) = S (reads tr).
Proof.
  unfold reads. rewrite filter_app, length_app. cbn. lia.
Qed.

Lemma calls_now (tr : list Event) (t : Z) : calls (tr ++ [Now t]) = calls tr.
Proof.
  unfold calls. rewrite filter_app, length_app. cbn. lia.
Qed.

Lemma mem_get {V} (k : str) (d : dict V) :
  Dict.mem k d = true -> exists v, Dict.get k d = Some v.
Proof.
  unfold Dict.mem. destruct (Dict.get k d) as [v |]; [eauto | discriminate].
Qed.

(** The bookkeeping of [send_message] always completes; it reads the
    clock, issues no request, and leaves the entry of the id with the
    latest reading as its last-used time. *)
Lemma register_usage_spec (W : World) (st : State) (id : str) :
  let tr := trace st in
  let t1 := clock W (reads tr) in
  let t2 := clock W (S (reads tr)) in
  register_usage W id st
  = (Return tt,
     match Dict.get id (sessions st) with
     | Some s =>
       {| config := config st;
          sessions := Dict.set id (update_usage s t1) (sessions st);
          trace := tr ++ [Now t1] |}
     | None =>
       {| config := config st;
          sessions :=
            Dict.set id (update_usage (ConversationSession_init id t1) t2)
              (Dict.set id (ConversationSession_init id t1) (sessions st));
          trace := (tr ++ [Now t1]) ++ [Now t2] |}
     end).
Proof.
  cbv zeta. unfold register_usage, Dict.mem.
  unfold bind at 1. unfold get_sessions at 1.
  destruct (Dict.get id (sessions st)) as [s |] eqn:G; cbn [negb].
  - unfold bind, ret, get_sessions, now, put_sessions, with_event,
      with_sessions.
    cbn [config sessions trace]. rewrite G. reflexivity.
  - unfold bind, ret, get_sessions, now, put_sessions, with_event,
      with_sessions.
    cbn [config sessions trace].
    rewrite get_set_same. cbn [config sessions trace].
    rewrite reads_now. reflexivity.
Qed.

(** The remote call of [send_message] leaves the store alone. *)
Lemma post_message_store (W : World) (st : State) (id message : str) :
  sessions (snd (post_message W id message st)) = sessions st
  /\ trace (snd (post_message W id message st))
     = trace st ++ [Stream id {| instruction := message |}].
Proof.
  unfold post_message, bind, http, with_event, raise, lift, ret.
  destruct (remote W (calls (trace st))) as [resp | e]; cbn [snd sessions trace].
  - destruct (negb (status_code resp =? 200)); cbn [snd sessions trace].
    + split; reflexivity.
    + destruct (fst (Sse.parse (aiter_lines resp) (read_error resp)));
        split; reflexivity.
  - split; reflexivity.
Qed.

Lemma post_message_fails (W : World) (st : State) (id message : str) :
  remote_fails (remote W (calls (trace st))) ->
  exists e, fst (post_message W id message st) = Raise e.
Proof.
  unfold post_message, bind, http, with_event, raise, remote_fails.
  destruct (remote W (calls (trace st))) as [resp | e]; intro H.
  - apply Z.eqb_neq in H. rewrite H. cbn. eauto.
  - cbn. eauto.
Qed.

(** Whatever [send_message] catches leaves it as an [ApiError] without a
    status code. *)
Lemma send_message_unfold (W : World) (st : State) (id message : str) :
  let st1 := snd (register_usage W id st) in
  let '(r, st2) := post_message W id message st1 in
  send_message W id message st
  = (match r with
     | Return a => Return a
     | Raise (RequestError t) =>
       Raise (ApiError (Str.lit "Ошибка сети при отправке сообщения: "
                        ++ t) None)
     | Raise e =>
       Raise (ApiError (Str.lit "Неожиданная ошибка при отправке сообщения: "
                        ++ exn_str e) None)
     end, st2).
Proof.
  cbv zeta. unfold send_message, try_except.
  unfold bind at 1. rewrite register_usage_spec. cbn [snd].
  destruct (post_message W id message _) as [[a | e] st2]; [reflexivity |].
  destruct e; reflexivity.
Qed.

(** ** Claims on the remote calls *)

(** C9: [send_message] updates the store before it issues the request.
    When the remote call then fails, the method raises an [ApiError], and
    the store still holds the entry of the conversation id (inserted if it
    was absent) with the latest clock reading as its last-used time; the
    other entries are as they were.  The trace shows the clock readings of
    the update before the request. *)
Theorem C9_touch_is_kept_when_the_remote_call_fails
  (W : World) (st : State) (id message : str) :
  remote_fails (remote W (calls (trace st))) ->
  let known := Dict.mem id (sessions st) in
  let t := clock W (if known then reads (trace st) else S (reads (trace st))) in
  let st' := snd (send_message W id message st) in
  (exists m, fst (send_message W id message st) = Raise (ApiError m None))
  /\ (exists s, Dict.get id (sessions st') = Some s /\ last_used s = t)
  /\ (forall k, k <> id -> Dict.get k (sessions st') = Dict.get k (sessions st))
  /\ trace st'
     = trace st
       ++ (if known then [Now t]
           else [Now (clock W (reads (trace st))); Now t])
       ++ [Stream id {| instruction := message |}].
Proof.
  intro Hfail. cbv zeta.
  pose proof (send_message_unfold W st id message) as U. cbv zeta in U.
  pose proof (post_message_store W (snd (register_usage W id st)) id message)
    as [Hs Ht].
  assert (Hcalls : calls (trace (snd (register_usage W id st)))
                   = calls (trace st)).
  { rewrite register_usage_spec. cbn [snd].
    destruct (Dict.get id (sessions st)); cbn [trace];
      now rewrite ?calls_now. }
  pose proof (post_message_fails W (snd (register_usage W id st)) id message)
    as Hf.
  rewrite Hcalls in Hf. specialize (Hf Hfail). destruct Hf as [e He].
  destruct (post_message W id message (snd (register_usage W id st)))
    as [r st2] eqn:P.
  cbn [fst snd] in Hs, Ht, He. subst r.
  rewrite U. cbn [fst snd]. rewrite Hs, Ht.
  rewrite register_usage_spec. cbn [snd]. unfold Dict.mem.
  split; [destruct e; eauto |].
  destruct (Dict.get id (sessions st)) as [s |] eqn:G; cbn [sessions trace].
  - split; [| split].
    + eexists. split; [apply get_set_same | reflexivity].
    + intros k Hk. now apply get_set_other.
    + now rewrite <- app_assoc.
  - split; [| split].
    + eexists. split; [apply get_set_same | reflexivity].
    + intros k Hk. now rewrite !get_set_other by assumption.
    + now rewrite <- !app_assoc.
Qed.

Lemma C9_witness :
  let W := Example.world (Example.at_ 10 6) [Example.status 500] in
  let st := Example.state (Example.cfg 10 3600) Example.store_AB in
  let st' := snd (send_message W (Str.lit "A") (Str.lit "hi") st) in
  (exists m, fst (send_message W (Str.lit "A") (Str.lit "hi") st)
             = Raise (ApiError m None))
  /\ (exists s, Dict.get (Str.lit "A") (sessions st') = Some s
                /\ last_used s = Example.at_ 10 6).
Proof.
  cbv zeta.
  destruct (C9_touch_is_kept_when_the_remote_call_fails
              (Example.world (Example.at_ 10 6) [Example.status 500])
              (Example.state (Example.cfg 10 3600) Example.store_AB)
              (Str.lit "A") (Str.lit "hi"))
    as [Hr [Hs _]].
  - vm_compute. discriminate.
  - split; [exact Hr |].
    destruct Hs as [s [G L]]. exists s. split; [exact G |].
    rewrite L. vm_compute. reflexivity.
Defined.

(** A status error raised inside [create_conversation] is caught by the
    method's own handler of [Exception] and raised anew: the message
    gets a prefix and the status code is gone. *)
Lemma create_conversation_status (W : World) (st : State)
  (pl sl : Py.value) (request : ConversationRequest) (resp : Response) :
  fst (ConversationRequest_init W
         (Py.PStr (Config.ui_language (config st)))
         (py_or pl (Py.PStr (Config.programming_language (config st))))
         (py_or sl (Py.PStr (Config.script_language (config st)))) st)
  = Return request ->
  remote W (calls (trace st)) = Return resp ->
  status_code resp <> 200 ->
  fst (create_conversation W pl sl st)
  = Raise (ApiError
             (Str.lit "Неожиданная ошибка при создании дискуссии: "
              ++ Str.lit "Ошибка создания дискуссии: "
              ++ Str.of_Z (status_code resp))
             None).
Proof.
  intros Hreq Hresp Hst.
  unfold create_conversation, try_except.
  unfold bind at 1. unfold get_config_of_self at 1.
  unfold bind at 1.
  unfold ConversationRequest_init in *.
  destruct (py_or pl _) as [| | | | p | |]; try discriminate Hreq.
  destruct (py_or sl _) as [| | | | s | |]; try discriminate Hreq.
  cbn [ret].
  unfold bind at 1. unfold http at 1. rewrite Hresp.
  apply Z.eqb_neq in Hst. rewrite Hst. cbn [negb].
  reflexivity.
Qed.

(** C4: a remote failure does not reach the boundary as it was raised.
    A status of 500 raises [ApiError] with its message and the status
    code inside [create_conversation] and inside [send_message]; both
    methods catch it themselves and raise another [ApiError], with a
    prefixed message and no status code, and the boundary prints that
    message.  A transport error has its text prefixed as well. *)
Theorem C4_remote_error_is_rewrapped_and_loses_its_status :
  let W500 := Example.world (Example.at_ 10 6) [Example.status 500] in
  let Wnet := Example.world (Example.at_ 10 6) [] in
  let st := Example.state (Example.cfg 10 3600) [] in
  let known := Example.state (Example.cfg 10 3600) Example.store_AB in
  let self :=
    {| self_config := Some (Example.cfg 10 3600);
       self_api_client := None |} in
  let ask := [(Str.lit "question", Py.PStr (Str.lit "hi"))] in
  fst (create_conversation W500 Py.PNone Py.PNone st)
  = Raise (ApiError
             (Str.lit "Неожиданная ошибка при создании дискуссии: Ошибка создания дискуссии: 500")
             None)
  /\ fst (send_message W500 (Str.lit "A") (Str.lit "hi") known)
     = Raise (ApiError
                (Str.lit "Неожиданная ошибка при отправке сообщения: Ошибка отправки сообщения: 500")
                None)
  /\ fst (create_conversation Wnet Py.PNone Py.PNone st)
     = Raise (ApiError
                (Str.lit "Ошибка сети при создании дискуссии: All connection attempts failed")
                None)
  /\ fst (fst (handle_call_tool W500 (Str.lit "ask_1c_ai") ask self []))
     = reply (Str.lit "Ошибка при обращении к 1С.ai: Неожиданная ошибка при создании дискуссии: Ошибка создания дискуссии: 500").
Proof.
  cbv zeta.
  repeat match goal with |- _ /\ _ => split end; vm_compute; reflexivity.
Qed.

(** ** The keys of the store stay distinct *)

Lemma in_keys_del {V} (x k : str) (d : dict V) :
  In x (Dict.keys (Dict.del k d)) -> In x (Dict.keys d).
Proof.
  induction d as [| [k' v'] d IH]; cbn; [tauto |].
  destruct (Str.eqb k k'); cbn; tauto.
Qed.

Lemma del_wf {V} (k : str) (d : dict V) : Dict.wf d -> Dict.wf (Dict.del k d).
Proof.
  unfold Dict.wf.
  induction d as [| [k' v'] d IH]; cbn; intro W; [constructor |].
  inversion W as [| ? ? Hn Hd]; subst.
  destruct (Str.eqb k k'); [assumption |].
  cbn. constructor; [| now apply IH].
  intro H. apply Hn. eapply in_keys_del. exact H.
Qed.

Lemma create_conversation_wf (W : World) (pl sl : Py.value) (st : State) :
  Dict.wf (sessions st) ->
  Dict.wf (sessions (snd (create_conversation W pl sl st))).
Proof.
  intro Hwf.
  unfold create_conversation, try_except, bind, get_config_of_self,
    ConversationRequest_init, fail, http, lift, now, get_sessions,
    put_sessions, raise, ret, with_event, with_sessions.
  destruct (py_or pl _) as [| | | | p | |];
    try (cbn [snd sessions]; exact Hwf).
  destruct (py_or sl _) as [| | | | s | |];
    try (cbn [snd sessions]; exact Hwf).
  cbn [config sessions trace].
  destruct (remote W (calls (trace st))) as [resp | e].
  - destruct (negb (status_code resp =? 200)).
    + cbn [snd sessions]. exact Hwf.
    + destruct (uuid resp) as [id | e].
      * cbn [snd sessions]. now apply keys_set_wf.
      * destruct e; cbn [snd sessions]; exact Hwf.
  - destruct e; cbn [snd sessions]; exact Hwf.
Qed.

Lemma send_message_wf (W : World) (id message : str) (st : State) :
  Dict.wf (sessions st) ->
  Dict.wf (sessions (snd (send_message W id message st))).
Proof.
  intro Hwf.
  pose proof (send_message_unfold W st id message) as U. cbv zeta in U.
  pose proof (post_message_store W (snd (register_usage W id st)) id message)
    as [Hs _].
  destruct (post_message W id message (snd (register_usage W id st)))
    as [r st2].
  rewrite U. cbn [snd] in *. rewrite Hs.
  rewrite register_usage_spec. cbn [snd].
  destruct (Dict.get id (sessions st)); cbn [sessions];
    repeat apply keys_set_wf; exact Hwf.
Qed.

Lemma cleanup_wf (W : World) (st : State) :
  Dict.wf (sessions st) ->
  Dict.wf (sessions (snd (_cleanup_old_sessions W st))).
Proof.
  intro Hwf.
  destruct ((-999999999 <=? Config.session_ttl (config st) / 86400)
            && (Config.session_ttl (config st) / 86400 <=? 999999999)) eqn:E.
  - apply andb_prop in E as [E1 E2]. apply Z.leb_le in E1, E2.
    rewrite cleanup_spec by (try split; assumption).
    cbn [snd sessions]. now apply filter_wf.
  - rewrite cleanup_overflow.
    + exact Hwf.
    + intros [H1 H2]. apply Z.leb_le in H1, H2. rewrite H1, H2 in E.
      discriminate.
Qed.

(** Every method of the client keeps the keys of the store distinct, as
    the [dict] of the program does; the store starts empty. *)
Lemma get_or_create_session_wf (W : World) (create_new pl : Py.value)
  (st : State) :
  Dict.wf (sessions st) ->
  Dict.wf (sessions (snd (get_or_create_session W create_new pl st))).
Proof.
  intro Hwf. pose proof (cleanup_wf W st Hwf) as Hc.
  unfold get_or_create_session.
  unfold bind at 1.
  destruct (_cleanup_old_sessions W st) as [[[] | e] st1];
    cbn [snd] in Hc; [| exact Hc].
  unfold bind at 1. unfold get_sessions at 1.
  unfold bind at 1. unfold get_config_of_self at 1.
  destruct (Py.truthy create_new || Dict.is_empty (sessions st1)).
  - now apply create_conversation_wf.
  - unfold bind, py_min, py_max, fail, raise, ret, put_sessions,
      get_sessions, with_sessions.
    destruct (Config.max_active_sessions (config st1)
              <=? Z.of_nat (length (sessions st1))).
    + destruct (Dict.keys (sessions st1)) as [| k ks] eqn:Ek.
      * cbn [snd sessions]. exact Hc.
      * cbn [config sessions trace].
        destruct (Dict.keys (Dict.del _ (sessions st1)));
          cbn [snd sessions]; now apply del_wf.
    + cbn [config sessions trace].
      destruct (Dict.keys (sessions st1)); cbn [snd sessions]; exact Hc.
Qed.

(** Of the header values only the token and the base URL are not fixed
    text: the client is built exactly when both are ASCII, and the
    exception names the first value that is not. *)
Lemma OneCApiClient_init_spec (W : World) (c : Config) (tr : list Event) :
  OneCApiClient_init W c tr
  = if Str.is_ascii (Config.onec_ai_token c) then
      if Str.is_ascii (Config.base_url c) then
        Return {| config := c; sessions := []; trace := tr |}
      else
        Raise (Exception (describe W (UnicodeEncodeError (Config.base_url c))))
    else
      Raise (Exception
               (describe W (UnicodeEncodeError (Config.onec_ai_token c)))).
Proof.
  assert (A1 : Str.is_ascii (Str.lit "*/*") = true)
    by (vm_compute; reflexivity).
  assert (A2 : Str.is_ascii (Str.lit "utf-8") = true)
    by (vm_compute; reflexivity).
  assert (A3 : Str.is_ascii (Str.lit "gzip, deflate, br") = true)
    by (vm_compute; reflexivity).
  assert (A4 : Str.is_ascii (Str.lit "ru-ru,en-us;q=0.8,en;q=0.7") = true)
    by (vm_compute; reflexivity).
  assert (A5 : Str.is_ascii (Str.lit "application/json; charset=utf-8") = true)
    by (vm_compute; reflexivity).
  assert (A6 : Str.is_ascii (Str.lit "/chat/") = true)
    by (vm_compute; reflexivity).
  assert (A7 : Str.is_ascii
                 (Str.lit "Mozilla/5.0 (Windows NT 10.0; Win64; x64) AppleWebKit/620.1 (KHTML, like Gecko) JavaFX/22 Safari/620.1")
               = true)
    by (vm_compute; reflexivity).
  assert (A8 : forall a b,
             Str.is_ascii (a ++ b) = Str.is_ascii a && Str.is_ascii b)
    by (intros a b; unfold Str.is_ascii; apply forallb_app).
  unfold OneCApiClient_init, client_headers. cbn [find snd].
  rewrite A1, A2, A3, A4, A5, A7, A8, A6. cbn [negb].
  destruct (Str.is_ascii (Config.onec_ai_token c)); cbn [negb];
    [| reflexivity].
  destruct (Str.is_ascii (Config.base_url c)); reflexivity.
Qed.

Lemma OneCApiClient_init_inv (W : World) (c : Config) (tr : list Event)
  (st : State) :
  OneCApiClient_init W c tr = Return st ->
  st = {| config := c; sessions := []; trace := tr |}.
Proof.
  rewrite OneCApiClient_init_spec.
  destruct (Str.is_ascii (Config.onec_ai_token c));
    [destruct (Str.is_ascii (Config.base_url c)) |]; congruence.
Qed.

Lemma empty_store_wf (W : World) (c : Config) (tr : list Event) (st : State) :
  OneCApiClient_init W c tr = Return st -> Dict.wf (sessions st).
Proof. intro E. rewrite (OneCApiClient_init_inv W c tr st E). constructor. Qed.

(** ** Claims on the configuration and the tool boundary *)




Lemma blank_inv (v : Py.value) :
  blank v = true -> exists q, v = Py.PStr q /\ Str.strip q = [].
Proof.
  destruct v as [| | | | q | |]; try discriminate. cbn.
  destruct (Str.strip q) eqn:E; [eauto | discriminate].
Qed.

Lemma ask_blank (W : World) (arguments : dict Py.value) (st : State) :
  blank (arg arguments "question" (Py.PStr [])) = true ->
  _handle_ask_1c_ai W arguments st
  = (Return (reply (Str.lit "Ошибка: Вопрос не может быть пустым")), st).
Proof.
  intro H. apply blank_inv in H as [q [E S]].
  unfold _handle_ask_1c_ai. rewrite E, S. reflexivity.
Qed.

Lemma explain_blank (W : World) (arguments : dict Py.value) (st : State) :
  blank (arg arguments "syntax_element" (Py.PStr [])) = true ->
  _handle_explain_syntax W arguments st
  = (Return (reply (Str.lit "Ошибка: Элемент синтаксиса не может быть пустым")),
     st).
Proof.
  intro H. apply blank_inv in H as [q [E S]].
  unfold _handle_explain_syntax. rewrite E, S. reflexivity.
Qed.

Lemma check_blank (W : World) (arguments : dict Py.value) (st : State) :
  blank (arg arguments "code" (Py.PStr [])) = true ->
  _handle_check_code W arguments st
  = (Return (reply (Str.lit "Ошибка: Код для проверки не может быть пустым")),
     st).
Proof.
  intro H. apply blank_inv in H as [q [E S]].
  unfold _handle_check_code. rewrite E, S. reflexivity.
Qed.

(** A call whose handler answers without touching the state leaves the
    trace and the session store of the server as they were.  The answer
    is the handler's, unless the call ends before the handler runs: with
    the configuration error when the server has no configuration and
    cannot load one, or with the connection error when it has no client
    and cannot build one. *)
Lemma handle_call_tool_pure (W : World) (name : str)
  (arguments : dict Py.value) (self : OneCMcpServer) (tr : list Event)
  (out : list TextContent) :
  (forall st, dispatch W name arguments st = (Return out, st)) ->
  snd (handle_call_tool W name arguments self tr) = tr
  /\ store_of (snd (fst (handle_call_tool W name arguments self tr)))
     = store_of self
  /\ (fst (fst (handle_call_tool W name arguments self tr)) = out
      \/ self_config self = None
         /\ Config.init (environ W) = None
         /\ fst (fst (handle_call_tool W name arguments self tr))
            = reply (Str.lit "Ошибка конфигурации: "
                     ++ describe W (ValidationError "Config") ++ nl
                     ++ Str.lit "Установите переменную окружения ONEC_AI_TOKEN")
      \/ self_api_client self = None
         /\ exists c e,
              (self_config self = Some c
               \/ self_config self = None
                  /\ Config.init (environ W) = Some c)
              /\ OneCApiClient_init W c tr = Raise e
              /\ fst (fst (handle_call_tool W name arguments self tr))
                 = reply (Str.lit "Ошибка подключения к API: "
                          ++ exn_str e)).
Proof.
  intro H.
  assert (built : forall c,
             self_api_client self = None ->
             (self_config self = Some c
              \/ self_config self = None
                 /\ Config.init (environ W) = Some c) ->
             let r :=
               match
                 match OneCApiClient_init W c tr with
                 | Return st0 =>
                   Return {| client_config := config st0;
                             client_sessions := sessions st0 |}
                 | Raise e => Raise e
                 end
               with
               | Raise e =>
                 (reply (Str.lit "Ошибка подключения к API: " ++ exn_str e),
                  {| self_config := Some c; self_api_client := None |}, tr)
               | Return client =>
                 let st := {| config := client_config client;
                              sessions := client_sessions client;
                              trace := tr |} in
                 let '(r, st') := dispatch W name arguments st in
                 let self' :=
                   {| self_config := Some c;
                      self_api_client :=
                        Some {| client_config := config st';
                                client_sessions := sessions st' |} |} in
                 match r with
                 | Return out => (out, self', trace st')
                 | Raise e =>
                   (reply (Str.lit "Произошла неожиданная ошибка: "
                           ++ exn_str e),
                    self', trace st')
                 end
               end in
             snd r = tr
             /\ match self_api_client (snd (fst r)) with
                | Some cl => client_sessions cl
                | None => []
                end = []
             /\ (fst (fst r) = out
                 \/ self_config self = None
                    /\ Config.init (environ W) = None
                    /\ fst (fst r)
                       = reply (Str.lit "Ошибка конфигурации: "
                                ++ describe W (ValidationError "Config") ++ nl
                                ++ Str.lit "Установите переменную окружения ONEC_AI_TOKEN")
                 \/ self_api_client self = None
                    /\ exists c e,
                         (self_config self = Some c
                          \/ self_config self = None
                             /\ Config.init (environ W) = Some c)
                         /\ OneCApiClient_init W c tr = Raise e
                         /\ fst (fst r)
                            = reply (Str.lit "Ошибка подключения к API: "
                                     ++ exn_str e))).
  { intros c Ea Hc.
    destruct (OneCApiClient_init W c tr) as [st0 | e] eqn:Ei.
    - apply OneCApiClient_init_inv in Ei. subst st0.
      cbn [config sessions client_config client_sessions].
      cbv zeta. rewrite H.
      cbn [fst snd trace sessions config self_api_client client_sessions].
      split; [reflexivity | split; [reflexivity | left; reflexivity]].
    - cbv zeta. cbn [fst snd self_api_client].
      split; [reflexivity | split; [reflexivity |]].
      right. right. split; [exact Ea |].
      exists c, e. split; [exact Hc | split; [exact Ei | reflexivity]]. }
  unfold handle_call_tool, get_config, store_of.
  destruct (self_config self) as [c |] eqn:Ec.
  - destruct (self_api_client self) as [cl |] eqn:Ea.
    + rewrite H.
      cbn [fst snd trace sessions config self_api_client client_sessions].
      split; [reflexivity | split; [reflexivity | left; reflexivity]].
    + apply (built c eq_refl). left. reflexivity.
  - destruct (Config.init (environ W)) as [c |] eqn:Ei.
    + destruct (self_api_client self) as [cl |] eqn:Ea.
      * rewrite H.
        cbn [fst snd trace sessions config self_api_client client_sessions].
        split; [reflexivity | split; [reflexivity | left; reflexivity]].
      * apply (built c eq_refl). right. split; reflexivity.
    + cbn [fst snd].
      split; [reflexivity | split; [reflexivity |]].
      right. left. split; [reflexivity | split; reflexivity].
Qed.

Lemma dispatch_ask (W : World) (arguments : dict Py.value) (st : State) :
  dispatch W (Str.lit "ask_1c_ai") arguments st
  = match _handle_ask_1c_ai W arguments st with
    | (Return a, st') => (Return a, st')
    | (Raise (ApiError message _), st') =>
      (Return (reply (Str.lit "Ошибка при обращении к 1С.ai: " ++ message)),
       st')
    | (Raise e, st') =>
      (Return (reply (Str.lit "Произошла неожиданная ошибка: " ++ exn_str e)),
       st')
    end.
Proof.
  unfold dispatch, try_except. rewrite Str_eqb_refl.
  destruct (_handle_ask_1c_ai W arguments st) as [[a | e] st'];
    [reflexivity |].
  destruct e; reflexivity.
Qed.

Lemma dispatch_explain (W : World) (arguments : dict Py.value) (st : State) :
  dispatch W (Str.lit "explain_1c_syntax") arguments st
  = match _handle_explain_syntax W arguments st with
    | (Return a, st') => (Return a, st')
    | (Raise (ApiError message _), st') =>
      (Return (reply (Str.lit "Ошибка при обращении к 1С.ai: " ++ message)),
       st')
    | (Raise e, st') =>
      (Return (reply (Str.lit "Произошла неожиданная ошибка: " ++ exn_str e)),
       st')
    end.
Proof.
  unfold dispatch, try_except.
  replace (Str.eqb (Str.lit "explain_1c_syntax") (Str.lit "ask_1c_ai"))
    with false by (vm_compute; reflexivity).
  rewrite Str_eqb_refl.
  destruct (_handle_explain_syntax W arguments st) as [[a | e] st'];
    [reflexivity |].
  destruct e; reflexivity.
Qed.

Lemma dispatch_check (W : World) (arguments : dict Py.value) (st : State) :
  dispatch W (Str.lit "check_1c_code") arguments st
  = match _handle_check_code W arguments st with
    | (Return a, st') => (Return a, st')
    | (Raise (ApiError message _), st') =>
      (Return (reply (Str.lit "Ошибка при обращении к 1С.ai: " ++ message)),
       st')
    | (Raise e, st') =>
      (Return (reply (Str.lit "Произошла неожиданная ошибка: " ++ exn_str e)),
       st')
    end.
Proof.
  unfold dispatch, try_except.
  replace (Str.eqb (Str.lit "check_1c_code") (Str.lit "ask_1c_ai"))
    with false by (vm_compute; reflexivity).
  replace (Str.eqb (Str.lit "check_1c_code") (Str.lit "explain_1c_syntax"))
    with false by (vm_compute; reflexivity).
  rewrite Str_eqb_refl.
  destruct (_handle_check_code W arguments st) as [[a | e] st'];
    [reflexivity |].
  destruct e; reflexivity.
Qed.

Lemma dispatch_blank (W : World) (name : str) (key : string) (message : str)
  (arguments : dict Py.value) (st : State) :
  tool name key message ->
  blank (arg arguments key (Py.PStr [])) = true ->
  dispatch W name arguments st = (Return (reply message), st).
Proof.
  intros T B. destruct T.
  - rewrite dispatch_ask, ask_blank by assumption. reflexivity.
  - rewrite dispatch_explain, explain_blank by assumption. reflexivity.
  - rewrite dispatch_check, check_blank by assumption. reflexivity.
Qed.

(** C8: when the text a tool is called with (question, syntax element or
    code) is blank, the call is answered with an error message, no remote
    call is made and the session store is unchanged.  The handler returns
    its message in the state it was entered in: no session created, no
    timestamp moved, no request and no clock reading in the trace.  At
    the boundary the trace and the store of the server are unchanged as
    well, and the answer is that message, unless the call ends before
    the handler runs: with the configuration error when the server has
    no configuration and cannot load one, or with the connection error
    when it has no client and cannot build one. *)
Theorem C8_blank_input_is_rejected_without_touching_the_store
  (W : World) (name : str) (key : string) (message : str)
  (arguments : dict Py.value) :
  tool name key message ->
  blank (arg arguments key (Py.PStr [])) = true ->
  (forall st,
      (if Str.eqb name (Str.lit "ask_1c_ai") then
         _handle_ask_1c_ai W arguments st
       else if Str.eqb name (Str.lit "explain_1c_syntax") then
         _handle_explain_syntax W arguments st
       else _handle_check_code W arguments st)
      = (Return (reply message), st))
  /\ (forall self tr,
         snd (handle_call_tool W name arguments self tr) = tr
         /\ store_of (snd (fst (handle_call_tool W name arguments self tr)))
            = store_of self
         /\ (fst (fst (handle_call_tool W name arguments self tr))
             = reply message
             \/ self_config self = None
                /\ Config.init (environ W) = None
                /\ fst (fst (handle_call_tool W name arguments self tr))
                   = reply (Str.lit "Ошибка конфигурации: "
                            ++ describe W (ValidationError "Config") ++ nl
                            ++ Str.lit "Установите переменную окружения ONEC_AI_TOKEN")
             \/ self_api_client self = None
                /\ exists c e,
                     (self_config self = Some c
                      \/ self_config self = None
                         /\ Config.init (environ W) = Some c)
                     /\ OneCApiClient_init W c tr = Raise e
                     /\ fst (fst (handle_call_tool W name arguments self tr))
                        = reply (Str.lit "Ошибка подключения к API: "
                                 ++ exn_str e))).
Proof.
  intros T B. split.
  - intro st. destruct T.
    + rewrite Str_eqb_refl. now apply ask_blank.
    + replace (Str.eqb (Str.lit "explain_1c_syntax") (Str.lit "ask_1c_ai"))
        with false by (vm_compute; reflexivity).
      rewrite Str_eqb_refl. now apply explain_blank.
    + replace (Str.eqb (Str.lit "check_1c_code") (Str.lit "ask_1c_ai"))
        with false by (vm_compute; reflexivity).
      replace (Str.eqb (Str.lit "check_1c_code") (Str.lit "explain_1c_syntax"))
        with false by (vm_compute; reflexivity).
      now apply check_blank.
  - intros self tr. apply handle_call_tool_pure.
    intro st. eapply dispatch_blank; eassumption.
Qed.

Lemma C8_witness :
  let W := Example.world (Example.at_ 10 6) [Example.ok "a"] in
  let arguments := [(Str.lit "question", Py.PStr (Str.lit "   "))] in
  let self :=
    {| self_config := Some (Example.cfg 10 3600);
       self_api_client :=
         Some {| client_config := Example.cfg 10 3600;
                 client_sessions := Example.store_AB |} |} in
  snd (handle_call_tool W (Str.lit "ask_1c_ai") arguments self []) = []
  /\ store_of
       (snd (fst (handle_call_tool W (Str.lit "ask_1c_ai") arguments self [])))
     = Example.store_AB.
Proof.
  cbv zeta.
  destruct (proj2
              (C8_blank_input_is_rejected_without_touching_the_store
                 (Example.world (Example.at_ 10 6) [Example.ok "a"])
                 (Str.lit "ask_1c_ai") "question"
                 (Str.lit "Ошибка: Вопрос не может быть пустым")
                 [(Str.lit "question", Py.PStr (Str.lit "   "))]
                 tool_ask
                 ltac:(vm_compute; reflexivity))
              {| self_config := Some (Example.cfg 10 3600);
                 self_api_client :=
                   Some {| client_config := Example.cfg 10 3600;
                           client_sessions := Example.store_AB |} |}
              [])
    as [Ht [Hs _]].
  split; [exact Ht | exact Hs].
Defined.

(** * Further properties *)

(** ** The stream reconstructor *)

Section ReconstructorMore.
Variable json_loads : str -> option Py.value.
Variable new_chunk : Py.value -> option MessageChunk.

Let on_line := Sse.on_line json_loads new_chunk.
Let event_of := Sse.event_of json_loads new_chunk.
Let stop_line := Sse.stop_line json_loads new_chunk.
Let loop := Sse.loop json_loads new_chunk.

Lemma on_line_skipped (acc line : str) :
  event_of line = None -> on_line acc line = Sse.Continue acc.
Proof.
  intro H. unfold on_line. rewrite on_line_event.
  fold event_of. now rewrite H.
Qed.

(** A line without an event has no part in where the loop ends. *)
Lemma loop_skip (acc : str) (pre : list str) (line : str) (post : list str) :
  event_of line = None ->
  Sse.full_text (loop acc (pre ++ line :: post))
  = Sse.full_text (loop acc (pre ++ post))
  /\ Sse.stopped (loop acc (pre ++ line :: post))
     = Sse.stopped (loop acc (pre ++ post)).
Proof.
  intro H. revert acc.
  induction pre as [| x pre IH]; intro acc.
  - cbn [app]. unfold loop at 1 3. cbn [Sse.loop]. fold on_line loop.
    rewrite on_line_skipped by assumption. split; reflexivity.
  - cbn [app]. unfold loop. cbn [Sse.loop]. fold on_line loop.
    destruct (on_line acc x) as [t | t]; [apply IH | split; reflexivity].
Qed.

Lemma loop_all_skipped (acc : str) (lines : list str) :
  Forall (fun x => event_of x = None) lines ->
  loop acc lines
  = {| Sse.full_text := acc; Sse.unread := []; Sse.stopped := false |}.
Proof.
  induction 1 as [| x l Hx _ IH]; [reflexivity |].
  unfold loop. cbn [Sse.loop]. fold on_line loop.
  rewrite on_line_skipped by assumption. exact IH.
Qed.

Lemma loop_inert (acc : str) (lines : list str) :
  Forall (inert json_loads new_chunk) lines ->
  loop acc lines
  = {| Sse.full_text := acc; Sse.unread := []; Sse.stopped := false |}.
Proof.
  intro H. revert acc.
  induction H as [| x l Hx _ IH]; intro acc; [reflexivity |].
  unfold loop in *. cbn [Sse.loop]. rewrite (Hx acc). apply IH.
Qed.

Lemma loop_app_gen (acc : str) (pre rest : list str) :
  Sse.stopped (loop acc pre) = false ->
  loop acc (pre ++ rest) = loop (Sse.full_text (loop acc pre)) rest.
Proof.
  revert acc. induction pre as [| x pre IH]; intros acc H; [reflexivity |].
  cbn [app]. unfold loop in *. cbn [Sse.loop] in *.
  destruct (Sse.on_line json_loads new_chunk acc x) as [t | t].
  - now apply IH.
  - discriminate H.
Qed.

End ReconstructorMore.


(** ** Extra properties of the stream reconstructor *)

(** X1: a line that carries no event -- no event-data prefix, a remainder
    that is no JSON, or fields that build no chunk -- is skipped: with or
    without it the answer (or the exception) is the same. *)
Theorem X1_line_without_event_is_skipped
  (json_loads : str -> option Py.value)
  (new_chunk : Py.value -> option MessageChunk)
  (pre : list str) (line : str) (post : list str) (read_error : option exn) :
  Sse.event_of json_loads new_chunk line = None ->
  fst (Sse._parse_sse_response json_loads new_chunk
         (pre ++ line :: post) read_error)
  = fst (Sse._parse_sse_response json_loads new_chunk
           (pre ++ post) read_error).
Proof.
  intro H. unfold Sse._parse_sse_response.
  destruct (loop_skip json_loads new_chunk [] pre line post H) as [Ht Hs].
  rewrite Ht, Hs.
  destruct (Sse.stopped (Sse.loop json_loads new_chunk [] (pre ++ post)));
    [reflexivity |].
  destruct read_error; reflexivity.
Qed.

Lemma X1_witness :
  fst (Sse.parse ([Lines.hel] ++ MoreLines.broken :: [Lines.hello]) None)
  = Return (Str.lit "Hello").
Proof.
  unfold Sse.parse.
  rewrite (X1_line_without_event_is_skipped Json.loads MessageChunk_init
             [Lines.hel] MoreLines.broken [Lines.hello] None
             ltac:(vm_compute; reflexivity)).
  vm_compute. reflexivity.
Defined.

(** X2: a stream none of whose lines carries an event is read to its end
    and gives the empty string, not an error. *)
Theorem X2_stream_without_events_gives_empty_answer
  (json_loads : str -> option Py.value)
  (new_chunk : Py.value -> option MessageChunk)
  (lines : list str) :
  Forall (fun x => Sse.event_of json_loads new_chunk x = None) lines ->
  Sse._parse_sse_response json_loads new_chunk lines None = (Return [], []).
Proof.
  intro H. unfold Sse._parse_sse_response.
  rewrite (loop_all_skipped json_loads new_chunk [] lines H).
  reflexivity.
Qed.

Lemma X2_witness :
  Sse.parse [MoreLines.keep_alive; []; MoreLines.broken] None
  = (Return [], []).
Proof.
  apply (X2_stream_without_events_gives_empty_answer
           Json.loads MessageChunk_init).
  repeat (first [apply Forall_nil
                | apply Forall_cons; [vm_compute; reflexivity |]]).
Defined.

(** X3: the answer is trimmed once and for all: trimming it again changes
    nothing, and it neither starts nor ends with white space. *)
Theorem X3_answer_is_trimmed
  (json_loads : str -> option Py.value)
  (new_chunk : Py.value -> option MessageChunk)
  (lines : list str) (read_error : option exn) (answer : str) :
  fst (Sse._parse_sse_response json_loads new_chunk lines read_error)
  = Return answer ->
  Str.strip answer = answer
  /\ (forall c r, answer = c :: r -> Str.isspace c = false)
  /\ (forall r c, answer = r ++ [c] -> Str.isspace c = false).
Proof.
  unfold Sse._parse_sse_response.
  set (o := Sse.loop json_loads new_chunk [] lines).
  intro H.
  assert (E : answer = Str.strip (Sse.full_text o)).
  { destruct (Sse.stopped o); [| destruct read_error];
      cbn [fst] in H; congruence. }
  subst answer. split; [apply strip_idem |]. split.
  - intros c r. apply strip_no_leading_space.
  - intros r c. apply strip_no_trailing_space.
Qed.

Lemma X3_witness :
  fst (Sse.parse [MoreLines.padded] None) = Return (Str.lit "Hello")
  /\ Str.strip (Str.lit "Hello") = Str.lit "Hello".
Proof.
  assert (E : fst (Sse.parse [MoreLines.padded] None)
              = Return (Str.lit "Hello")) by (vm_compute; reflexivity).
  split; [exact E |].
  exact (proj1 (X3_answer_is_trimmed Json.loads MessageChunk_init
                  [MoreLines.padded] None (Str.lit "Hello") E)).
Defined.

(** X4: the latest snapshot wins.  When a line carries an assistant event
    whose text is a non-empty string, the loop reaches it, and the lines
    after it neither set a snapshot nor end the loop, the answer is that
    text (re-encoded and trimmed), whatever the lines before it held. *)
Theorem X4_latest_snapshot_wins
  (json_loads : str -> option Py.value)
  (new_chunk : Py.value -> option MessageChunk)
  (pre : list str) (line : str) (post : list str)
  (chunk : MessageChunk) (c : dict Py.value) (t : str) :
  Sse.stopped (Sse.loop json_loads new_chunk [] pre) = false ->
  Sse.event_of json_loads new_chunk line = Some chunk ->
  role chunk = Str.lit "assistant" ->
  content chunk = Some c ->
  Dict.get (Str.lit "text") c = Some (Py.PStr t) ->
  t <> [] ->
  Forall (inert json_loads new_chunk) post ->
  fst (Sse._parse_sse_response json_loads new_chunk
         (pre ++ line :: post) None)
  = Return (Str.strip (Sse.reencode t)).
Proof.
  intros Hpre He Hr Hc Hg Ht Hpost.
  unfold Sse._parse_sse_response.
  rewrite loop_app_gen by assumption.
  cbn [Sse.loop].
  pose proof (on_chunk_snapshot
                (Sse.full_text (Sse.loop json_loads new_chunk [] pre))
                chunk c t Hr Hc Hg Ht) as Hs.
  rewrite on_line_event, He.
  destruct (Sse.on_chunk _ chunk) as [t' | t']; cbn [Sse.text_of] in Hs;
    subst t'.
  - rewrite (loop_inert json_loads new_chunk _ post Hpost). reflexivity.
  - reflexivity.
Qed.

Lemma X4_witness :
  fst (Sse.parse ([Lines.hel] ++ MoreLines.padded
                    :: [MoreLines.broken; MoreLines.keep_alive]) None)
  = Return (Str.lit "Hello").
Proof.
  unfold Sse.parse.
  rewrite (X4_latest_snapshot_wins Json.loads MessageChunk_init
             [Lines.hel] MoreLines.padded
             [MoreLines.broken; MoreLines.keep_alive]
             {| role := Str.lit "assistant";
                content :=
                  Some [(Str.lit "text",
                         Py.PStr ([32; 32] ++ Str.lit "Hello" ++ [32; 10])%N)];
                finished := false |}
             [(Str.lit "text",
               Py.PStr ([32; 32] ++ Str.lit "Hello" ++ [32; 10])%N)]
             ([32; 32] ++ Str.lit "Hello" ++ [32; 10])%N).
  - vm_compute. reflexivity.
  - vm_compute. reflexivity.
  - vm_compute. reflexivity.
  - reflexivity.
  - reflexivity.
  - vm_compute. reflexivity.
  - vm_compute. discriminate.
  - repeat (first [apply Forall_nil
                  | apply Forall_cons;
                    [intro acc;
                     apply (on_line_skipped Json.loads MessageChunk_init);
                     vm_compute; reflexivity |]]).
Defined.

(** X5: when the transport breaks before any line has ended the loop,
    the exception of the line iterator leaves the parser as it is: no
    partial answer is returned, and every line has been read. *)
Theorem X5_broken_stream_raises
  (json_loads : str -> option Py.value)
  (new_chunk : Py.value -> option MessageChunk)
  (lines : list str) (e : exn) :
  Forall (fun x => Sse.stop_line json_loads new_chunk x = false) lines ->
  Sse._parse_sse_response json_loads new_chunk lines (Some e)
  = (Raise e, []).
Proof.
  intro H. unfold Sse._parse_sse_response.
  destruct (loop_no_stop json_loads new_chunk [] lines H) as [Hu Hs].
  rewrite Hu, Hs. reflexivity.
Qed.

Lemma X5_witness :
  Sse.parse [Lines.hel; Lines.user_done]
    (Some (RequestError (Str.lit "peer closed connection")))
  = (Raise (RequestError (Str.lit "peer closed connection")), []).
Proof.
  apply (X5_broken_stream_raises Json.loads MessageChunk_init).
  repeat (first [apply Forall_nil
                | apply Forall_cons; [vm_compute; reflexivity |]]).
Defined.

(** X6: the defensive re-encoding of a text removes its lone surrogates
    and nothing else, keeps the order of what is left, and applied twice
    gives what it gives applied once. *)
Theorem X6_reencoding_drops_exactly_lone_surrogates (t : str) :
  Forall (fun c => (c < 1114112)%N) t ->
  Sse.reencode t = filter (fun c => negb (Str.is_surrogate c)) t
  /\ Sse.reencode (Sse.reencode t) = Sse.reencode t.
Proof.
  intro H.
  assert (E := reencode_filter t H).
  split; [exact E |].
  rewrite E. apply reencode_id.
  apply Forall_forall. intros c Hc. apply filter_In in Hc as [Hin Hs].
  split.
  - rewrite Forall_forall in H. now apply H.
  - now destruct (Str.is_surrogate c).
Qed.

Lemma X6_witness :
  Sse.reencode [97; 55296; 1080; 57343; 128512]%N = [97; 1080; 128512]%N.
Proof.
  rewrite (proj1 (X6_reencoding_drops_exactly_lone_surrogates
                    [97; 55296; 1080; 57343; 128512]%N
                    ltac:(repeat constructor))).
  reflexivity.
Defined.

(** ** Extra properties of the client *)

Lemma reads_call (tr : list Event) (e : Event) :
  is_now e = false -> reads (tr ++ [e]) = reads tr.
Proof.
  intro H. unfold reads. rewrite filter_app, length_app. cbn.
  rewrite H. cbn. lia.
Qed.

Lemma calls_call (tr : list Event) (e : Event) :
  is_now e = false -> calls (tr ++ [e]) = S (calls tr).
Proof.
  intro H. unfold calls. rewrite filter_app, length_app. cbn.
  rewrite H. cbn. lia.
Qed.

Lemma in_keys_mem {V} (k : str) (d : dict V) :
  In k (Dict.keys d) -> Dict.mem k d = true.
Proof.
  intro H. unfold Dict.mem.
  destruct (Dict.get k d) eqn:G; [reflexivity |].
  apply get_none_notin in G. contradiction.
Qed.

(** What [create_conversation] ends in: the id of a conversation the
    service opened, registered under the reading of the clock, or an
    [ApiError] without a status code and the store as it was. *)
Lemma create_conversation_outcome (W : World) (pl sl : Py.value) (st : State) :
  match create_conversation W pl sl st with
  | (Return id, st') =>
    exists resp,
      remote W (calls (trace st)) = Return resp
      /\ status_code resp = 200
      /\ uuid resp = Return id
      /\ sessions st'
         = Dict.set id
             (ConversationSession_init id (clock W (reads (trace st))))
             (sessions st)
      /\ calls (trace st') = S (calls (trace st))
  | (Raise e, st') =>
    (exists m, e = ApiError m None)
    /\ sessions st' = sessions st
    /\ (calls (trace st') <= S (calls (trace st)))%nat
  end.
Proof.
  unfold create_conversation, try_except, bind, get_config_of_self,
    ConversationRequest_init, fail, http, lift, now, get_sessions,
    put_sessions, raise, ret, with_event, with_sessions.
  destruct (py_or pl _) as [| | | | p | |];
    try (cbn [config sessions trace]; split; [eauto | split; [reflexivity | lia]]).
  destruct (py_or sl _) as [| | | | s | |];
    try (cbn [config sessions trace]; split; [eauto | split; [reflexivity | lia]]).
  cbn [config sessions trace].
  destruct (remote W (calls (trace st))) as [resp | e] eqn:R.
  - destruct (status_code resp =? 200) eqn:S; cbn [negb].
    + apply Z.eqb_eq in S.
      destruct (uuid resp) as [id | e] eqn:U.
      * cbn [config sessions trace]. exists resp.
        rewrite reads_call by reflexivity.
        rewrite calls_now, calls_call by reflexivity.
        repeat split; assumption.
      * destruct e; cbn [sessions trace];
          (split; [eauto | split; [reflexivity |]]);
          rewrite calls_call by reflexivity; lia.
    + cbn [sessions trace]. split; [eauto | split; [reflexivity |]].
      rewrite calls_call by reflexivity. lia.
  - destruct e; cbn [sessions trace];
      (split; [eauto | split; [reflexivity |]]);
      rewrite calls_call by reflexivity; lia.
Qed.

(** X7: [create_conversation] fails only with an [ApiError] that carries
    no status code, whatever went wrong (request not built, transport,
    status, body), and a failed call leaves the session store exactly as
    it was and has made at most one request. *)
Theorem X7_failed_create_leaves_store_unchanged
  (W : World) (pl sl : Py.value) (st : State) :
  match create_conversation W pl sl st with
  | (Return _, _) => True
  | (Raise e, st') =>
    (exists m, e = ApiError m None)
    /\ sessions st' = sessions st
    /\ (calls (trace st') <= S (calls (trace st)))%nat
  end.
Proof.
  pose proof (create_conversation_outcome W pl sl st) as H.
  destruct (create_conversation W pl sl st) as [[id | e] st'];
    [exact I | exact H].
Qed.

(** X8: when [create_conversation] returns an id, the service answered
    200 with that id, the store holds under it a session created and last
    used at the reading of the clock, every other entry is as it was, and
    the population has grown by one -- or not at all when the id was
    already known, whose entry is then replaced. *)
Theorem X8_successful_create_registers_the_session
  (W : World) (pl sl : Py.value) (st : State) :
  match create_conversation W pl sl st with
  | (Return id, st') =>
    (exists resp,
        remote W (calls (trace st)) = Return resp
        /\ status_code resp = 200 /\ uuid resp = Return id)
    /\ Dict.get id (sessions st')
       = Some (ConversationSession_init id (clock W (reads (trace st))))
    /\ (forall k, k <> id ->
                  Dict.get k (sessions st') = Dict.get k (sessions st))
    /\ length (sessions st')
       = (if Dict.mem id (sessions st) then length (sessions st)
          else S (length (sessions st)))
  | (Raise _, _) => True
  end.
Proof.
  pose proof (create_conversation_outcome W pl sl st) as H.
  destruct (create_conversation W pl sl st) as [[id | e] st']; [| exact I].
  destruct H as [resp [R [S [U [E _]]]]].
  split; [eauto |]. rewrite E.
  split; [apply get_set_same |].
  split; [intros k Hk; now apply get_set_other | apply length_set].
Qed.

(** What [send_message] ends in. *)
Lemma send_message_outcome
  (W : World) (id message : str) (st : State) :
  calls (trace (snd (send_message W id message st))) = S (calls (trace st))
  /\ match fst (send_message W id message st) with
     | Return answer =>
       exists resp,
         remote W (calls (trace st)) = Return resp
         /\ status_code resp = 200
         /\ fst (Sse.parse (aiter_lines resp) (read_error resp))
            = Return answer
     | Raise e => exists m, e = ApiError m None
     end.
Proof.
  pose proof (send_message_unfold W st id message) as U. cbv zeta in U.
  pose proof (post_message_store W (snd (register_usage W id st)) id message)
    as [_ Ht].
  assert (Hcalls : calls (trace (snd (register_usage W id st)))
                   = calls (trace st)).
  { rewrite register_usage_spec. cbn [snd].
    destruct (Dict.get id (sessions st)); cbn [trace];
      now rewrite ?calls_now. }
  assert (Hpost :
            match fst (post_message W id message (snd (register_usage W id st)))
            with
            | Return answer =>
              exists resp,
                remote W (calls (trace st)) = Return resp
                /\ status_code resp = 200
                /\ fst (Sse.parse (aiter_lines resp) (read_error resp))
                   = Return answer
            | Raise _ => True
            end).
  { unfold post_message, bind, http, raise, lift, ret. rewrite Hcalls.
    destruct (remote W (calls (trace st))) as [resp | e]; [| exact I].
    destruct (status_code resp =? 200) eqn:S; cbn [negb]; [| exact I].
    apply Z.eqb_eq in S.
    destruct (fst (Sse.parse (aiter_lines resp) (read_error resp)))
      as [a | e] eqn:P; cbn [fst]; [| exact I].
    exists resp. repeat split; assumption. }
  destruct (post_message W id message (snd (register_usage W id st)))
    as [r st2].
  rewrite U. cbn [fst snd] in *. rewrite Ht.
  split.
  - rewrite calls_call by reflexivity. now rewrite Hcalls.
  - destruct r as [a | e]; [exact Hpost |].
    destruct e; eauto.
Qed.

(** X9: [send_message] makes exactly one request, whatever happens; it
    fails only with an [ApiError] that carries no status code; and what
    it returns is what the stream reconstructor makes of the lines of a
    response with status 200. *)
Theorem X9_send_message_outcomes
  (W : World) (id message : str) (st : State) :
  calls (trace (snd (send_message W id message st))) = S (calls (trace st))
  /\ match fst (send_message W id message st) with
     | Return answer =>
       exists resp,
         remote W (calls (trace st)) = Return resp
         /\ status_code resp = 200
         /\ fst (Sse.parse (aiter_lines resp) (read_error resp))
            = Return answer
     | Raise e => exists m, e = ApiError m None
     end.
Proof. apply send_message_outcome. Qed.

(** X10: whatever the outcome of the request, [send_message] leaves the
    conversation id in the store, leaves every other entry as it was,
    and grows the population by one exactly when the id was unknown. *)
Theorem X10_send_message_touches_one_entry
  (W : World) (id message : str) (st : State) :
  let st' := snd (send_message W id message st) in
  Dict.mem id (sessions st') = true
  /\ (forall k, k <> id ->
                Dict.get k (sessions st') = Dict.get k (sessions st))
  /\ length (sessions st')
     = (if Dict.mem id (sessions st) then length (sessions st)
        else S (length (sessions st))).
Proof.
  cbv zeta.
  pose proof (send_message_unfold W st id message) as U. cbv zeta in U.
  pose proof (post_message_store W (snd (register_usage W id st)) id message)
    as [Hs _].
  destruct (post_message W id message (snd (register_usage W id st)))
    as [r st2].
  rewrite U. cbn [snd] in *. rewrite Hs.
  rewrite register_usage_spec. cbn [snd]. unfold Dict.mem.
  destruct (Dict.get id (sessions st)) as [s |] eqn:G; cbn [sessions].
  - rewrite get_set_same. split; [reflexivity |].
    split; [intros k Hk; now apply get_set_other |].
    rewrite length_set. unfold Dict.mem. now rewrite G.
  - rewrite get_set_same. split; [reflexivity |].
    split; [intros k Hk; now rewrite !get_set_other by assumption |].
    rewrite !length_set. unfold Dict.mem.
    rewrite get_set_same, G. reflexivity.
Qed.

(** [get_or_create_session] when it opens a conversation: the sweep, then
    [create_conversation] on the swept store. *)
Lemma acquire_create (W : World) (st : State) (create_new pl : Py.value) :
  Dict.wf (sessions st) ->
  ttl_in_range (config st) ->
  Py.truthy create_new = true \/ swept W st = [] ->
  get_or_create_session W create_new pl st
  = create_conversation W pl Py.PNone
      {| config := config st;
         sessions := swept W st;
         trace := trace st ++ [Now (clock W (reads (trace st)))] |}.
Proof.
  intros Hwf Httl H.
  unfold get_or_create_session.
  unfold bind at 1. rewrite cleanup_spec by assumption.
  fold (swept W st).
  unfold bind at 1. unfold get_sessions at 1. cbn [sessions].
  unfold bind at 1. unfold get_config_of_self at 1. cbn [config].
  destruct H as [H | H].
  - rewrite H. reflexivity.
  - rewrite H. cbn [Dict.is_empty]. rewrite orb_true_r. reflexivity.
Qed.

(** The id [get_or_create_session] returns is a key of the store. *)
Lemma acquire_returns_member
  (W : World) (create_new pl : Py.value) (st : State) :
  match get_or_create_session W create_new pl st with
  | (Return id, st') => Dict.mem id (sessions st') = true
  | (Raise _, _) => True
  end.
Proof.
  unfold get_or_create_session.
  unfold bind at 1.
  destruct (_cleanup_old_sessions W st) as [[[] | e] st1]; [| exact I].
  unfold bind at 1. unfold get_sessions at 1.
  unfold bind at 1. unfold get_config_of_self at 1.
  destruct (Py.truthy create_new || Dict.is_empty (sessions st1)).
  - pose proof (create_conversation_outcome W pl Py.PNone st1) as H.
    destruct (create_conversation W pl Py.PNone st1) as [[id | e] st'];
      [| exact I].
    destruct H as [resp [_ [_ [_ [E _]]]]].
    rewrite E. unfold Dict.mem. now rewrite get_set_same.
  - unfold bind, py_min, py_max, fail, raise, ret, put_sessions,
      get_sessions, with_sessions.
    destruct (Config.max_active_sessions (config st1)
              <=? Z.of_nat (length (sessions st1))).
    + destruct (Dict.keys (sessions st1)) as [| k ks] eqn:Ek; [exact I |].
      cbn [config sessions trace].
      destruct (Dict.keys (Dict.del (min_from (last_used_of (sessions st1)) k ks)
                             (sessions st1))) as [| k' ks'] eqn:Ek';
        [exact I |].
      cbn [sessions]. apply in_keys_mem. rewrite Ek'.
      apply max_from_spec.
    + cbn [config sessions trace].
      destruct (Dict.keys (sessions st1)) as [| k ks] eqn:Ek; [exact I |].
      cbn [sessions]. apply in_keys_mem. rewrite Ek.
      apply max_from_spec.
Qed.

(** X11: the id [get_or_create_session] returns is in the store when the
    call returns, on the reuse path as on the path that opens a
    conversation. *)
Theorem X11_returned_id_is_in_the_store
  (W : World) (create_new pl : Py.value) (st : State) :
  match get_or_create_session W create_new pl st with
  | (Return id, st') => Dict.mem id (sessions st') = true
  | (Raise _, _) => True
  end.
Proof. apply acquire_returns_member. Qed.

(** X12: when a new session is asked for, or when the sweep leaves the
    store empty, [get_or_create_session] is the sweep followed by
    [create_conversation]: sessions that are still fresh do not keep it
    from opening a conversation, and an empty store opens one whether or
    not a new session was asked for. *)
Theorem X12_force_new_or_empty_store_opens_a_conversation
  (W : World) (st : State) (create_new pl : Py.value) :
  Dict.wf (sessions st) ->
  ttl_in_range (config st) ->
  Py.truthy create_new = true \/ swept W st = [] ->
  get_or_create_session W create_new pl st
  = create_conversation W pl Py.PNone
      {| config := config st;
         sessions := swept W st;
         trace := trace st ++ [Now (clock W (reads (trace st)))] |}.
Proof. apply acquire_create. Qed.

Lemma X12_witness :
  let W := Example.world (Example.at_ 10 6) [Example.ok "c"] in
  let st := Example.state (Example.cfg 10 3600) Example.store_AB in
  fst (get_or_create_session W (Py.PBool true) Py.PNone st)
  = Return (Str.lit "c")
  /\ Dict.keys (sessions (snd (get_or_create_session W (Py.PBool true)
                                 Py.PNone st)))
     = [Str.lit "A"; Str.lit "B"; Str.lit "c"].
Proof.
  cbv zeta.
  rewrite (X12_force_new_or_empty_store_opens_a_conversation
             (Example.world (Example.at_ 10 6) [Example.ok "c"])
             (Example.state (Example.cfg 10 3600) Example.store_AB)
             (Py.PBool true) Py.PNone).
  - split; vm_compute; reflexivity.
  - repeat constructor; cbn; intuition discriminate.
  - unfold ttl_in_range. cbn. lia.
  - left. reflexivity.
Defined.

(** X13: a time to live that no [timedelta] can hold makes every
    [get_or_create_session] fail in the sweep, after one reading of the
    clock: the store is as it was and no request is made. *)
Theorem X13_unrepresentable_ttl_fails_before_any_request
  (W : World) (st : State) (create_new pl : Py.value) :
  ~ ttl_in_range (config st) ->
  get_or_create_session W create_new pl st
  = (Raise (Exception
              (describe W (OverflowError (Config.session_ttl (config st))))),
     {| config := config st;
        sessions := sessions st;
        trace := trace st ++ [Now (clock W (reads (trace st)))] |}).
Proof.
  intro H. unfold get_or_create_session.
  unfold bind at 1. rewrite cleanup_overflow by assumption.
  reflexivity.
Qed.

Lemma X13_witness :
  fst (get_or_create_session (Example.world (Example.at_ 10 6) [])
         (Py.PBool true) Py.PNone
         (Example.state (Example.cfg 10 100000000000000) Example.store_AB))
  = Raise (Exception (Str.lit "days out of range")).
Proof.
  rewrite (X13_unrepresentable_ttl_fails_before_any_request
             (Example.world (Example.at_ 10 6) [])
             (Example.state (Example.cfg 10 100000000000000) Example.store_AB)
             (Py.PBool true) Py.PNone).
  - reflexivity.
  - unfold ttl_in_range. cbn. lia.
Defined.

(** X14: the reuse path makes no request and never adds an entry to the
    store, whatever the maximum is; and when the population after the
    sweep is within the maximum it ends with the population strictly
    under the maximum: at the maximum it has evicted one entry, under the
    maximum it has changed nothing. *)
Theorem X14_reuse_ends_under_the_maximum
  (W : World) (st : State) (create_new pl : Py.value) :
  Dict.wf (sessions st) ->
  ttl_in_range (config st) ->
  Py.truthy create_new = false ->
  swept W st <> [] ->
  let st' := snd (get_or_create_session W create_new pl st) in
  calls (trace st') = calls (trace st)
  /\ (length (sessions st') <= length (swept W st))%nat
  /\ (Z.of_nat (length (swept W st))
      <= Config.max_active_sessions (config st) ->
      Z.of_nat (length (sessions st'))
      < Config.max_active_sessions (config st)).
Proof.
  intros Hwf Httl Hnew Hne. cbv zeta.
  rewrite (acquire_reuse W st create_new pl Hwf Httl Hnew Hne).
  cbn [snd sessions trace]. rewrite calls_now.
  split; [reflexivity |].
  destruct (Z.leb_spec (Config.max_active_sessions (config st))
              (Z.of_nat (length (swept W st)))) as [Hmax | Hmax];
    [| split; lia].
  destruct (Dict.keys (swept W st)) as [| k ks] eqn:Ek.
  { destruct (swept W st); [congruence | discriminate]. }
  pose proof (length_del (min_from (last_used_of (swept W st)) k ks)
                (swept W st)) as Hd.
  rewrite Ek in Hd.
  specialize (Hd (proj1 (min_from_spec _ k ks))). split; lia.
Qed.

Lemma X14_witness :
  let W := Example.world (Example.at_ 10 6) [] in
  let st := Example.state (Example.cfg 2 3600) Example.store_AB in
  Z.of_nat (length (sessions (snd (get_or_create_session W (Py.PBool false)
                                      Py.PNone st)))) < 2.
Proof.
  cbv zeta.
  exact (proj2 (proj2 (X14_reuse_ends_under_the_maximum
                  (Example.world (Example.at_ 10 6) [])
                  (Example.state (Example.cfg 2 3600) Example.store_AB)
                  (Py.PBool false) Py.PNone
                  ltac:(repeat constructor; cbn; intuition discriminate)
                  ltac:(unfold ttl_in_range; cbn; lia)
                  ltac:(reflexivity)
                  ltac:(vm_compute; discriminate)))
           ltac:(vm_compute; discriminate)).
Defined.

(** *** The ids of the store *)

Lemma keyed_set (k : str) (v : ConversationSession)
  (d : dict ConversationSession) :
  conversation_id v = k -> keyed d -> keyed (Dict.set k v d).
Proof.
  intros Hv H. induction H as [| [k' v'] d Hk Hd IH]; cbn [Dict.set].
  - constructor; [exact Hv | constructor].
  - destruct (Str.eqb k k') eqn:E.
    + apply Str_eqb_eq in E. subst k'. constructor; [exact Hv | exact Hd].
    + constructor; [exact Hk | exact IH].
Qed.

Lemma keyed_del (k : str) (d : dict ConversationSession) :
  keyed d -> keyed (Dict.del k d).
Proof.
  intro H. induction H as [| [k' v'] d Hk Hd IH]; cbn [Dict.del].
  - constructor.
  - destruct (Str.eqb k k'); [assumption | constructor; assumption].
Qed.

Lemma keyed_fold_del (ks : list str) (d : dict ConversationSession) :
  keyed d -> keyed (fold_left (fun d0 id => Dict.del id d0) ks d).
Proof.
  revert d. induction ks as [| k ks IH]; intros d H; [exact H |].
  cbn [fold_left]. apply IH. now apply keyed_del.
Qed.

Lemma keyed_create (W : World) (pl sl : Py.value) (st : State) :
  keyed (sessions st) ->
  keyed (sessions (snd (create_conversation W pl sl st))).
Proof.
  intro H. pose proof (create_conversation_outcome W pl sl st) as O.
  destruct (create_conversation W pl sl st) as [[id | e] st']; cbn [snd].
  - destruct O as [resp [_ [_ [_ [E _]]]]]. rewrite E.
    now apply keyed_set.
  - destruct O as [_ [E _]]. now rewrite E.
Qed.

Lemma keyed_send (W : World) (id message : str) (st : State) :
  keyed (sessions st) ->
  keyed (sessions (snd (send_message W id message st))).
Proof.
  intro H.
  pose proof (send_message_unfold W st id message) as U. cbv zeta in U.
  pose proof (post_message_store W (snd (register_usage W id st)) id message)
    as [Hs _].
  destruct (post_message W id message (snd (register_usage W id st)))
    as [r st2].
  rewrite U. cbn [snd] in *. rewrite Hs.
  rewrite register_usage_spec. cbn [snd].
  destruct (Dict.get id (sessions st)) as [s |] eqn:G; cbn [sessions].
  - apply keyed_set; [| exact H]. cbn.
    apply get_some_in in G. unfold keyed in H. rewrite Forall_forall in H.
    exact (H _ G).
  - apply keyed_set; [reflexivity |]. apply keyed_set; [reflexivity | exact H].
Qed.

Lemma keyed_cleanup (W : World) (st : State) :
  keyed (sessions st) ->
  keyed (sessions (snd (_cleanup_old_sessions W st))).
Proof.
  intro H.
  unfold _cleanup_old_sessions, bind, now, get_config_of_self, timedelta,
    get_sessions, put_sessions, with_event, with_sessions, ret, fail, raise.
  cbn [config sessions trace].
  destruct ((-999999999 <=? Config.session_ttl (config st) / 86400)
            && (Config.session_ttl (config st) / 86400 <=? 999999999));
    cbn [snd sessions]; [now apply keyed_fold_del | exact H].
Qed.

Lemma keyed_acquire (W : World) (create_new pl : Py.value) (st : State) :
  keyed (sessions st) ->
  keyed (sessions (snd (get_or_create_session W create_new pl st))).
Proof.
  intro H. pose proof (keyed_cleanup W st H) as Hc.
  unfold get_or_create_session.
  unfold bind at 1.
  destruct (_cleanup_old_sessions W st) as [[[] | e] st1];
    cbn [snd] in Hc; [| exact Hc].
  unfold bind at 1. unfold get_sessions at 1.
  unfold bind at 1. unfold get_config_of_self at 1.
  destruct (Py.truthy create_new || Dict.is_empty (sessions st1)).
  - now apply keyed_create.
  - unfold bind, py_min, py_max, fail, raise, ret, put_sessions,
      get_sessions, with_sessions.
    destruct (Config.max_active_sessions (config st1)
              <=? Z.of_nat (length (sessions st1))).
    + destruct (Dict.keys (sessions st1)) as [| k ks] eqn:Ek.
      * cbn [snd sessions]. exact Hc.
      * cbn [config sessions trace].
        destruct (Dict.keys (Dict.del _ (sessions st1)));
          cbn [snd sessions]; now apply keyed_del.
    + cbn [config sessions trace].
      destruct (Dict.keys (sessions st1)); cbn [snd sessions]; exact Hc.
Qed.

(** X15: every entry of the store sits under the id its session carries,
    and every method of the client that changes the store keeps it so --
    opening a conversation, sending a message (to a known or an unknown
    id) and acquiring a session, whatever they end in. *)
Theorem X15_entries_sit_under_their_own_id (W : World) (st : State) :
  keyed (sessions st) ->
  (forall pl sl,
      keyed (sessions (snd (create_conversation W pl sl st))))
  /\ (forall id message,
         keyed (sessions (snd (send_message W id message st))))
  /\ (forall create_new pl,
         keyed (sessions (snd (get_or_create_session W create_new pl st)))).
Proof.
  intro H. split; [| split].
  - intros pl sl. now apply keyed_create.
  - intros id message. now apply keyed_send.
  - intros create_new pl. now apply keyed_acquire.
Qed.

Lemma X15_witness :
  keyed (sessions
           (snd (send_message (Example.world (Example.at_ 10 6) [Example.ok "a"])
                   (Str.lit "c") (Str.lit "hi")
                   (Example.state (Example.cfg 10 3600) Example.store_AB)))).
Proof.
  apply (proj1 (proj2 (X15_entries_sit_under_their_own_id
                         (Example.world (Example.at_ 10 6) [Example.ok "a"])
                         (Example.state (Example.cfg 10 3600) Example.store_AB)
                         ltac:(repeat constructor)))).
Defined.

(** *** The most recent session *)

Lemma get_del_other {V} (k k0 : str) (d : dict V) :
  k <> k0 -> Dict.get k (Dict.del k0 d) = Dict.get k d.
Proof.
  intro N. induction d as [| [k' v'] d IH]; cbn; [reflexivity |].
  destruct (Str.eqb k0 k') eqn:E.
  - apply Str_eqb_eq in E. subst k'.
    apply Str_eqb_neq in N. now rewrite N.
  - cbn. destruct (Str.eqb k k'); [reflexivity | exact IH].
Qed.

Lemma notin_keys_del {V} (k : str) (d : dict V) :
  Dict.wf d -> ~ In k (Dict.keys (Dict.del k d)).
Proof.
  unfold Dict.wf.
  induction d as [| [k' v'] d IH]; cbn; intro W; [tauto |].
  inversion W as [| ? ? Hn Hd]; subst.
  destruct (Str.eqb k k') eqn:E.
  - apply Str_eqb_eq in E. now subst k'.
  - apply Str_eqb_neq in E. cbn. intros [H | H]; [congruence |].
    now apply IH.
Qed.

Lemma get_in_keys {V} (k : str) (v : V) (d : dict V) :
  Dict.get k d = Some v -> In k (Dict.keys d).
Proof.
  intro G. destruct (in_dec (list_eq_dec N.eq_dec) k (Dict.keys d)) as [H | H];
    [exact H |].
  apply get_none_notin in H. congruence.
Qed.

(** In a store whose one entry was used later than every other, the
    scan for the most recent entry finds that entry. *)
Lemma max_from_unique (ss : dict ConversationSession) (id : str)
  (k : str) (ks : list str) :
  In id (k :: ks) ->
  (forall x, In x (k :: ks) -> x <> id ->
             last_used_of ss x < last_used_of ss id) ->
  max_from (last_used_of ss) k ks = id.
Proof.
  intros Hin Hlt.
  destruct (max_from_spec (last_used_of ss) k ks) as [Hm Hle].
  destruct (list_eq_dec N.eq_dec (max_from (last_used_of ss) k ks) id)
    as [E | E]; [exact E |].
  specialize (Hlt _ Hm E). specialize (Hle _ Hin). lia.
Qed.

(** X16: the session used last is the one reused.  When no new session
    is asked for and one entry left by the sweep was used strictly later
    than every other, [get_or_create_session] returns its id without a
    request -- under the maximum, and at or over it as long as a second
    entry is there to be evicted. *)
Theorem X16_most_recently_used_session_is_reused
  (W : World) (st : State) (create_new pl : Py.value)
  (id : str) (s : ConversationSession) :
  Dict.wf (sessions st) ->
  ttl_in_range (config st) ->
  Py.truthy create_new = false ->
  Dict.get id (swept W st) = Some s ->
  (forall k, In k (Dict.keys (swept W st)) -> k <> id ->
             last_used_of (swept W st) k < last_used s) ->
  (2 <= length (swept W st))%nat
  \/ Z.of_nat (length (swept W st)) < Config.max_active_sessions (config st) ->
  fst (get_or_create_session W create_new pl st) = Return id
  /\ calls (trace (snd (get_or_create_session W create_new pl st)))
     = calls (trace st).
Proof.
  intros Hwf Httl Hnew Hg Hlt Hsize.
  assert (Hne : swept W st <> []).
  { intro E. rewrite E in Hg. discriminate. }
  assert (Hwf' : Dict.wf (swept W st)) by (now apply filter_wf).
  assert (Hid : last_used_of (swept W st) id = last_used s).
  { unfold last_used_of. now rewrite Hg. }
  rewrite (acquire_reuse W st create_new pl Hwf Httl Hnew Hne).
  cbn [fst snd trace]. rewrite calls_now. split; [| reflexivity].
  set (ss := swept W st) in *.
  destruct (Z.leb_spec (Config.max_active_sessions (config st))
              (Z.of_nat (length ss))) as [Hmax | Hmax].
  - destruct Hsize as [Hsize | Hsize]; [| lia].
    destruct (Dict.keys ss) as [| k ks] eqn:Ek.
    { destruct ss; [congruence | discriminate]. }
    destruct (min_from_spec (last_used_of ss) k ks) as [Hin Hle].
    set (oldest := min_from (last_used_of ss) k ks) in *.
    assert (Hother : exists x, In x (k :: ks) /\ x <> id).
    { unfold Dict.wf in Hwf'. rewrite Ek in Hwf'.
      assert (Hl : (2 <= length (k :: ks))%nat).
      { rewrite <- Ek. unfold Dict.keys. now rewrite length_map. }
      destruct ks as [| k2 ks2]; [cbn in Hl; lia |].
      inversion Hwf' as [| ? ? Hn _]; subst.
      destruct (list_eq_dec N.eq_dec k id) as [E | E].
      - exists k2. split; [right; now left |].
        intro E2. apply Hn. left. congruence.
      - exists k. split; [now left | exact E]. }
    destruct Hother as [x [Hx Hxid]].
    assert (Hoid : oldest <> id).
    { intro E. specialize (Hle x Hx). rewrite E, Hid in Hle.
      specialize (Hlt x Hx Hxid). lia. }
    assert (Hg' : Dict.get id (Dict.del oldest ss) = Some s).
    { rewrite get_del_other by congruence. exact Hg. }
    destruct (Dict.keys (Dict.del oldest ss)) as [| k' ks'] eqn:Ek'.
    { apply get_in_keys in Hg'. rewrite Ek' in Hg'. destruct Hg'. }
    f_equal. apply max_from_unique.
    + rewrite <- Ek'. eapply get_in_keys. exact Hg'.
    + intros y Hy Hyid. rewrite <- Ek' in Hy.
      assert (Hyo : y <> oldest).
      { intro E. subst y. exact (notin_keys_del oldest ss Hwf' Hy). }
      unfold last_used_of. rewrite Hg'.
      rewrite get_del_other by assumption.
      apply in_keys_del in Hy. rewrite Ek in Hy. apply (Hlt y Hy Hyid).
  - destruct (Dict.keys ss) as [| k ks] eqn:Ek.
    { destruct ss; [congruence | discriminate]. }
    f_equal. apply max_from_unique.
    + rewrite <- Ek. eapply get_in_keys. exact Hg.
    + intros y Hy Hyid. rewrite Hid. apply (Hlt y Hy Hyid).
Qed.

Lemma X16_witness :
  fst (get_or_create_session (Example.world (Example.at_ 10 6) [])
         (Py.PBool false) Py.PNone
         (Example.state (Example.cfg 2 3600) Example.store_AB))
  = Return (Str.lit "B").
Proof.
  refine (proj1 (X16_most_recently_used_session_is_reused
                   (Example.world (Example.at_ 10 6) [])
                   (Example.state (Example.cfg 2 3600) Example.store_AB)
                   (Py.PBool false) Py.PNone (Str.lit "B")
                   (snd (Example.session "B" (Example.at_ 10 5)))
                   _ _ _ _ _ _)).
  - repeat constructor; cbn; intuition discriminate.
  - unfold ttl_in_range. cbn. lia.
  - reflexivity.
  - vm_compute. reflexivity.
  - assert (Es : swept (Example.world (Example.at_ 10 6) [])
                   (Example.state (Example.cfg 2 3600) Example.store_AB)
                 = Example.store_AB) by (vm_compute; reflexivity).
    rewrite Es. intros k [Hk | [Hk | []]] Hn.
    + subst k. vm_compute. reflexivity.
    + exfalso. apply Hn. rewrite <- Hk. reflexivity.
  - left. vm_compute. lia.
Defined.

(** ** Extra properties of the tool boundary *)

Ltac lit_neq :=
  let H := fresh in intro H; vm_compute in H; discriminate H.

Lemma arg_absent (arguments : dict Py.value) (name : string)
  (default : Py.value) :
  Dict.get (Str.lit name) arguments = None ->
  arg arguments name default = default.
Proof. intro H. unfold arg. now rewrite H. Qed.

Lemma arg_set_same (arguments : dict Py.value) (name : string)
  (v default : Py.value) :
  arg (Dict.set (Str.lit name) v arguments) name default = v.
Proof. unfold arg. now rewrite get_set_same. Qed.

Lemma arg_set_other (arguments : dict Py.value) (k : str) (name : string)
  (v default : Py.value) :
  Str.lit name <> k ->
  arg (Dict.set k v arguments) name default = arg arguments name default.
Proof. intro H. unfold arg. now rewrite get_set_other. Qed.

Lemma blank_empty : blank (Py.PStr []) = true.
Proof. reflexivity. Qed.

Lemma dispatch_unknown (W : World) (name : str)
  (arguments : dict Py.value) (st : State) :
  ~ In name (map tool_name handle_list_tools) ->
  dispatch W name arguments st
  = (Return (reply (Str.lit "Неизвестный инструмент: " ++ name)), st).
Proof.
  intro H. cbn in H.
  assert (H1 : Str.eqb name (Str.lit "ask_1c_ai") = false).
  { apply Str_eqb_neq. intro E. apply H. left. now rewrite E. }
  assert (H2 : Str.eqb name (Str.lit "explain_1c_syntax") = false).
  { apply Str_eqb_neq. intro E. apply H. right. left. now rewrite E. }
  assert (H3 : Str.eqb name (Str.lit "check_1c_code") = false).
  { apply Str_eqb_neq. intro E. apply H. right. right. left. now rewrite E. }
  unfold dispatch, try_except. rewrite H1, H2, H3. reflexivity.
Qed.

(** X17: a tool name that [handle_list_tools] does not list is answered
    with the unknown-tool message that repeats the name; no request is
    made, no clock is read and the session store is as it was. *)
Theorem X17_unlisted_tool_is_answered_as_unknown
  (W : World) (name : str) (arguments : dict Py.value) :
  ~ In name (map tool_name handle_list_tools) ->
  (forall st,
      dispatch W name arguments st
      = (Return (reply (Str.lit "Неизвестный инструмент: " ++ name)), st))
  /\ (forall self tr,
         snd (handle_call_tool W name arguments self tr) = tr
         /\ store_of (snd (fst (handle_call_tool W name arguments self tr)))
            = store_of self).
Proof.
  intro H. split.
  - intro st. now apply dispatch_unknown.
  - intros self tr.
    destruct (handle_call_tool_pure W name arguments self tr
                (reply (Str.lit "Неизвестный инструмент: " ++ name)))
      as [Ht [Hs _]].
    + intro st. now apply dispatch_unknown.
    + split; assumption.
Qed.

Lemma X17_witness :
  fst (dispatch (Example.world (Example.at_ 10 6) []) (Str.lit "translate") []
         (Example.state (Example.cfg 10 3600) Example.store_AB))
  = Return (reply (Str.lit "Неизвестный инструмент: translate")).
Proof.
  rewrite (proj1 (X17_unlisted_tool_is_answered_as_unknown
                    (Example.world (Example.at_ 10 6) [])
                    (Str.lit "translate") []
                    ltac:(cbn; intros [H | [H | [H | []]]];
                          vm_compute in H; discriminate H))).
  vm_compute. reflexivity.
Defined.

(** X18: every listed tool, called without one of the arguments its
    schema requires, answers with its empty-text message and leaves the
    state untouched: the handlers read a missing argument as the empty
    string. *)
Theorem X18_missing_required_argument_is_rejected
  (W : World) (t : Tool) (key : str) (arguments : dict Py.value)
  (st : State) :
  In t handle_list_tools ->
  In key (required (inputSchema t)) ->
  Dict.get key arguments = None ->
  exists k message,
    tool (tool_name t) k message
    /\ Str.lit k = key
    /\ dispatch W (tool_name t) arguments st = (Return (reply message), st).
Proof.
  intros Ht Hk Hg.
  destruct Ht as [<- | [<- | [<- | []]]]; cbn in Hk;
    destruct Hk as [<- | []]; cbn [tool_name tool_ask_1c_ai
      tool_explain_1c_syntax tool_check_1c_code].
  - exists "question"%string. eexists. split; [apply tool_ask |].
    split; [reflexivity |].
    eapply dispatch_blank; [apply tool_ask |].
    rewrite arg_absent by assumption. apply blank_empty.
  - exists "syntax_element"%string. eexists. split; [apply tool_explain |].
    split; [reflexivity |].
    eapply dispatch_blank; [apply tool_explain |].
    rewrite arg_absent by assumption. apply blank_empty.
  - exists "code"%string. eexists. split; [apply tool_check |].
    split; [reflexivity |].
    eapply dispatch_blank; [apply tool_check |].
    rewrite arg_absent by assumption. apply blank_empty.
Qed.

Lemma X18_witness :
  exists k message,
    tool (tool_name tool_check_1c_code) k message
    /\ Str.lit k = Str.lit "code"
    /\ dispatch (Example.world (Example.at_ 10 6) [Example.ok "a"])
         (tool_name tool_check_1c_code)
         [(Str.lit "check_type", Py.PStr (Str.lit "logic"))]
         (Example.state (Example.cfg 10 3600) Example.store_AB)
       = (Return (reply message),
          Example.state (Example.cfg 10 3600) Example.store_AB).
Proof.
  apply X18_missing_required_argument_is_rejected.
  - right. right. left. reflexivity.
  - left. reflexivity.
  - vm_compute. reflexivity.
Defined.

(** X19: the defaults the tool list declares are the defaults the
    handlers apply: for every listed tool and every property its schema
    gives a default, a call that omits the argument behaves exactly as a
    call that passes the declared default. *)
Theorem X19_declared_defaults_are_the_applied_defaults
  (W : World) (t : Tool) (key : str) (p : Property) (d : Py.value)
  (arguments : dict Py.value) (st : State) :
  In t handle_list_tools ->
  Dict.get key (properties (inputSchema t)) = Some p ->
  prop_default p = Some d ->
  Dict.get key arguments = None ->
  dispatch W (tool_name t) (Dict.set key d arguments) st
  = dispatch W (tool_name t) arguments st.
Proof.
  intros Ht Hp Hd Hg.
  destruct Ht as [<- | [<- | [<- | []]]];
    cbn [tool_name inputSchema properties tool_ask_1c_ai
         tool_explain_1c_syntax tool_check_1c_code Dict.get] in *.
  - (* ask_1c_ai *)
    rewrite !dispatch_ask. unfold _handle_ask_1c_ai.
    destruct (Str.eqb key (Str.lit "question")) eqn:E1.
    { injection Hp as <-. discriminate Hd. }
    apply Str_eqb_neq in E1.
    destruct (Str.eqb key (Str.lit "programming_language")) eqn:E2.
    { apply Str_eqb_eq in E2. subst key.
      injection Hp as <-. injection Hd as <-.
      rewrite arg_set_same.
      rewrite !arg_set_other by lit_neq.
      rewrite (arg_absent arguments "programming_language") by assumption.
      reflexivity. }
    apply Str_eqb_neq in E2.
    destruct (Str.eqb key (Str.lit "create_new_session")) eqn:E3;
      [| discriminate Hp].
    apply Str_eqb_eq in E3. subst key.
    injection Hp as <-. injection Hd as <-.
    rewrite arg_set_same.
    rewrite !arg_set_other by lit_neq.
    rewrite (arg_absent arguments "create_new_session") by assumption.
    reflexivity.
  - (* explain_1c_syntax *)
    rewrite !dispatch_explain. unfold _handle_explain_syntax.
    destruct (Str.eqb key (Str.lit "syntax_element")) eqn:E1.
    { injection Hp as <-. discriminate Hd. }
    destruct (Str.eqb key (Str.lit "context")) eqn:E2; [| discriminate Hp].
    apply Str_eqb_eq in E2. subst key.
    injection Hp as <-. injection Hd as <-.
    rewrite arg_set_same.
    rewrite !arg_set_other by lit_neq.
    rewrite (arg_absent arguments "context") by assumption.
    reflexivity.
  - (* check_1c_code *)
    rewrite !dispatch_check. unfold _handle_check_code.
    destruct (Str.eqb key (Str.lit "code")) eqn:E1.
    { injection Hp as <-. discriminate Hd. }
    destruct (Str.eqb key (Str.lit "check_type")) eqn:E2; [| discriminate Hp].
    apply Str_eqb_eq in E2. subst key.
    injection Hp as <-. injection Hd as <-.
    rewrite arg_set_same.
    rewrite !arg_set_other by lit_neq.
    rewrite (arg_absent arguments "check_type") by assumption.
    reflexivity.
Qed.

Lemma X19_witness :
  dispatch (Example.world (Example.at_ 10 6) [Example.ok "a"; Example.ok "a"])
    (tool_name tool_check_1c_code)
    (Dict.set (Str.lit "check_type") (Py.PStr (Str.lit "syntax"))
       [(Str.lit "code", Py.PStr (Str.lit "x = 1"))])
    (Example.state (Example.cfg 10 3600) [])
  = dispatch (Example.world (Example.at_ 10 6) [Example.ok "a"; Example.ok "a"])
      (tool_name tool_check_1c_code)
      [(Str.lit "code", Py.PStr (Str.lit "x = 1"))]
      (Example.state (Example.cfg 10 3600) []).
Proof.
  apply (X19_declared_defaults_are_the_applied_defaults
           (Example.world (Example.at_ 10 6) [Example.ok "a"; Example.ok "a"])
           tool_check_1c_code (Str.lit "check_type")
           {| prop_type := Str.lit "string";
              prop_description :=
                Str.lit "Тип проверки: syntax (синтаксис), logic (логика), performance (производительность)";
              prop_enum :=
                Some [Str.lit "syntax"; Str.lit "logic"; Str.lit "performance"];
              prop_default := Some (Py.PStr (Str.lit "syntax")) |}
           (Py.PStr (Str.lit "syntax"))).
  - right. right. left. reflexivity.
  - vm_compute. reflexivity.
  - reflexivity.
  - vm_compute. reflexivity.
Defined.

(** X20: while the server has no configuration and none can be loaded
    -- the token is not set, or an integer setting is no integer -- every
    tool call, whatever its name and arguments, is answered with the
    configuration error; the server stays without configuration and
    client, and nothing is requested. *)
Theorem X20_unloadable_configuration_answers_every_call
  (W : World) (name : str) (arguments : dict Py.value)
  (self : OneCMcpServer) (tr : list Event) :
  self_config self = None ->
  Config.set_onec_ai_token (environ W) = None
  \/ Config.set_timeout (environ W) = Config.Malformed
  \/ Config.set_max_active_sessions (environ W) = Config.Malformed
  \/ Config.set_session_ttl (environ W) = Config.Malformed ->
  handle_call_tool W name arguments self tr
  = (reply (Str.lit "Ошибка конфигурации: "
            ++ describe W (ValidationError "Config") ++ nl
            ++ Str.lit "Установите переменную окружения ONEC_AI_TOKEN"),
     self, tr).
Proof.
  intros Hc He.
  assert (Hi : Config.init (environ W) = None).
  { unfold Config.init.
    destruct He as [E | [E | [E | E]]]; rewrite E; cbn [Config.int_field].
    - reflexivity.
    - now destruct (Config.set_onec_ai_token (environ W)).
    - destruct (Config.set_onec_ai_token (environ W)); [| reflexivity].
      now destruct (Config.int_field 30 (Config.set_timeout (environ W))).
    - destruct (Config.set_onec_ai_token (environ W)); [| reflexivity].
      destruct (Config.int_field 30 (Config.set_timeout (environ W)));
        [| reflexivity].
      now destruct (Config.int_field 10
                      (Config.set_max_active_sessions (environ W))). }
  unfold handle_call_tool, get_config. rewrite Hc, Hi. reflexivity.
Qed.

(** X21: a listed tool whose text argument is present but is no string
    (a number, a list, [null]) ends in the exception of calling [strip]
    on it; the boundary answers with the unexpected-error message, and
    neither the trace nor the session store changes. *)
Theorem X21_text_that_is_no_string_is_an_unexpected_error
  (W : World) (name : str) (key : string) (message : str)
  (arguments : dict Py.value) (v : Py.value) :
  tool name key message ->
  arg arguments key (Py.PStr []) = v ->
  (forall q, v <> Py.PStr q) ->
  (forall st,
      dispatch W name arguments st
      = (Return (reply (Str.lit "Произошла неожиданная ошибка: "
                        ++ describe W (AttributeError v "strip"))),
         st))
  /\ (forall self tr,
         snd (handle_call_tool W name arguments self tr) = tr
         /\ store_of (snd (fst (handle_call_tool W name arguments self tr)))
            = store_of self).
Proof.
  intros T Hv Hn.
  assert (D : forall st,
             dispatch W name arguments st
             = (Return (reply (Str.lit "Произошла неожиданная ошибка: "
                               ++ describe W (AttributeError v "strip"))),
                st)).
  { intro st. destruct T.
    - rewrite dispatch_ask. unfold _handle_ask_1c_ai. rewrite Hv.
      destruct v; try reflexivity. exfalso. now apply (Hn s).
    - rewrite dispatch_explain. unfold _handle_explain_syntax. rewrite Hv.
      destruct v; try reflexivity. exfalso. now apply (Hn s).
    - rewrite dispatch_check. unfold _handle_check_code. rewrite Hv.
      destruct v; try reflexivity. exfalso. now apply (Hn s). }
  split; [exact D |].
  intros self tr.
  destruct (handle_call_tool_pure W name arguments self tr _ D)
    as [Ht [Hs _]].
  split; assumption.
Qed.

Lemma X21_witness :
  dispatch (Example.world (Example.at_ 10 6) [Example.ok "a"])
    (Str.lit "ask_1c_ai") [(Str.lit "question", Py.PInt 42)]
    (Example.state (Example.cfg 10 3600) Example.store_AB)
  = (Return (reply (Str.lit "Произошла неожиданная ошибка: "
                    ++ describe (Example.world (Example.at_ 10 6)
                                   [Example.ok "a"])
                         (AttributeError (Py.PInt 42) "strip"))),
     Example.state (Example.cfg 10 3600) Example.store_AB).
Proof.
  apply (proj1 (X21_text_that_is_no_string_is_an_unexpected_error
                  (Example.world (Example.at_ 10 6) [Example.ok "a"])
                  (Str.lit "ask_1c_ai") "question"
                  (Str.lit "Ошибка: Вопрос не может быть пустым")
                  [(Str.lit "question", Py.PInt 42)] (Py.PInt 42)
                  tool_ask
                  ltac:(vm_compute; reflexivity)
                  ltac:(intros q H; discriminate H))
           (Example.state (Example.cfg 10 3600) Example.store_AB)).
Defined.

(** X22: what [_sanitize_text] returns holds no control or format
    character other than line feed, carriage return and tab; the empty
    text stays empty; and a text that normalisation leaves alone and
    that holds no control or format character other than those three
    comes back as it is, its line feeds, carriage returns and tabs
    included. *)
Theorem X22_sanitized_text_has_no_control_characters
  (W : World) (text : str) :
  Forall (fun c => is_control W c = false \/ c = 10%N \/ c = 13%N \/ c = 9%N)
         (_sanitize_text W text)
  /\ _sanitize_text W [] = []
  /\ (nfkc W text = text ->
      Forall (fun c => is_control W c = false
                       \/ c = 10%N \/ c = 13%N \/ c = 9%N) text ->
      _sanitize_text W text = text).
Proof.
  split; [| split].
  - unfold _sanitize_text. destruct text as [| c0 r]; [constructor |].
    apply Forall_forall. intros c Hc. apply filter_In in Hc as [_ Hc].
    destruct (is_control W c); [| now left].
    right. cbn [negb orb] in Hc.
    destruct (N.eqb_spec c 10); [now left |].
    destruct (N.eqb_spec c 13); [right; now left |].
    destruct (N.eqb_spec c 9); [right; now right | discriminate].
  - reflexivity.
  - intros Hn Hc. unfold _sanitize_text.
    destruct text as [| c0 r]; [reflexivity |].
    rewrite Hn. apply forallb_filter_id. apply forallb_forall.
    intros c Hin. rewrite Forall_forall in Hc.
    destruct (Hc c Hin) as [H | [H | [H | H]]].
    + now rewrite H.
    + subst c. now destruct (is_control W 10).
    + subst c. now destruct (is_control W 13).
    + subst c. now destruct (is_control W 9).
Qed.

Lemma X22_witness :
  _sanitize_text (Example.world 0 [])
    (Str.lit "x = 1" ++ [10%N; 9%N] ++ Str.lit "y = 2" ++ [13%N; 10%N])
  = Str.lit "x = 1" ++ [10%N; 9%N] ++ Str.lit "y = 2" ++ [13%N; 10%N].
Proof.
  apply (proj2 (proj2 (X22_sanitized_text_has_no_control_characters
                         (Example.world 0 [])
                         (Str.lit "x = 1" ++ [10%N; 9%N]
                          ++ Str.lit "y = 2" ++ [13%N; 10%N])))).
  - reflexivity.
  - vm_compute.
    repeat (first [apply Forall_nil
                  | apply Forall_cons;
                    [first [left; reflexivity
                           | right; left; reflexivity
                           | right; right; left; reflexivity
                           | right; right; right; reflexivity] |]]).
Defined.

Lemma X20_witness :
  handle_call_tool
    (MoreExamples.without_token (Example.world (Example.at_ 10 6) []))
    (Str.lit "ask_1c_ai") [(Str.lit "question", Py.PStr (Str.lit "hi"))]
    MoreExamples.fresh_server []
  = (reply (Str.lit "Ошибка конфигурации: "
            ++ describe
                 (MoreExamples.without_token
                    (Example.world (Example.at_ 10 6) []))
                 (ValidationError "Config") ++ nl
            ++ Str.lit "Установите переменную окружения ONEC_AI_TOKEN"),
     MoreExamples.fresh_server, []).
Proof.
  apply X20_unloadable_configuration_answers_every_call.
  - reflexivity.
  - left. reflexivity.
Defined.

(** ** A first question, end to end *)

Lemma create_conversation_ok (W : World) (st : State) (resp : Response)
  (id : str) :
  remote W (calls (trace st)) = Return resp ->
  status_code resp = 200 ->
  uuid resp = Return id ->
  create_conversation W Py.PNone Py.PNone st
  = (Return id,
     {| config := config st;
        sessions :=
          Dict.set id
            (ConversationSession_init id (clock W (reads (trace st))))
            (sessions st);
        trace :=
          (trace st
           ++ [Post {| req_ui_language := Config.ui_language (config st);
                       req_programming_language :=
                         Config.programming_language (config st);
                       req_script_language :=
                         Config.script_language (config st) |}])
          ++ [Now (clock W (reads (trace st)))] |}).
Proof.
  intros R S U.
  unfold create_conversation, try_except, bind, get_config_of_self,
    ConversationRequest_init, py_or, http, lift, now, get_sessions,
    put_sessions, raise, ret, with_event, with_sessions.
  cbn [Py.truthy config sessions trace].
  rewrite R. apply Z.eqb_eq in S. rewrite S. cbn [negb].
  rewrite U. cbn [config sessions trace].
  rewrite reads_call by reflexivity. reflexivity.
Qed.

Lemma post_message_ok (W : World) (st : State) (id message : str)
  (resp : Response) (answer : str) :
  remote W (calls (trace st)) = Return resp ->
  status_code resp = 200 ->
  fst (Sse.parse (aiter_lines resp) (read_error resp)) = Return answer ->
  post_message W id message st
  = (Return answer,
     {| config := config st;
        sessions := sessions st;
        trace := trace st ++ [Stream id {| instruction := message |}] |}).
Proof.
  intros R S P.
  unfold post_message, bind, http, lift, raise, ret, with_event.
  rewrite R. apply Z.eqb_eq in S. rewrite S. cbn [negb].
  rewrite P. reflexivity.
Qed.

(** X23: a first question, end to end.  On an empty store, with a
    question that is not blank and no other argument, when the service
    opens a conversation and then streams an answer, [ask_1c_ai] sweeps,
    opens the conversation, registers it, marks it used and sends the
    question to it, in this order; it answers with the sanitised text
    followed by the session id, and the store holds that one session,
    created at the second reading of the clock and last used at the
    third. *)
Theorem X23_first_question_end_to_end
  (W : World) (c : Config) (tr : list Event) (arguments : dict Py.value)
  (q id answer : str) (resp1 resp2 : Response) :
  ttl_in_range c ->
  arg arguments "question" (Py.PStr []) = Py.PStr q ->
  Str.strip q <> [] ->
  Dict.get (Str.lit "programming_language") arguments = None ->
  Dict.get (Str.lit "create_new_session") arguments = None ->
  remote W (calls tr) = Return resp1 ->
  status_code resp1 = 200 ->
  uuid resp1 = Return id ->
  remote W (S (calls tr)) = Return resp2 ->
  status_code resp2 = 200 ->
  fst (Sse.parse (aiter_lines resp2) (read_error resp2)) = Return answer ->
  _handle_ask_1c_ai W arguments {| config := c; sessions := []; trace := tr |}
  = (Return
       (reply (Str.lit "Ответ от 1С.ai:" ++ nl ++ nl
               ++ _sanitize_text W answer
               ++ nl ++ nl ++ Str.lit "Сессия: " ++ id)),
     {| config := c;
        sessions :=
          [(id, {| conversation_id := id;
                   created_at := clock W (S (reads tr));
                   last_used := clock W (S (S (reads tr))) |})];
        trace :=
          tr ++ [Now (clock W (reads tr));
                 Post {| req_ui_language := Config.ui_language c;
                         req_programming_language :=
                           Config.programming_language c;
                         req_script_language := Config.script_language c |};
                 Now (clock W (S (reads tr)));
                 Now (clock W (S (S (reads tr))));
                 Stream id {| instruction := q |}] |}).
Proof.
  intros Httl Hq Hs Hpl Hnew R1 S1 U1 R2 S2 P2.
  unfold _handle_ask_1c_ai.
  rewrite Hq, (arg_absent _ "programming_language") by assumption.
  rewrite (arg_absent _ "create_new_session") by assumption.
  destruct (Str.strip q) as [| c0 r0] eqn:Es; [congruence |].
  cbn [Py.truthy negb py_or].
  unfold bind at 1.
  rewrite acquire_create;
    [| constructor | exact Httl | right; reflexivity].
  unfold swept. cbn [config sessions trace filter].
  rewrite (create_conversation_ok W _ resp1 id);
    [| cbn [trace]; now rewrite calls_now | exact S1 | exact U1].
  cbn [config sessions trace Dict.set].
  rewrite reads_now.
  unfold bind at 1.
  pose proof (send_message_unfold W
                {| config := c;
                   sessions :=
                     [(id, ConversationSession_init id (clock W (S (reads tr))))];
                   trace :=
                     ((tr ++ [Now (clock W (reads tr))])
                      ++ [Post {| req_ui_language := Config.ui_language c;
                                  req_programming_language :=
                                    Config.programming_language c;
                                  req_script_language :=
                                    Config.script_language c |}])
                     ++ [Now (clock W (S (reads tr)))] |}
                id q) as U.
  cbv zeta in U.
  rewrite register_usage_spec in U.
  cbn [snd config sessions trace Dict.get Dict.set] in U.
  rewrite Str_eqb_refl in U.
  rewrite (post_message_ok W _ id q resp2 answer) in U.
  - rewrite U. cbn [config sessions trace].
    rewrite !reads_now, reads_call, reads_now by reflexivity.
    unfold ret, update_usage, ConversationSession_init.
    cbn [conversation_id created_at last_used].
    rewrite <- !app_assoc. reflexivity.
  - cbn [trace].
    rewrite calls_now, calls_now, calls_call, calls_now by reflexivity.
    exact R2.
  - exact S2.
  - exact P2.
Qed.

Lemma X23_witness :
  _handle_ask_1c_ai
    (Example.world (Example.at_ 10 6) [Example.ok "a"; Example.ok "a"])
    [(Str.lit "question", Py.PStr (Str.lit "hi"))]
    {| config := Example.cfg 10 3600; sessions := []; trace := [] |}
  = (Return
       (reply (Str.lit "Ответ от 1С.ai:" ++ nl ++ nl
               ++ _sanitize_text
                    (Example.world (Example.at_ 10 6)
                       [Example.ok "a"; Example.ok "a"])
                    (Str.lit "Hello")
               ++ nl ++ nl ++ Str.lit "Сессия: " ++ Str.lit "a")),
     {| config := Example.cfg 10 3600;
        sessions :=
          [(Str.lit "a",
            {| conversation_id := Str.lit "a";
               created_at :=
                 clock (Example.world (Example.at_ 10 6)
                          [Example.ok "a"; Example.ok "a"]) (S (reads []));
               last_used :=
                 clock (Example.world (Example.at_ 10 6)
                          [Example.ok "a"; Example.ok "a"])
                   (S (S (reads []))) |})];
        trace :=
          [] ++ [Now (clock (Example.world (Example.at_ 10 6)
                               [Example.ok "a"; Example.ok "a"]) (reads []));
                 Post {| req_ui_language :=
                           Config.ui_language (Example.cfg 10 3600);
                         req_programming_language :=
                           Config.programming_language (Example.cfg 10 3600);
                         req_script_language :=
                           Config.script_language (Example.cfg 10 3600) |};
                 Now (clock (Example.world (Example.at_ 10 6)
                               [Example.ok "a"; Example.ok "a"])
                        (S (reads [])));
                 Now (clock (Example.world (Example.at_ 10 6)
                               [Example.ok "a"; Example.ok "a"])
                        (S (S (reads []))));
                 Stream (Str.lit "a") {| instruction := Str.lit "hi" |}] |}).
Proof.
  apply (X23_first_question_end_to_end
           (Example.world (Example.at_ 10 6) [Example.ok "a"; Example.ok "a"])
           (Example.cfg 10 3600) []
           [(Str.lit "question", Py.PStr (Str.lit "hi"))]
           (Str.lit "hi") (Str.lit "a") (Str.lit "Hello")
           {| status_code := 200;
              uuid := Return (Str.lit "a");
              aiter_lines := [Lines.hel; Lines.hello];
              read_error := None |}
           {| status_code := 200;
              uuid := Return (Str.lit "a");
              aiter_lines := [Lines.hel; Lines.hello];
              read_error := None |}).
  - unfold ttl_in_range. cbn. lia.
  - vm_compute. reflexivity.
  - vm_compute. discriminate.
  - vm_compute. reflexivity.
  - vm_compute. reflexivity.
  - reflexivity.
  - reflexivity.
  - reflexivity.
  - reflexivity.
  - reflexivity.
  - vm_compute. reflexivity.
Defined.

(** ** Extra properties of the calls as a whole *)

Lemma length_del_le {V} (k : str) (d : dict V) :
  (length (Dict.del k d) <= length d)%nat.
Proof.
  induction d as [| [k' v'] d IH]; cbn; [lia |].
  destruct (Str.eqb k k'); cbn; lia.
Qed.

Lemma length_fold_del_le {V} (ks : list str) (d : dict V) :
  (length (fold_left (fun d0 id => Dict.del id d0) ks d) <= length d)%nat.
Proof.
  revert d. induction ks as [| k ks IH]; intro d; cbn [fold_left]; [lia |].
  specialize (IH (Dict.del k d)). pose proof (length_del_le k d). lia.
Qed.

Lemma cleanup_length (W : World) (st : State) :
  (length (sessions (snd (_cleanup_old_sessions W st)))
   <= length (sessions st))%nat.
Proof.
  unfold _cleanup_old_sessions, bind, now, get_config_of_self, timedelta,
    get_sessions, put_sessions, with_event, with_sessions, ret, fail, raise.
  cbn [config sessions trace].
  destruct ((-999999999 <=? Config.session_ttl (config st) / 86400)
            && (Config.session_ttl (config st) / 86400 <=? 999999999));
    cbn [snd sessions]; [apply length_fold_del_le | lia].
Qed.

Lemma create_length (W : World) (pl sl : Py.value) (st : State) :
  (length (sessions (snd (create_conversation W pl sl st)))
   <= S (length (sessions st)))%nat.
Proof.
  pose proof (create_conversation_outcome W pl sl st) as O.
  destruct (create_conversation W pl sl st) as [[id | e] st']; cbn [snd].
  - destruct O as [resp [_ [_ [_ [E _]]]]]. rewrite E, length_set.
    destruct (Dict.mem id (sessions st)); lia.
  - destruct O as [_ [E _]]. rewrite E. lia.
Qed.

Lemma acquire_length (W : World) (create_new pl : Py.value) (st : State) :
  (length (sessions (snd (get_or_create_session W create_new pl st)))
   <= S (length (sessions st)))%nat.
Proof.
  pose proof (cleanup_length W st) as Hc.
  unfold get_or_create_session.
  unfold bind at 1.
  destruct (_cleanup_old_sessions W st) as [[[] | e] st1];
    cbn [snd] in Hc; [| cbn [snd]; lia].
  unfold bind at 1. unfold get_sessions at 1.
  unfold bind at 1. unfold get_config_of_self at 1.
  destruct (Py.truthy create_new || Dict.is_empty (sessions st1)).
  - pose proof (create_length W pl Py.PNone st1). lia.
  - unfold bind, py_min, py_max, fail, raise, ret, put_sessions,
      get_sessions, with_sessions.
    destruct (Config.max_active_sessions (config st1)
              <=? Z.of_nat (length (sessions st1))).
    + destruct (Dict.keys (sessions st1)) as [| k ks] eqn:Ek.
      * cbn [snd sessions]. lia.
      * cbn [config sessions trace].
        pose proof (length_del_le (min_from (last_used_of (sessions st1)) k ks)
                      (sessions st1)).
        destruct (Dict.keys (Dict.del _ (sessions st1)));
          cbn [snd sessions]; lia.
    + cbn [config sessions trace].
      destruct (Dict.keys (sessions st1)); cbn [snd sessions]; lia.
Qed.

Lemma send_known_length (W : World) (id message : str) (st : State) :
  Dict.mem id (sessions st) = true ->
  length (sessions (snd (send_message W id message st)))
  = length (sessions st).
Proof.
  intro H.
  pose proof (send_message_unfold W st id message) as U. cbv zeta in U.
  pose proof (post_message_store W (snd (register_usage W id st)) id message)
    as [Hs _].
  destruct (post_message W id message (snd (register_usage W id st)))
    as [r st2].
  rewrite U. cbn [snd] in *. rewrite Hs.
  rewrite register_usage_spec. cbn [snd].
  unfold Dict.mem in H.
  destruct (Dict.get id (sessions st)) as [s |] eqn:G; [| discriminate].
  cbn [sessions]. rewrite length_set. unfold Dict.mem. now rewrite G.
Qed.

(** Acquiring a session and sending a message to it, as the three
    handlers do: the message always goes to an id of the store. *)
Lemma acquire_send_length {A} (W : World) (create_new pl : Py.value)
  (message : str) (k : str -> str -> A) (st : State) :
  (length
     (sessions
        (snd ((conversation_id <- get_or_create_session W create_new pl ;;
               answer <- send_message W conversation_id message ;;
               ret (k conversation_id answer)) st)))
   <= S (length (sessions st)))%nat.
Proof.
  pose proof (acquire_length W create_new pl st) as Ha.
  pose proof (acquire_returns_member W create_new pl st) as Hm.
  unfold bind at 1.
  destruct (get_or_create_session W create_new pl st) as [[id | e] st1];
    cbn [snd] in *; [| exact Ha].
  pose proof (send_known_length W id message st1 Hm) as Hl.
  unfold bind, ret.
  destruct (send_message W id message st1) as [[a | e] st2];
    cbn [snd] in *; lia.
Qed.

(** X24: a tool call adds at most one session to the store, whatever
    the tool, its arguments and the answers of the service: the message
    of a handler always goes to an id that acquiring has left in the
    store, so sending never inserts a second entry. *)
Theorem X24_a_tool_call_adds_at_most_one_session
  (W : World) (name : str) (arguments : dict Py.value) (st : State) :
  (length (sessions (snd (dispatch W name arguments st)))
   <= S (length (sessions st)))%nat.
Proof.
  assert (T : forall (m : M (list TextContent)),
             (length (sessions (snd (m st))) <= S (length (sessions st)))%nat ->
             (length
                (sessions
                   (snd (try_except m
                           (fun e =>
                              match e with
                              | ApiError message _ =>
                                ret (reply (Str.lit "Ошибка при обращении к 1С.ai: "
                                            ++ message))
                              | _ =>
                                ret (reply (Str.lit "Произошла неожиданная ошибка: "
                                            ++ exn_str e))
                              end) st)))
              <= S (length (sessions st)))%nat).
  { intros m Hm. unfold try_except.
    destruct (m st) as [[a | e] st']; cbn [snd] in *; [exact Hm |].
    destruct e; exact Hm. }
  unfold dispatch. apply T.
  destruct (Str.eqb name (Str.lit "ask_1c_ai")).
  { unfold _handle_ask_1c_ai.
    destruct (arg arguments "question" (Py.PStr [])) as [| | | | q | |];
      try (unfold fail, raise, ret; cbn [snd]; lia).
    destruct (negb (Py.truthy (Py.PStr (Str.strip q)))); [unfold ret; cbn [snd]; lia |].
    apply acquire_send_length. }
  destruct (Str.eqb name (Str.lit "explain_1c_syntax")).
  { unfold _handle_explain_syntax.
    destruct (arg arguments "syntax_element" (Py.PStr [])) as [| | | | q | |];
      try (unfold fail, raise, ret; cbn [snd]; lia).
    destruct (negb (Py.truthy (Py.PStr (Str.strip q)))); [unfold ret; cbn [snd]; lia |].
    apply acquire_send_length. }
  destruct (Str.eqb name (Str.lit "check_1c_code")); [| unfold ret; cbn [snd]; lia].
  unfold _handle_check_code.
  destruct (arg arguments "code" (Py.PStr [])) as [| | | | q | |];
    try (unfold fail, raise, ret; cbn [snd]; lia).
  destruct (negb (Py.truthy (Py.PStr (Str.strip q)))); [unfold ret; cbn [snd]; lia |].
  unfold bind at 1.
  destruct (check_description W (arg arguments "check_type"
                                   (Py.PStr (Str.lit "syntax"))) st)
    as [[d | e] st0] eqn:Ed.
  - assert (st0 = st).
    { unfold check_description, fail, raise, ret in Ed.
      destruct (arg arguments "check_type" (Py.PStr (Str.lit "syntax")));
        congruence. }
    subst st0. apply acquire_send_length.
  - assert (st0 = st).
    { unfold check_description, fail, raise, ret in Ed.
      destruct (arg arguments "check_type" (Py.PStr (Str.lit "syntax")));
        congruence. }
    subst st0. cbn [snd]. lia.
Qed.

(** X25: a listed tool ignores every argument its schema does not name:
    passing one, with any value, changes neither the answer nor the
    state.  In particular [explain_1c_syntax] and [check_1c_code] cannot
    be made to open a new session. *)
Theorem X25_arguments_outside_the_schema_are_ignored
  (W : World) (t : Tool) (key : str) (v : Py.value)
  (arguments : dict Py.value) (st : State) :
  In t handle_list_tools ->
  ~ In key (Dict.keys (properties (inputSchema t))) ->
  dispatch W (tool_name t) (Dict.set key v arguments) st
  = dispatch W (tool_name t) arguments st.
Proof.
  intros Ht Hk.
  assert (N : forall name : string,
             In (Str.lit name) (Dict.keys (properties (inputSchema t))) ->
             Str.lit name <> key).
  { intros name Hin E. apply Hk. now rewrite <- E. }
  destruct Ht as [<- | [<- | [<- | []]]];
    cbn [tool_name inputSchema properties tool_ask_1c_ai
         tool_explain_1c_syntax tool_check_1c_code Dict.keys map fst] in N.
  - rewrite !dispatch_ask. unfold _handle_ask_1c_ai.
    rewrite (arg_set_other arguments key "question")
      by (apply N; left; reflexivity).
    rewrite (arg_set_other arguments key "programming_language")
      by (apply N; right; left; reflexivity).
    rewrite (arg_set_other arguments key "create_new_session")
      by (apply N; right; right; left; reflexivity).
    reflexivity.
  - rewrite !dispatch_explain. unfold _handle_explain_syntax.
    rewrite (arg_set_other arguments key "syntax_element")
      by (apply N; left; reflexivity).
    rewrite (arg_set_other arguments key "context")
      by (apply N; right; left; reflexivity).
    reflexivity.
  - rewrite !dispatch_check. unfold _handle_check_code.
    rewrite (arg_set_other arguments key "code")
      by (apply N; left; reflexivity).
    rewrite (arg_set_other arguments key "check_type")
      by (apply N; right; left; reflexivity).
    reflexivity.
Qed.

Lemma X25_witness :
  dispatch (Example.world (Example.at_ 10 6) [Example.ok "a"])
    (tool_name tool_explain_1c_syntax)
    (Dict.set (Str.lit "create_new_session") (Py.PBool true)
       [(Str.lit "syntax_element", Py.PStr (Str.lit "Запрос"))])
    (Example.state (Example.cfg 10 3600) Example.store_AB)
  = dispatch (Example.world (Example.at_ 10 6) [Example.ok "a"])
      (tool_name tool_explain_1c_syntax)
      [(Str.lit "syntax_element", Py.PStr (Str.lit "Запрос"))]
      (Example.state (Example.cfg 10 3600) Example.store_AB).
Proof.
  apply X25_arguments_outside_the_schema_are_ignored.
  - right. left. reflexivity.
  - cbn. intros [H | [H | []]]; vm_compute in H; discriminate H.
Defined.



